(** * Third-octave filter bank: the level-metering engine of
      [third_octave_filter.cpp], embedded and checked against its
      specification.

    The C++ code works on [double] and [float] values.  The embedding is
    generic in the arithmetic (class [Arith]): every operation the source
    performs on a floating-point value is an operation of the class, in the
    order and with the conversions the source has.  Module [IEEE] gives the
    binary32 / binary64 instance used to run the code on concrete inputs.

    Undefined behaviour of the C++ code (a null [pFilterBank], an index
    past the end of an array, a float-to-integer conversion out of range)
    is an explicit [Undefined] outcome.  The overflow of an [int] is not
    among these outcomes: [samplesCount] is reduced to 32 bits ([wrap_int]),
    and the theorems that promise a returning call bound it by
    hypothesis. *)

From Stdlib Require Import ZArith List Lia SpecFloat.
From Stdlib Require QArith Qround.
From stdpp Require Import base option list fin vector finite.
Import ListNotations.

Local Open Scope Z_scope.

(** ** Literals and arithmetic *)

(** A decimal floating literal of the source: [Dec m e] is [m * 10^e].
    [9.1839749966e-08] is [Dec 91839749966 (-18)]. *)
Record dec := Dec { dec_mant : Z; dec_exp : Z }.

(** The floating-point operations the source uses, on the values
    [double] of the C++ [double] and [float] of the C++ [float]. *)
Class Arith (double float : Type) := {
  (** a [double] literal *)
  d_lit : dec -> double;
  dadd : double -> double -> double;
  dsub : double -> double -> double;
  dmul : double -> double -> double;
  (** [pow(x, 2)] *)
  dpow2 : double -> double;
  (** [(double)x] *)
  d_of_f : float -> double;
  (** [(float)x] *)
  f_of_d : double -> float;
  (** a [float] literal such as [120.0f] *)
  f_lit : dec -> float;
  (** conversion of an [int] to [float], explicit or implicit *)
  f_of_int : Z -> float;
  fadd : float -> float -> float;
  fsub : float -> float -> float;
  fmul : float -> float -> float;
  fdiv : float -> float -> float;
  fsqrt : float -> float;
  flog10 : float -> float;
  (** [x == y] *)
  feqb : float -> float -> bool;
  (** [(uint64_t)x]; [None] when the truncated value is not a [uint64_t]
      (the conversion is then undefined) *)
  f_to_u64 : float -> option Z
}.

(** ** Outcomes *)

Inductive undefined_behaviour :=
  | NullDereference
  | OutOfBounds
  | ConversionOutOfRange.

Inductive outcome (A : Type) :=
  | Done (x : A)
  | Undefined (u : undefined_behaviour).
Arguments Done {A} x.
Arguments Undefined {A} u.

Global Instance outcome_ret : MRet outcome := fun A x => Done x.
Global Instance outcome_bind : MBind outcome := fun A B k m =>
  match m with
  | Done x => k x
  | Undefined u => Undefined u
  end.

(** The behaviour is defined: the call returns. *)
Definition defined {A} (m : outcome A) : Prop := exists x, m = Done x.

Fixpoint foldM {A B} (f : A -> B -> outcome A) (x : A) (l : list B) : outcome A :=
  match l with
  | [] => Done x
  | y :: l' => x' ← f x y; foldM f x' l'
  end.

(** ** Integers *)

(** [int] is 32 bits wide.  [wrap_int x] is [x] reduced to 32 bits, the
    value that the compiled addition leaves in an [int].  The C++ standard
    leaves the overflow itself undefined: a theorem that promises a call
    that returns keeps [samplesCount] and the loop counter below [2^31] by
    hypothesis. *)
Definition wrap_int (x : Z) : Z := (x + 2^31) mod 2^32 - 2^31.

(** Conversion of an [int] to [uint64_t], as the comparison of
    [samplesCount] with [maxNumberOfSamples] performs it. *)
Definition int_to_u64 (x : Z) : Z := x mod 2^64.

(** An array index [i] of an array of [n] elements; [None] past the end. *)
Fixpoint index (n : nat) (i : nat) : option (fin n) :=
  match n with
  | O => None
  | S n' => match i with
            | O => Some 0%fin
            | S i' => FS <$> index n' i'
            end
  end.

Definition indexZ (n : nat) (i : Z) : option (fin n) :=
  if i <? 0 then None else index n (Z.to_nat i).

(** ** Filter bank constants *)

Definition NUM_BANDS : nat := 31.
Definition MAX_BIQUAD_SECTIONS : nat := 2.

Definition LEFT_CHANNEL : Z := 0.
Definition RIGHT_CHANNEL : Z := 1.
Definition STEREO_CHANNEL : Z := 2.

(** ** The coefficient tables of [initializeFilterBank]

    [initializeFilterBank] is straight-line code: for each band it assigns
    [center_freq], [num_sections], and then, section by section, [b[0]],
    [b[1]], [b[2]], [a[0]], [a[1]], [a[2]], [z[0]] and [z[1]].  The tables
    hold the assigned values, band by band in the order of the source;
    [assignments] below unfolds a table into the sequence of assignments. *)

Record sos := Sos {
  sos_b0 : dec; sos_b1 : dec; sos_b2 : dec;
  sos_a0 : dec; sos_a1 : dec; sos_a2 : dec
}.

Record band_init := Band {
  init_center_freq : dec;
  init_num_sections : Z;
  init_sections : list sos
}.

(** The branch [filter_order == 2]. *)
Definition coefficients_order_2 : list band_init :=
  [
    Band (Dec 200 (-1)) 2 [
      Sos (Dec 91839749966 (-18)) (Dec 18367949993 (-17)) (Dec 91839749966 (-18))
          (Dec 10000000000 (-10)) (Dec (-19995282685) (-10)) (Dec 99953634283 (-11));
      Sos (Dec 10000000000 (-10)) (Dec (-20000000000) (-10)) (Dec 10000000000 (-10))
          (Dec 10000000000 (-10)) (Dec (-19996006861) (-10)) (Dec 99960650149 (-11))];
    Band (Dec 250 (-1)) 2 [
      Sos (Dec 14348423658 (-17)) (Dec 28696847317 (-17)) (Dec 14348423658 (-17))
          (Dec 10000000000 (-10)) (Dec (-19994078468) (-10)) (Dec 99942046219 (-11));
      Sos (Dec 10000000000 (-10)) (Dec (-20000000000) (-10)) (Dec 10000000000 (-10))
          (Dec 10000000000 (-10)) (Dec (-19994990648) (-10)) (Dec 99950815101 (-11))];
    Band (Dec 315 (-1)) 2 [
      Sos (Dec 22776385304 (-17)) (Dec 45552770607 (-17)) (Dec 22776385304 (-17))
          (Dec 10000000000 (-10)) (Dec (-19992498108) (-10)) (Dec 99926983749 (-11));
      Sos (Dec 10000000000 (-10)) (Dec (-20000000000) (-10)) (Dec 10000000000 (-10))
          (Dec 10000000000 (-10)) (Dec (-19993658855) (-10)) (Dec 99938030979 (-11))];
    Band (Dec 400 (-1)) 2 [
      Sos (Dec 36720162518 (-17)) (Dec 73440325036 (-17)) (Dec 36720162518 (-17))
          (Dec 10000000000 (-10)) (Dec (-19990406114) (-10)) (Dec 99907290111 (-11));
      Sos (Dec 10000000000 (-10)) (Dec (-20000000000) (-10)) (Dec 10000000000 (-10))
          (Dec 10000000000 (-10)) (Dec (-19991899002) (-10)) (Dec 99921315736 (-11))];
    Band (Dec 500 (-1)) 2 [
      Sos (Dec 57362965624 (-17)) (Dec 11472593125 (-16)) (Dec 57362965624 (-17))
          (Dec 10000000000 (-10)) (Dec (-19987908144) (-10)) (Dec 99884126116 (-11));
      Sos (Dec 10000000000 (-10)) (Dec (-20000000000) (-10)) (Dec 10000000000 (-10))
          (Dec 10000000000 (-10)) (Dec (-19989802073) (-10)) (Dec 99901654301 (-11))];
    Band (Dec 630 (-1)) 2 [
      Sos (Dec 91044093041 (-17)) (Dec 18208818608 (-16)) (Dec 91044093041 (-17))
          (Dec 10000000000 (-10)) (Dec (-19984601330) (-10)) (Dec 99854020996 (-11));
      Sos (Dec 10000000000 (-10)) (Dec (-20000000000) (-10)) (Dec 10000000000 (-10))
          (Dec 10000000000 (-10)) (Dec (-19987033227) (-10)) (Dec 99876100175 (-11))];
    Band (Dec 800 (-1)) 2 [
      Sos (Dec 14675488516 (-16)) (Dec 29350977032 (-16)) (Dec 14675488516 (-16))
          (Dec 10000000000 (-10)) (Dec (-19980175675) (-10)) (Dec 99814666549 (-11));
      Sos (Dec 10000000000 (-10)) (Dec (-20000000000) (-10)) (Dec 10000000000 (-10))
          (Dec 10000000000 (-10)) (Dec (-19983339386) (-10)) (Dec 99842693007 (-11))];
    Band (Dec 1000 (-1)) 2 [
      Sos (Dec 22920635944 (-16)) (Dec 45841271889 (-16)) (Dec 22920635944 (-16))
          (Dec 10000000000 (-10)) (Dec (-19974822047) (-10)) (Dec 99768387234 (-11));
      Sos (Dec 10000000000 (-10)) (Dec (-20000000000) (-10)) (Dec 10000000000 (-10))
          (Dec 10000000000 (-10)) (Dec (-19978887759) (-10)) (Dec 99803404586 (-11))];
    Band (Dec 1250 (-1)) 2 [
      Sos (Dec 35794339408 (-16)) (Dec 71588678816 (-16)) (Dec 35794339408 (-16))
          (Dec 10000000000 (-10)) (Dec (-19967906744) (-10)) (Dec 99710568599 (-11));
      Sos (Dec 10000000000 (-10)) (Dec (-20000000000) (-10)) (Dec 10000000000 (-10))
          (Dec 10000000000 (-10)) (Dec (-19973162276) (-10)) (Dec 99754315463 (-11))];
    Band (Dec 1600 (-1)) 2 [
      Sos (Dec 58601557463 (-16)) (Dec 11720311493 (-15)) (Dec 58601557463 (-16))
          (Dec 10000000000 (-10)) (Dec (-19957808984) (-10)) (Dec 99629679590 (-11));
      Sos (Dec 10000000000 (-10)) (Dec (-20000000000) (-10)) (Dec 10000000000 (-10))
          (Dec 10000000000 (-10)) (Dec (-19964846396) (-10)) (Dec 99685630460 (-11))];
    Band (Dec 2000 (-1)) 2 [
      Sos (Dec 91486666575 (-16)) (Dec 18297333315 (-15)) (Dec 91486666575 (-16))
          (Dec 10000000000 (-10)) (Dec (-19945674699) (-10)) (Dec 99537316779 (-11));
      Sos (Dec 10000000000 (-10)) (Dec (-20000000000) (-10)) (Dec 10000000000 (-10))
          (Dec 10000000000 (-10)) (Dec (-19954914094) (-10)) (Dec 99607189798 (-11))];
    Band (Dec 2500 (-1)) 2 [
      Sos (Dec 14279529675 (-15)) (Dec 28559059350 (-15)) (Dec 14279529675 (-15))
          (Dec 10000000000 (-10)) (Dec (-19929617346) (-10)) (Dec 99421986348 (-11));
      Sos (Dec 10000000000 (-10)) (Dec (-20000000000) (-10)) (Dec 10000000000 (-10))
          (Dec 10000000000 (-10)) (Dec (-19941856867) (-10)) (Dec 99509223080 (-11))];
    Band (Dec 3150 (-1)) 2 [
      Sos (Dec 22638747004 (-15)) (Dec 45277494009 (-15)) (Dec 22638747004 (-15))
          (Dec 10000000000 (-10)) (Dec (-19907268354) (-10)) (Dec 99272262119 (-11));
      Sos (Dec 10000000000 (-10)) (Dec (-20000000000) (-10)) (Dec 10000000000 (-10))
          (Dec 10000000000 (-10)) (Dec (-19923817986) (-10)) (Dec 99382004797 (-11))];
    Band (Dec 4000 (-1)) 2 [
      Sos (Dec 36438801475 (-15)) (Dec 72877602950 (-15)) (Dec 36438801475 (-15))
          (Dec 10000000000 (-10)) (Dec (-19875534886) (-10)) (Dec 99076821039 (-11));
      Sos (Dec 10000000000 (-10)) (Dec (-20000000000) (-10)) (Dec 10000000000 (-10))
          (Dec 10000000000 (-10)) (Dec (-19898416841) (-10)) (Dec 99215875807 (-11))];
    Band (Dec 5000 (-1)) 2 [
      Sos (Dec 56814507890 (-15)) (Dec 11362901578 (-14)) (Dec 56814507890 (-15))
          (Dec 10000000000 (-10)) (Dec (-19834575730) (-10)) (Dec 98847404755 (-11));
      Sos (Dec 10000000000 (-10)) (Dec (-20000000000) (-10)) (Dec 10000000000 (-10))
          (Dec 10000000000 (-10)) (Dec (-19865911375) (-10)) (Dec 99020763562 (-11))];
    Band (Dec 6300 (-1)) 2 [
      Sos (Dec 89949759973 (-15)) (Dec 17989951995 (-14)) (Dec 89949759973 (-15))
          (Dec 10000000000 (-10)) (Dec (-19775496894) (-10)) (Dec 98550001917 (-11));
      Sos (Dec 10000000000 (-10)) (Dec (-20000000000) (-10)) (Dec 10000000000 (-10))
          (Dec 10000000000 (-10)) (Dec (-19819432110) (-10)) (Dec 98767646726 (-11))];
    Band (Dec 8000 (-1)) 2 [
      Sos (Dec 14452155018 (-14)) (Dec 28904310037 (-14)) (Dec 14452155018 (-14))
          (Dec 10000000000 (-10)) (Dec (-19688355849) (-10)) (Dec 98162535328 (-11));
      Sos (Dec 10000000000 (-10)) (Dec (-20000000000) (-10)) (Dec 10000000000 (-10))
          (Dec 10000000000 (-10)) (Dec (-19751484285) (-10)) (Dec 98437528452 (-11))];
    Band (Dec 10000 (-1)) 2 [
      Sos (Dec 22486138577 (-14)) (Dec 44972277155 (-14)) (Dec 22486138577 (-14))
          (Dec 10000000000 (-10)) (Dec (-19571616553) (-10)) (Dec 97708815318 (-11));
      Sos (Dec 10000000000 (-10)) (Dec (-20000000000) (-10)) (Dec 10000000000 (-10))
          (Dec 10000000000 (-10)) (Dec (-19661212031) (-10)) (Dec 98050392671 (-11))];
    Band (Dec 12500 (-1)) 2 [
      Sos (Dec 34949840016 (-14)) (Dec 69899680031 (-14)) (Dec 34949840016 (-14))
          (Dec 10000000000 (-10)) (Dec (-19404316792) (-10)) (Dec 97144942329 (-11));
      Sos (Dec 10000000000 (-10)) (Dec (-20000000000) (-10)) (Dec 10000000000 (-10))
          (Dec 10000000000 (-10)) (Dec (-19532794096) (-10)) (Dec 97568282934 (-11))];
    Band (Dec 16000 (-1)) 2 [
      Sos (Dec 56842540279 (-14)) (Dec 11368508056 (-13)) (Dec 56842540279 (-14))
          (Dec 10000000000 (-10)) (Dec (-19130826710) (-10)) (Dec 96361754164 (-11));
      Sos (Dec 10000000000 (-10)) (Dec (-20000000000) (-10)) (Dec 10000000000 (-10))
          (Dec 10000000000 (-10)) (Dec (-19324274349) (-10)) (Dec 96896533897 (-11))];
    Band (Dec 20000 (-1)) 2 [
      Sos (Dec 88077669909 (-14)) (Dec 17615533982 (-13)) (Dec 88077669909 (-14))
          (Dec 10000000000 (-10)) (Dec (-18763388948) (-10)) (Dec 95475792455 (-11));
      Sos (Dec 10000000000 (-10)) (Dec (-20000000000) (-10)) (Dec 10000000000 (-10))
          (Dec 10000000000 (-10)) (Dec (-19045584369) (-10)) (Dec 96133091745 (-11))];
    Band (Dec 25000 (-1)) 2 [
      Sos (Dec 13620124551 (-13)) (Dec 27240249103 (-13)) (Dec 13620124551 (-13))
          (Dec 10000000000 (-10)) (Dec (-18224286352) (-10)) (Dec 94382382636 (-11));
      Sos (Dec 10000000000 (-10)) (Dec (-20000000000) (-10)) (Dec 10000000000 (-10))
          (Dec 10000000000 (-10)) (Dec (-18638026219) (-10)) (Dec 95184627152 (-11))];
    Band (Dec 31500 (-1)) 2 [
      Sos (Dec 21336121687 (-13)) (Dec 42672243374 (-13)) (Dec 21336121687 (-13))
          (Dec 10000000000 (-10)) (Dec (-17396600701) (-10)) (Dec 92985039510 (-11));
      Sos (Dec 10000000000 (-10)) (Dec (-20000000000) (-10)) (Dec 10000000000 (-10))
          (Dec 10000000000 (-10)) (Dec (-18013022953) (-10)) (Dec 93960162339 (-11))];
    Band (Dec 40000 (-1)) 2 [
      Sos (Dec 33814676189 (-13)) (Dec 67629352377 (-13)) (Dec 33814676189 (-13))
          (Dec 10000000000 (-10)) (Dec (-16111845677) (-10)) (Dec 91200507593 (-11));
      Sos (Dec 10000000000 (-10)) (Dec (-20000000000) (-10)) (Dec 10000000000 (-10))
          (Dec 10000000000 (-10)) (Dec (-17041154148) (-10)) (Dec 92370966205 (-11))];
    Band (Dec 50000 (-1)) 2 [
      Sos (Dec 51786052377 (-13)) (Dec 10357210475 (-12)) (Dec 51786052377 (-13))
          (Dec 10000000000 (-10)) (Dec (-14334898271) (-10)) (Dec 89166200446 (-11));
      Sos (Dec 10000000000 (-10)) (Dec (-20000000000) (-10)) (Dec 10000000000 (-10))
          (Dec 10000000000 (-10)) (Dec (-15689457900) (-10)) (Dec 90514133105 (-11))];
    Band (Dec 63000 (-1)) 2 [
      Sos (Dec 80135241686 (-13)) (Dec 16027048337 (-12)) (Dec 80135241686 (-13))
          (Dec 10000000000 (-10)) (Dec (-11659539968) (-10)) (Dec 86633608642 (-11));
      Sos (Dec 10000000000 (-10)) (Dec (-20000000000) (-10)) (Dec 10000000000 (-10))
          (Dec 10000000000 (-10)) (Dec (-13632319368) (-10)) (Dec 88111168516 (-11))];
    Band (Dec 80000 (-1)) 2 [
      Sos (Dec 12505435661 (-12)) (Dec 25010871322 (-12)) (Dec 12505435661 (-12))
          (Dec 10000000000 (-10)) (Dec (-76892892667) (-11)) (Dec 83529708847 (-11));
      Sos (Dec 10000000000 (-10)) (Dec (-20000000000) (-10)) (Dec 10000000000 (-10))
          (Dec 10000000000 (-10)) (Dec (-10520645541) (-10)) (Dec 84964354776 (-11))];
    Band (Dec 100000 (-1)) 2 [
      Sos (Dec 18821791870 (-12)) (Dec 37643583740 (-12)) (Dec 18821791870 (-12))
          (Dec 10000000000 (-10)) (Dec (-26268885378) (-11)) (Dec 80220300414 (-11));
      Sos (Dec 10000000000 (-10)) (Dec (-20000000000) (-10)) (Dec 10000000000 (-10))
          (Dec 10000000000 (-10)) (Dec (-64302702672) (-11)) (Dec 81205737082 (-11))];
    Band (Dec 125000 (-1)) 2 [
      Sos (Dec 28110768870 (-12)) (Dec (-56221537740) (-12)) (Dec 28110768870 (-12))
          (Dec 10000000000 (-10)) (Dec (-10383271516) (-11)) (Dec 76289180572 (-11));
      Sos (Dec 10000000000 (-10)) (Dec 20000000000 (-10)) (Dec 10000000000 (-10))
          (Dec 10000000000 (-10)) (Dec 37366504960 (-11)) (Dec 76727247890 (-11))];
    Band (Dec 160000 (-1)) 2 [
      Sos (Dec 43369979301 (-12)) (Dec (-86739958603) (-12)) (Dec 43369979301 (-12))
          (Dec 10000000000 (-10)) (Dec 60774354142 (-11)) (Dec 68364720419 (-11));
      Sos (Dec 10000000000 (-10)) (Dec 20000000000 (-10)) (Dec 10000000000 (-10))
          (Dec 10000000000 (-10)) (Dec 11492032881 (-10)) (Dec 73744978539 (-11))];
    Band (Dec 200000 (-1)) 2 [
      Sos (Dec 63852757781 (-12)) (Dec (-12770551556) (-11)) (Dec 63852757781 (-12))
          (Dec 10000000000 (-10)) (Dec 11475077614 (-10)) (Dec 52760390543 (-11));
      Sos (Dec 10000000000 (-10)) (Dec 20000000000 (-10)) (Dec 10000000000 (-10))
          (Dec 10000000000 (-10)) (Dec 17589790538 (-10)) (Dec 80671714926 (-11))]
  ].

(** The branch [else], commented [filter_order == 4] in the source. *)
Definition coefficients_order_4 : list band_init :=
  [
    Band (Dec 200 (-1)) 4 [
      Sos (Dec 84350901384 (-25)) (Dec 16870180277 (-24)) (Dec 84350901384 (-25))
          (Dec 10000000000 (-10)) (Dec (-19994076617) (-10)) (Dec 99941515210 (-11));
      Sos (Dec 10000000000 (-10)) (Dec 20000000000 (-10)) (Dec 10000000000 (-10))
          (Dec 10000000000 (-10)) (Dec (-19994587246) (-10)) (Dec 99946499258 (-11));
      Sos (Dec 10000000000 (-10)) (Dec (-20000000000) (-10)) (Dec 10000000000 (-10))
          (Dec 10000000000 (-10)) (Dec (-19997348532) (-10)) (Dec 99974333928 (-11));
      Sos (Dec 10000000000 (-10)) (Dec (-20000000000) (-10)) (Dec 10000000000 (-10))
          (Dec 10000000000 (-10)) (Dec (-19997871914) (-10)) (Dec 99979272575 (-11))];
    Band (Dec 250 (-1)) 4 [
      Sos (Dec 20589405689 (-24)) (Dec 41178811379 (-24)) (Dec 20589405689 (-24))
          (Dec 10000000000 (-10)) (Dec (-19992572907) (-10)) (Dec 99926899360 (-11));
      Sos (Dec 10000000000 (-10)) (Dec 20000000000 (-10)) (Dec 10000000000 (-10))
          (Dec 10000000000 (-10)) (Dec (-19993214924) (-10)) (Dec 99933128540 (-11));
      Sos (Dec 10000000000 (-10)) (Dec (-20000000000) (-10)) (Dec 10000000000 (-10))
          (Dec 10000000000 (-10)) (Dec (-19996659254) (-10)) (Dec 99967918444 (-11));
      Sos (Dec 10000000000 (-10)) (Dec (-20000000000) (-10)) (Dec 10000000000 (-10))
          (Dec 10000000000 (-10)) (Dec (-19997322667) (-10)) (Dec 99974091387 (-11))];
    Band (Dec 315 (-1)) 4 [
      Sos (Dec 51881705198 (-24)) (Dec 10376341040 (-23)) (Dec 51881705198 (-24))
          (Dec 10000000000 (-10)) (Dec (-19990604418) (-10)) (Dec 99907901952 (-11));
      Sos (Dec 10000000000 (-10)) (Dec 20000000000 (-10)) (Dec 10000000000 (-10))
          (Dec 10000000000 (-10)) (Dec (-19991419467) (-10)) (Dec 99915749275 (-11));
      Sos (Dec 10000000000 (-10)) (Dec (-20000000000) (-10)) (Dec 10000000000 (-10))
          (Dec 10000000000 (-10)) (Dec (-19995747402) (-10)) (Dec 99959578936 (-11));
      Sos (Dec 10000000000 (-10)) (Dec (-20000000000) (-10)) (Dec 10000000000 (-10))
          (Dec 10000000000 (-10)) (Dec (-19996598346) (-10)) (Dec 99967356241 (-11))];
    Band (Dec 400 (-1)) 4 [
      Sos (Dec 13485463392 (-23)) (Dec 26970926783 (-23)) (Dec 13485463392 (-23))
          (Dec 10000000000 (-10)) (Dec (-19988006937) (-10)) (Dec 99883064642 (-11));
      Sos (Dec 10000000000 (-10)) (Dec 20000000000 (-10)) (Dec 10000000000 (-10))
          (Dec 10000000000 (-10)) (Dec (-19989052058) (-10)) (Dec 99893027092 (-11));
      Sos (Dec 10000000000 (-10)) (Dec (-20000000000) (-10)) (Dec 10000000000 (-10))
          (Dec 10000000000 (-10)) (Dec (-19994528050) (-10)) (Dec 99948674484 (-11));
      Sos (Dec 10000000000 (-10)) (Dec (-20000000000) (-10)) (Dec 10000000000 (-10))
          (Dec 10000000000 (-10)) (Dec (-19995633591) (-10)) (Dec 99958549419 (-11))];
    Band (Dec 500 (-1)) 4 [
      Sos (Dec 32910467246 (-23)) (Dec 65820934491 (-23)) (Dec 32910467246 (-23))
          (Dec 10000000000 (-10)) (Dec (-19984917277) (-10)) (Dec 99853852191 (-11));
      Sos (Dec 10000000000 (-10)) (Dec 20000000000 (-10)) (Dec 10000000000 (-10))
          (Dec 10000000000 (-10)) (Dec (-19986238581) (-10)) (Dec 99866301706 (-11));
      Sos (Dec 10000000000 (-10)) (Dec (-20000000000) (-10)) (Dec 10000000000 (-10))
          (Dec 10000000000 (-10)) (Dec (-19993054451) (-10)) (Dec 99935847260 (-11));
      Sos (Dec 10000000000 (-10)) (Dec (-20000000000) (-10)) (Dec 10000000000 (-10))
          (Dec 10000000000 (-10)) (Dec (-19994473101) (-10)) (Dec 99948189432 (-11))];
    Band (Dec 630 (-1)) 4 [
      Sos (Dec 82907310466 (-23)) (Dec 16581462093 (-22)) (Dec 82907310466 (-23))
          (Dec 10000000000 (-10)) (Dec (-19980846117) (-10)) (Dec 99815888794 (-11));
      Sos (Dec 10000000000 (-10)) (Dec 20000000000 (-10)) (Dec 10000000000 (-10))
          (Dec 10000000000 (-10)) (Dec (-19982535356) (-10)) (Dec 99831569349 (-11));
      Sos (Dec 10000000000 (-10)) (Dec (-20000000000) (-10)) (Dec 10000000000 (-10))
          (Dec 10000000000 (-10)) (Dec (-19991075645) (-10)) (Dec 99919174367 (-11));
      Sos (Dec 10000000000 (-10)) (Dec (-20000000000) (-10)) (Dec 10000000000 (-10))
          (Dec 10000000000 (-10)) (Dec (-19992923281) (-10)) (Dec 99934723027 (-11))];
    Band (Dec 800 (-1)) 4 [
      Sos (Dec 21542619151 (-22)) (Dec 43085238301 (-22)) (Dec 21542619151 (-22))
          (Dec 10000000000 (-10)) (Dec (-19975429216) (-10)) (Dec 99766266166 (-11));
      Sos (Dec 10000000000 (-10)) (Dec 20000000000 (-10)) (Dec 10000000000 (-10))
          (Dec 10000000000 (-10)) (Dec (-19977614761) (-10)) (Dec 99786168242 (-11));
      Sos (Dec 10000000000 (-10)) (Dec (-20000000000) (-10)) (Dec 10000000000 (-10))
          (Dec 10000000000 (-10)) (Dec (-19988380330) (-10)) (Dec 99897375634 (-11));
      Sos (Dec 10000000000 (-10)) (Dec (-20000000000) (-10)) (Dec 10000000000 (-10))
          (Dec 10000000000 (-10)) (Dec (-19990826364) (-10)) (Dec 99917115793 (-11))];
    Band (Dec 1000 (-1)) 4 [
      Sos (Dec 52552700572 (-22)) (Dec 10510540114 (-21)) (Dec 52552700572 (-22))
          (Dec 10000000000 (-10)) (Dec (-19968921444) (-10)) (Dec 99707918252 (-11));
      Sos (Dec 10000000000 (-10)) (Dec 20000000000 (-10)) (Dec 10000000000 (-10))
          (Dec 10000000000 (-10)) (Dec (-19971712845) (-10)) (Dec 99732781434 (-11));
      Sos (Dec 10000000000 (-10)) (Dec (-20000000000) (-10)) (Dec 10000000000 (-10))
          (Dec 10000000000 (-10)) (Dec (-19985053239) (-10)) (Dec 99871736304 (-11));
      Sos (Dec 10000000000 (-10)) (Dec (-20000000000) (-10)) (Dec 10000000000 (-10))
          (Dec 10000000000 (-10)) (Dec (-19988257526) (-10)) (Dec 99896405266 (-11))];
    Band (Dec 1250 (-1)) 4 [
      Sos (Dec 12817574288 (-21)) (Dec 25635148576 (-21)) (Dec 12817574288 (-21))
          (Dec 10000000000 (-10)) (Dec (-19960581768) (-10)) (Dec 99635031472 (-11));
      Sos (Dec 10000000000 (-10)) (Dec 20000000000 (-10)) (Dec 10000000000 (-10))
          (Dec 10000000000 (-10)) (Dec (-19964163830) (-10)) (Dec 99666087754 (-11));
      Sos (Dec 10000000000 (-10)) (Dec (-20000000000) (-10)) (Dec 10000000000 (-10))
          (Dec 10000000000 (-10)) (Dec (-19980657121) (-10)) (Dec 99839696684 (-11));
      Sos (Dec 10000000000 (-10)) (Dec (-20000000000) (-10)) (Dec 10000000000 (-10))
          (Dec 10000000000 (-10)) (Dec (-19984891650) (-10)) (Dec 99870522942 (-11))];
    Band (Dec 1600 (-1)) 4 [
      Sos (Dec 34359359096 (-21)) (Dec 68718718193 (-21)) (Dec 34359359096 (-21))
          (Dec 10000000000 (-10)) (Dec (-19948524105) (-10)) (Dec 99533079781 (-11));
      Sos (Dec 10000000000 (-10)) (Dec 20000000000 (-10)) (Dec 10000000000 (-10))
          (Dec 10000000000 (-10)) (Dec (-19953275197) (-10)) (Dec 99572790736 (-11));
      Sos (Dec 10000000000 (-10)) (Dec (-20000000000) (-10)) (Dec 10000000000 (-10))
          (Dec 10000000000 (-10)) (Dec (-19974059951) (-10)) (Dec 99794859161 (-11));
      Sos (Dec 10000000000 (-10)) (Dec (-20000000000) (-10)) (Dec 10000000000 (-10))
          (Dec 10000000000 (-10)) (Dec (-19979890530) (-10)) (Dec 99834298478 (-11))];
    Band (Dec 2000 (-1)) 4 [
      Sos (Dec 83752740615 (-21)) (Dec 16750548123 (-20)) (Dec 83752740615 (-21))
          (Dec 10000000000 (-10)) (Dec (-19934198903) (-10)) (Dec 99416691834 (-11));
      Sos (Dec 10000000000 (-10)) (Dec 20000000000 (-10)) (Dec 10000000000 (-10))
          (Dec 10000000000 (-10)) (Dec (-19940374504) (-10)) (Dec 99466271093 (-11));
      Sos (Dec 10000000000 (-10)) (Dec (-20000000000) (-10)) (Dec 10000000000 (-10))
          (Dec 10000000000 (-10)) (Dec (-19965888532) (-10)) (Dec 99743642153 (-11));
      Sos (Dec 10000000000 (-10)) (Dec (-20000000000) (-10)) (Dec 10000000000 (-10))
          (Dec 10000000000 (-10)) (Dec (-19973762485) (-10)) (Dec 99792914324 (-11))];
    Band (Dec 2500 (-1)) 4 [
      Sos (Dec 20407136844 (-20)) (Dec 40814273687 (-20)) (Dec 20407136844 (-20))
          (Dec 10000000000 (-10)) (Dec (-19915476509) (-10)) (Dec 99271399279 (-11));
      Sos (Dec 10000000000 (-10)) (Dec 20000000000 (-10)) (Dec 10000000000 (-10))
          (Dec 10000000000 (-10)) (Dec (-19923565002) (-10)) (Dec 99333279104 (-11));
      Sos (Dec 10000000000 (-10)) (Dec (-20000000000) (-10)) (Dec 10000000000 (-10))
          (Dec 10000000000 (-10)) (Dec (-19954727525) (-10)) (Dec 99679660155 (-11));
      Sos (Dec 10000000000 (-10)) (Dec (-20000000000) (-10)) (Dec 10000000000 (-10))
          (Dec 10000000000 (-10)) (Dec (-19965484142) (-10)) (Dec 99741206641 (-11))];
    Band (Dec 3150 (-1)) 4 [
      Sos (Dec 51303990177 (-20)) (Dec 10260798035 (-19)) (Dec 51303990177 (-20))
          (Dec 10000000000 (-10)) (Dec (-19889785537) (-10)) (Dec 99082838460 (-11));
      Sos (Dec 10000000000 (-10)) (Dec 20000000000 (-10)) (Dec 10000000000 (-10))
          (Dec 10000000000 (-10)) (Dec (-19900579517) (-10)) (Dec 99160649777 (-11));
      Sos (Dec 10000000000 (-10)) (Dec (-20000000000) (-10)) (Dec 10000000000 (-10))
          (Dec 10000000000 (-10)) (Dec (-19938647643) (-10)) (Dec 99596549699 (-11));
      Sos (Dec 10000000000 (-10)) (Dec (-20000000000) (-10)) (Dec 10000000000 (-10))
          (Dec 10000000000 (-10)) (Dec (-19953696180) (-10)) (Dec 99674023348 (-11))];
    Band (Dec 4000 (-1)) 4 [
      Sos (Dec 13295202928 (-19)) (Dec 26590405856 (-19)) (Dec 13295202928 (-19))
          (Dec 10000000000 (-10)) (Dec (-19853891471) (-10)) (Dec 98836803756 (-11));
      Sos (Dec 10000000000 (-10)) (Dec 20000000000 (-10)) (Dec 10000000000 (-10))
          (Dec 10000000000 (-10)) (Dec (-19868594324) (-10)) (Dec 98935344429 (-11));
      Sos (Dec 10000000000 (-10)) (Dec (-20000000000) (-10)) (Dec 10000000000 (-10))
          (Dec 10000000000 (-10)) (Dec (-19914945951) (-10)) (Dec 99487981632 (-11));
      Sos (Dec 10000000000 (-10)) (Dec (-20000000000) (-10)) (Dec 10000000000 (-10))
          (Dec 10000000000 (-10)) (Dec (-19936533056) (-10)) (Dec 99586229328 (-11))];
    Band (Dec 5000 (-1)) 4 [
      Sos (Dec 32331582922 (-19)) (Dec 64663165844 (-19)) (Dec 32331582922 (-19))
          (Dec 10000000000 (-10)) (Dec (-19808342785) (-10)) (Dec 98548141443 (-11));
      Sos (Dec 10000000000 (-10)) (Dec 20000000000 (-10)) (Dec 10000000000 (-10))
          (Dec 10000000000 (-10)) (Dec (-19828178524) (-10)) (Dec 98670912937 (-11));
      Sos (Dec 10000000000 (-10)) (Dec (-20000000000) (-10)) (Dec 10000000000 (-10))
          (Dec 10000000000 (-10)) (Dec (-19883190566) (-10)) (Dec 99360424779 (-11));
      Sos (Dec 10000000000 (-10)) (Dec (-20000000000) (-10)) (Dec 10000000000 (-10))
          (Dec 10000000000 (-10)) (Dec (-19913808773) (-10)) (Dec 99483028062 (-11))];
    Band (Dec 6300 (-1)) 4 [
      Sos (Dec 81076056950 (-19)) (Dec 16215211390 (-18)) (Dec 81076056950 (-19))
          (Dec 10000000000 (-10)) (Dec (-19743792869) (-10)) (Dec 98174157148 (-11));
      Sos (Dec 10000000000 (-10)) (Dec 20000000000 (-10)) (Dec 10000000000 (-10))
          (Dec 10000000000 (-10)) (Dec (-19771156395) (-10)) (Dec 98328164323 (-11));
      Sos (Dec 10000000000 (-10)) (Dec (-20000000000) (-10)) (Dec 10000000000 (-10))
          (Dec 10000000000 (-10)) (Dec (-19835671939) (-10)) (Dec 99194883501 (-11));
      Sos (Dec 10000000000 (-10)) (Dec (-20000000000) (-10)) (Dec 10000000000 (-10))
          (Dec 10000000000 (-10)) (Dec (-19880183216) (-10)) (Dec 99348999484 (-11))];
    Band (Dec 8000 (-1)) 4 [
      Sos (Dec 20941054136 (-18)) (Dec 41882108272 (-18)) (Dec 20941054136 (-18))
          (Dec 10000000000 (-10)) (Dec (-19650345671) (-10)) (Dec 97687277199 (-11));
      Sos (Dec 10000000000 (-10)) (Dec 20000000000 (-10)) (Dec 10000000000 (-10))
          (Dec 10000000000 (-10)) (Dec (-19688992907) (-10)) (Dec 97881656097 (-11));
      Sos (Dec 10000000000 (-10)) (Dec (-20000000000) (-10)) (Dec 10000000000 (-10))
          (Dec 10000000000 (-10)) (Dec (-19762940882) (-10)) (Dec 98978904502 (-11));
      Sos (Dec 10000000000 (-10)) (Dec (-20000000000) (-10)) (Dec 10000000000 (-10))
          (Dec 10000000000 (-10)) (Dec (-19829266057) (-10)) (Dec 99173946151 (-11))];
    Band (Dec 10000 (-1)) 4 [
      Sos (Dec 50727813667 (-18)) (Dec 10145562733 (-17)) (Dec 50727813667 (-18))
          (Dec 10000000000 (-10)) (Dec (-19527423270) (-10)) (Dec 97117632899 (-11));
      Sos (Dec 10000000000 (-10)) (Dec 20000000000 (-10)) (Dec 10000000000 (-10))
          (Dec 10000000000 (-10)) (Dec (-19581399076) (-10)) (Dec 97358775957 (-11));
      Sos (Dec 10000000000 (-10)) (Dec (-20000000000) (-10)) (Dec 10000000000 (-10))
          (Dec 10000000000 (-10)) (Dec (-19662099097) (-10)) (Dec 98725563041 (-11));
      Sos (Dec 10000000000 (-10)) (Dec (-20000000000) (-10)) (Dec 10000000000 (-10))
          (Dec 10000000000 (-10)) (Dec (-19759327057) (-10)) (Dec 98968290755 (-11))];
    Band (Dec 12500 (-1)) 4 [
      Sos (Dec 12264796379 (-17)) (Dec 24529592757 (-17)) (Dec 12264796379 (-17))
          (Dec 10000000000 (-10)) (Dec (-19354279749) (-10)) (Dec 96410370396 (-11));
      Sos (Dec 10000000000 (-10)) (Dec 20000000000 (-10)) (Dec 10000000000 (-10))
          (Dec 10000000000 (-10)) (Dec (-19430468640) (-10)) (Dec 96708776378 (-11));
      Sos (Dec 10000000000 (-10)) (Dec (-20000000000) (-10)) (Dec 10000000000 (-10))
          (Dec 10000000000 (-10)) (Dec (-19513014962) (-10)) (Dec 98410082611 (-11));
      Sos (Dec 10000000000 (-10)) (Dec (-20000000000) (-10)) (Dec 10000000000 (-10))
          (Dec 10000000000 (-10)) (Dec (-19656730433) (-10)) (Dec 98711620638 (-11))];
    Band (Dec 16000 (-1)) 4 [
      Sos (Dec 32479650500 (-17)) (Dec 64959301000 (-17)) (Dec 32479650500 (-17))
          (Dec 10000000000 (-10)) (Dec (-19076132574) (-10)) (Dec 95429138292 (-11));
      Sos (Dec 10000000000 (-10)) (Dec 20000000000 (-10)) (Dec 10000000000 (-10))
          (Dec 10000000000 (-10)) (Dec (-19188940539) (-10)) (Dec 95805299174 (-11));
      Sos (Dec 10000000000 (-10)) (Dec (-20000000000) (-10)) (Dec 10000000000 (-10))
          (Dec 10000000000 (-10)) (Dec (-19261821256) (-10)) (Dec 97970772245 (-11));
      Sos (Dec 10000000000 (-10)) (Dec (-20000000000) (-10)) (Dec 10000000000 (-10))
          (Dec 10000000000 (-10)) (Dec (-19485002511) (-10)) (Dec 98352928341 (-11))];
    Band (Dec 20000 (-1)) 4 [
      Sos (Dec 78083643709 (-17)) (Dec 15616728742 (-16)) (Dec 78083643709 (-17))
          (Dec 10000000000 (-10)) (Dec (-18708395354) (-10)) (Dec 94320474652 (-11));
      Sos (Dec 10000000000 (-10)) (Dec 20000000000 (-10)) (Dec 10000000000 (-10))
          (Dec 10000000000 (-10)) (Dec (-18870605258) (-10)) (Dec 94781723028 (-11));
      Sos (Dec 10000000000 (-10)) (Dec (-20000000000) (-10)) (Dec 10000000000 (-10))
          (Dec 10000000000 (-10)) (Dec (-18915106784) (-10)) (Dec 97472306463 (-11));
      Sos (Dec 10000000000 (-10)) (Dec (-20000000000) (-10)) (Dec 10000000000 (-10))
          (Dec 10000000000 (-10)) (Dec (-19249074526) (-10)) (Dec 97943740106 (-11))];
    Band (Dec 25000 (-1)) 4 [
      Sos (Dec 18702246496 (-16)) (Dec 37404492992 (-16)) (Dec 18702246496 (-16))
          (Dec 10000000000 (-10)) (Dec (-18176383212) (-10)) (Dec 92953724538 (-11));
      Sos (Dec 10000000000 (-10)) (Dec 20000000000 (-10)) (Dec 10000000000 (-10))
          (Dec 10000000000 (-10)) (Dec (-18411002801) (-10)) (Dec 93515068421 (-11));
      Sos (Dec 10000000000 (-10)) (Dec (-20000000000) (-10)) (Dec 10000000000 (-10))
          (Dec 10000000000 (-10)) (Dec (-18394492824) (-10)) (Dec 96855054962 (-11));
      Sos (Dec 10000000000 (-10)) (Dec (-20000000000) (-10)) (Dec 10000000000 (-10))
          (Dec 10000000000 (-10)) (Dec (-18895659971) (-10)) (Dec 97433041351 (-11))];
    Band (Dec 31500 (-1)) 4 [
      Sos (Dec 45991007162 (-16)) (Dec 91982014324 (-16)) (Dec 45991007162 (-16))
          (Dec 10000000000 (-10)) (Dec (-17370051632) (-10)) (Dec 91208572767 (-11));
      Sos (Dec 10000000000 (-10)) (Dec 20000000000 (-10)) (Dec 10000000000 (-10))
          (Dec 10000000000 (-10)) (Dec (-17715029014) (-10)) (Dec 91888423312 (-11));
      Sos (Dec 10000000000 (-10)) (Dec (-20000000000) (-10)) (Dec 10000000000 (-10))
          (Dec 10000000000 (-10)) (Dec (-17578103425) (-10)) (Dec 96063188158 (-11));
      Sos (Dec 10000000000 (-10)) (Dec (-20000000000) (-10)) (Dec 10000000000 (-10))
          (Dec 10000000000 (-10)) (Dec (-18341411742) (-10)) (Dec 96769749730 (-11))];
    Band (Dec 40000 (-1)) 4 [
      Sos (Dec 11583372579 (-15)) (Dec 23166745159 (-15)) (Dec 11583372579 (-15))
          (Dec 10000000000 (-10)) (Dec (-16133028848) (-10)) (Dec 88980273776 (-11));
      Sos (Dec 10000000000 (-10)) (Dec 20000000000 (-10)) (Dec 10000000000 (-10))
          (Dec 10000000000 (-10)) (Dec (-16646511710) (-10)) (Dec 89792644163 (-11));
      Sos (Dec 10000000000 (-10)) (Dec (-20000000000) (-10)) (Dec 10000000000 (-10))
          (Dec 10000000000 (-10)) (Dec (-16285888068) (-10)) (Dec 95047616516 (-11));
      Sos (Dec 10000000000 (-10)) (Dec (-20000000000) (-10)) (Dec 10000000000 (-10))
          (Dec 10000000000 (-10)) (Dec (-17461000097) (-10)) (Dec 95901872221 (-11))];
    Band (Dec 50000 (-1)) 4 [
      Sos (Dec 27253846053 (-15)) (Dec 54507692106 (-15)) (Dec 27253846053 (-15))
          (Dec 10000000000 (-10)) (Dec (-14438706954) (-10)) (Dec 86436759582 (-11));
      Sos (Dec 10000000000 (-10)) (Dec 20000000000 (-10)) (Dec 10000000000 (-10))
          (Dec 10000000000 (-10)) (Dec (-15178801537) (-10)) (Dec 87367654899 (-11));
      Sos (Dec 10000000000 (-10)) (Dec (-20000000000) (-10)) (Dec 10000000000 (-10))
          (Dec 10000000000 (-10)) (Dec (-14467940547) (-10)) (Dec 93885347125 (-11));
      Sos (Dec 10000000000 (-10)) (Dec (-20000000000) (-10)) (Dec 10000000000 (-10))
          (Dec 10000000000 (-10)) (Dec (-16212340474) (-10)) (Dec 94877199428 (-11))];
    Band (Dec 63000 (-1)) 4 [
      Sos (Dec 65526052261 (-15)) (Dec 13105210452 (-14)) (Dec 65526052261 (-15))
          (Dec 10000000000 (-10)) (Dec (-11907460788) (-10)) (Dec 83256622652 (-11));
      Sos (Dec 10000000000 (-10)) (Dec 20000000000 (-10)) (Dec 10000000000 (-10))
          (Dec 10000000000 (-10)) (Dec (-12973596890) (-10)) (Dec 84270962842 (-11));
      Sos (Dec 10000000000 (-10)) (Dec (-20000000000) (-10)) (Dec 10000000000 (-10))
          (Dec 10000000000 (-10)) (Dec (-11689637311) (-10)) (Dec 92434615335 (-11));
      Sos (Dec 10000000000 (-10)) (Dec (-20000000000) (-10)) (Dec 10000000000 (-10))
          (Dec 10000000000 (-10)) (Dec (-14275907538) (-10)) (Dec 93532837875 (-11))];
    Band (Dec 80000 (-1)) 4 [
      Sos (Dec 16040574966 (-14)) (Dec 32081149932 (-14)) (Dec 16040574966 (-14))
          (Dec 10000000000 (-10)) (Dec (-81719051702) (-11)) (Dec 79316533363 (-11));
      Sos (Dec 10000000000 (-10)) (Dec 20000000000 (-10)) (Dec 10000000000 (-10))
          (Dec 10000000000 (-10)) (Dec (-96862161371) (-11)) (Dec 80294634638 (-11));
      Sos (Dec 10000000000 (-10)) (Dec (-20000000000) (-10)) (Dec 10000000000 (-10))
          (Dec 10000000000 (-10)) (Dec (-75113810411) (-11)) (Dec 90658661275 (-11));
      Sos (Dec 10000000000 (-10)) (Dec (-20000000000) (-10)) (Dec 10000000000 (-10))
          (Dec 10000000000 (-10)) (Dec (-11287745450) (-10)) (Dec 91738009123 (-11))];
    Band (Dec 100000 (-1)) 4 [
      Sos (Dec 36551901396 (-14)) (Dec 73103802793 (-14)) (Dec 36551901396 (-14))
          (Dec 10000000000 (-10)) (Dec (-34184508429) (-11)) (Dec 75011325492 (-11));
      Sos (Dec 10000000000 (-10)) (Dec 20000000000 (-10)) (Dec 10000000000 (-10))
          (Dec 10000000000 (-10)) (Dec (-54362466713) (-11)) (Dec 75678725377 (-11));
      Sos (Dec 10000000000 (-10)) (Dec (-20000000000) (-10)) (Dec 10000000000 (-10))
          (Dec 10000000000 (-10)) (Dec (-21297356521) (-11)) (Dec 88786071806 (-11));
      Sos (Dec 10000000000 (-10)) (Dec (-20000000000) (-10)) (Dec 10000000000 (-10))
          (Dec 10000000000 (-10)) (Dec (-72743584771) (-11)) (Dec 89536884091 (-11))];
    Band (Dec 125000 (-1)) 4 [
      Sos (Dec 82108238703 (-14)) (Dec (-16421647741) (-13)) (Dec 82108238703 (-14))
          (Dec 10000000000 (-10)) (Dec 53325488961 (-13)) (Dec 69895765693 (-11));
      Sos (Dec 10000000000 (-10)) (Dec 20000000000 (-10)) (Dec 10000000000 (-10))
          (Dec 10000000000 (-10)) (Dec 25766083001 (-11)) (Dec 70190923815 (-11));
      Sos (Dec 10000000000 (-10)) (Dec (-20000000000) (-10)) (Dec 10000000000 (-10))
          (Dec 10000000000 (-10)) (Dec (-18477308461) (-11)) (Dec 86549145081 (-11));
      Sos (Dec 10000000000 (-10)) (Dec 20000000000 (-10)) (Dec 10000000000 (-10))
          (Dec 10000000000 (-10)) (Dec 46663550942 (-11)) (Dec 86887107446 (-11))];
    Band (Dec 160000 (-1)) 4 [
      Sos (Dec 19719201682 (-13)) (Dec (-39438403365) (-13)) (Dec 19719201682 (-13))
          (Dec 10000000000 (-10)) (Dec 70843611868 (-11)) (Dec 61282354090 (-11));
      Sos (Dec 10000000000 (-10)) (Dec (-20000000000) (-10)) (Dec 10000000000 (-10))
          (Dec 10000000000 (-10)) (Dec 99892865902 (-11)) (Dec 64930453542 (-11));
      Sos (Dec 10000000000 (-10)) (Dec 20000000000 (-10)) (Dec 10000000000 (-10))
          (Dec 10000000000 (-10)) (Dec 56042306540 (-11)) (Dec 81439287683 (-11));
      Sos (Dec 10000000000 (-10)) (Dec 20000000000 (-10)) (Dec 10000000000 (-10))
          (Dec 10000000000 (-10)) (Dec 12866162001 (-10)) (Dec 85610905393 (-11))];
    Band (Dec 200000 (-1)) 4 [
      Sos (Dec 42701518998 (-13)) (Dec (-85403037995) (-13)) (Dec 42701518998 (-13))
          (Dec 10000000000 (-10)) (Dec 11979947229 (-10)) (Dec 45134001086 (-11));
      Sos (Dec 10000000000 (-10)) (Dec (-20000000000) (-10)) (Dec 10000000000 (-10))
          (Dec 10000000000 (-10)) (Dec 16216153437 (-10)) (Dec 68744181415 (-11));
      Sos (Dec 10000000000 (-10)) (Dec 20000000000 (-10)) (Dec 10000000000 (-10))
          (Dec 10000000000 (-10)) (Dec 12058440678 (-10)) (Dec 70929749752 (-11));
      Sos (Dec 10000000000 (-10)) (Dec 20000000000 (-10)) (Dec 10000000000 (-10))
          (Dec 10000000000 (-10)) (Dec 18635789025 (-10)) (Dec 90508965329 (-11))]
  ].

(** One assignment of [initializeFilterBank]. *)
Inductive coefficient :=
  | Coef_b (k : fin 3)
  | Coef_a (k : fin 3)
  | Coef_z (k : fin 2).

Inductive assignment :=
  | Assign_center_freq (band : nat) (v : dec)
  | Assign_num_sections (band : nat) (n : Z)
  | Assign_coefficient (band section : nat) (c : coefficient) (v : dec).

Definition section_assignments (band section : nat) (c : sos) : list assignment :=
  [ Assign_coefficient band section (Coef_b 0%fin) (sos_b0 c);
    Assign_coefficient band section (Coef_b 1%fin) (sos_b1 c);
    Assign_coefficient band section (Coef_b 2%fin) (sos_b2 c);
    Assign_coefficient band section (Coef_a 0%fin) (sos_a0 c);
    Assign_coefficient band section (Coef_a 1%fin) (sos_a1 c);
    Assign_coefficient band section (Coef_a 2%fin) (sos_a2 c);
    Assign_coefficient band section (Coef_z 0%fin) (Dec 0 (-1));
    Assign_coefficient band section (Coef_z 1%fin) (Dec 0 (-1)) ].

Definition band_assignments (band : nat) (bi : band_init) : list assignment :=
  Assign_center_freq band (init_center_freq bi)
  :: Assign_num_sections band (init_num_sections bi)
  :: concat (imap (section_assignments band) (init_sections bi)).

Definition assignments (t : list band_init) : list assignment :=
  concat (imap band_assignments t).

(** The index of the [sections] element an assignment writes. *)
Definition section_written (s : assignment) : option nat :=
  match s with
  | Assign_coefficient _ section _ _ => Some section
  | _ => None
  end.

Section Bank.
Context {double float : Type} `{AR : Arith double float}.

(** ** Data model *)

Record BiquadSection := {
  b : vec double 3;
  a : vec double 3;
  z : vec double 2
}.

Record FilterBand := {
  sections : vec BiquadSection 2;
  num_sections : Z;
  center_freq : double
}.

Record third_octave_filter := {
  bypass : float;
  sample_rate : float;
  filter_order : Z;
  initialized : Z;
  channelType : Z;
  bands : vec FilterBand NUM_BANDS;
  mic_constant : float;
  alpha : float;
  integrationTime : Z;
  samplesCount : Z;
  temporal_sum : vec float NUM_BANDS;
  volume_level : vec float NUM_BANDS;
  smoothed_level : vec float NUM_BANDS;
  maxNumberOfSamples : Z
}.

(** Field assignments. *)
Definition set_b (s : BiquadSection) (v : vec double 3) : BiquadSection :=
  {| b := v; a := a s; z := z s |}.
Definition set_a (s : BiquadSection) (v : vec double 3) : BiquadSection :=
  {| b := b s; a := v; z := z s |}.
Definition set_z (s : BiquadSection) (v : vec double 2) : BiquadSection :=
  {| b := b s; a := a s; z := v |}.

Definition set_sections (f : FilterBand) (v : vec BiquadSection 2) : FilterBand :=
  {| sections := v; num_sections := num_sections f; center_freq := center_freq f |}.
Definition set_num_sections (f : FilterBand) (n : Z) : FilterBand :=
  {| sections := sections f; num_sections := n; center_freq := center_freq f |}.
Definition set_center_freq (f : FilterBand) (c : double) : FilterBand :=
  {| sections := sections f; num_sections := num_sections f; center_freq := c |}.

(** ** Biquad and cascade *)

(** [processBiquad]: one sample through one section.  The section is
    passed by pointer in the source; the updated section is returned with
    the output. *)
Definition processBiquad (section : BiquadSection) (input : double)
  : BiquadSection * double :=
  let output := dadd (dmul (b section !!! 0%fin) input) (z section !!! 0%fin) in
  let section :=
    set_z section
      (vinsert 0%fin
         (dadd (dsub (dmul (b section !!! 1%fin) input)
                     (dmul (a section !!! 1%fin) output))
               (z section !!! 1%fin))
         (z section)) in
  let section :=
    set_z section
      (vinsert 1%fin
         (dsub (dmul (b section !!! 2%fin) input)
               (dmul (a section !!! 2%fin) output))
         (z section)) in
  (section, output).

(** The loop [for (int i = 0; i < band->num_sections; i++)] of
    [processFilterBand], from index [i] with [n] iterations left.
    [sections] has [MAX_BIQUAD_SECTIONS] elements: an index past them is
    undefined. *)
Fixpoint cascade (n : nat) (i : Z) (band : FilterBand) (output : double)
  : outcome (FilterBand * double) :=
  match n with
  | O => Done (band, output)
  | S n' =>
      match indexZ 2 i with
      | None => Undefined OutOfBounds
      | Some j =>
          let '(s, output) := processBiquad (sections band !!! j) output in
          cascade n' (i + 1) (set_sections band (vinsert j s (sections band))) output
      end
  end.

Definition processFilterBand (band : FilterBand) (input : double)
  : outcome (FilterBand * double) :=
  cascade (Z.to_nat (num_sections band)) 0 band input.

(** ** The bank *)

(** Assignments to the fields of the bank.  [alpha] is declared [const]
    and is never assigned. *)
Definition set_bypass (st : third_octave_filter) (v : float)
  : third_octave_filter :=
  {| bypass := v; sample_rate := sample_rate st;
     filter_order := filter_order st; initialized := initialized st;
     channelType := channelType st; bands := bands st;
     mic_constant := mic_constant st; alpha := alpha st;
     integrationTime := integrationTime st; samplesCount := samplesCount st;
     temporal_sum := temporal_sum st; volume_level := volume_level st;
     smoothed_level := smoothed_level st;
     maxNumberOfSamples := maxNumberOfSamples st |}.
Definition set_sample_rate (st : third_octave_filter) (v : float)
  : third_octave_filter :=
  {| bypass := bypass st; sample_rate := v; filter_order := filter_order st;
     initialized := initialized st; channelType := channelType st;
     bands := bands st; mic_constant := mic_constant st; alpha := alpha st;
     integrationTime := integrationTime st; samplesCount := samplesCount st;
     temporal_sum := temporal_sum st; volume_level := volume_level st;
     smoothed_level := smoothed_level st;
     maxNumberOfSamples := maxNumberOfSamples st |}.
Definition set_filter_order (st : third_octave_filter) (v : Z)
  : third_octave_filter :=
  {| bypass := bypass st; sample_rate := sample_rate st; filter_order := v;
     initialized := initialized st; channelType := channelType st;
     bands := bands st; mic_constant := mic_constant st; alpha := alpha st;
     integrationTime := integrationTime st; samplesCount := samplesCount st;
     temporal_sum := temporal_sum st; volume_level := volume_level st;
     smoothed_level := smoothed_level st;
     maxNumberOfSamples := maxNumberOfSamples st |}.
Definition set_initialized (st : third_octave_filter) (v : Z)
  : third_octave_filter :=
  {| bypass := bypass st; sample_rate := sample_rate st;
     filter_order := filter_order st; initialized := v;
     channelType := channelType st; bands := bands st;
     mic_constant := mic_constant st; alpha := alpha st;
     integrationTime := integrationTime st; samplesCount := samplesCount st;
     temporal_sum := temporal_sum st; volume_level := volume_level st;
     smoothed_level := smoothed_level st;
     maxNumberOfSamples := maxNumberOfSamples st |}.
Definition set_channelType (st : third_octave_filter) (v : Z)
  : third_octave_filter :=
  {| bypass := bypass st; sample_rate := sample_rate st;
     filter_order := filter_order st; initialized := initialized st;
     channelType := v; bands := bands st; mic_constant := mic_constant st;
     alpha := alpha st; integrationTime := integrationTime st;
     samplesCount := samplesCount st; temporal_sum := temporal_sum st;
     volume_level := volume_level st; smoothed_level := smoothed_level st;
     maxNumberOfSamples := maxNumberOfSamples st |}.
Definition set_bands (st : third_octave_filter) (v : vec FilterBand NUM_BANDS)
  : third_octave_filter :=
  {| bypass := bypass st; sample_rate := sample_rate st;
     filter_order := filter_order st; initialized := initialized st;
     channelType := channelType st; bands := v;
     mic_constant := mic_constant st; alpha := alpha st;
     integrationTime := integrationTime st; samplesCount := samplesCount st;
     temporal_sum := temporal_sum st; volume_level := volume_level st;
     smoothed_level := smoothed_level st;
     maxNumberOfSamples := maxNumberOfSamples st |}.
Definition set_mic_constant (st : third_octave_filter) (v : float)
  : third_octave_filter :=
  {| bypass := bypass st; sample_rate := sample_rate st;
     filter_order := filter_order st; initialized := initialized st;
     channelType := channelType st; bands := bands st; mic_constant := v;
     alpha := alpha st; integrationTime := integrationTime st;
     samplesCount := samplesCount st; temporal_sum := temporal_sum st;
     volume_level := volume_level st; smoothed_level := smoothed_level st;
     maxNumberOfSamples := maxNumberOfSamples st |}.
Definition set_integrationTime (st : third_octave_filter) (v : Z)
  : third_octave_filter :=
  {| bypass := bypass st; sample_rate := sample_rate st;
     filter_order := filter_order st; initialized := initialized st;
     channelType := channelType st; bands := bands st;
     mic_constant := mic_constant st; alpha := alpha st;
     integrationTime := v; samplesCount := samplesCount st;
     temporal_sum := temporal_sum st; volume_level := volume_level st;
     smoothed_level := smoothed_level st;
     maxNumberOfSamples := maxNumberOfSamples st |}.
Definition set_samplesCount (st : third_octave_filter) (v : Z)
  : third_octave_filter :=
  {| bypass := bypass st; sample_rate := sample_rate st;
     filter_order := filter_order st; initialized := initialized st;
     channelType := channelType st; bands := bands st;
     mic_constant := mic_constant st; alpha := alpha st;
     integrationTime := integrationTime st; samplesCount := v;
     temporal_sum := temporal_sum st; volume_level := volume_level st;
     smoothed_level := smoothed_level st;
     maxNumberOfSamples := maxNumberOfSamples st |}.
Definition set_temporal_sum (st : third_octave_filter) (v : vec float NUM_BANDS)
  : third_octave_filter :=
  {| bypass := bypass st; sample_rate := sample_rate st;
     filter_order := filter_order st; initialized := initialized st;
     channelType := channelType st; bands := bands st;
     mic_constant := mic_constant st; alpha := alpha st;
     integrationTime := integrationTime st; samplesCount := samplesCount st;
     temporal_sum := v; volume_level := volume_level st;
     smoothed_level := smoothed_level st;
     maxNumberOfSamples := maxNumberOfSamples st |}.
Definition set_volume_level (st : third_octave_filter) (v : vec float NUM_BANDS)
  : third_octave_filter :=
  {| bypass := bypass st; sample_rate := sample_rate st;
     filter_order := filter_order st; initialized := initialized st;
     channelType := channelType st; bands := bands st;
     mic_constant := mic_constant st; alpha := alpha st;
     integrationTime := integrationTime st; samplesCount := samplesCount st;
     temporal_sum := temporal_sum st; volume_level := v;
     smoothed_level := smoothed_level st;
     maxNumberOfSamples := maxNumberOfSamples st |}.
Definition set_smoothed_level (st : third_octave_filter) (v : vec float NUM_BANDS)
  : third_octave_filter :=
  {| bypass := bypass st; sample_rate := sample_rate st;
     filter_order := filter_order st; initialized := initialized st;
     channelType := channelType st; bands := bands st;
     mic_constant := mic_constant st; alpha := alpha st;
     integrationTime := integrationTime st; samplesCount := samplesCount st;
     temporal_sum := temporal_sum st; volume_level := volume_level st;
     smoothed_level := v; maxNumberOfSamples := maxNumberOfSamples st |}.
Definition set_maxNumberOfSamples (st : third_octave_filter) (v : Z)
  : third_octave_filter :=
  {| bypass := bypass st; sample_rate := sample_rate st;
     filter_order := filter_order st; initialized := initialized st;
     channelType := channelType st; bands := bands st;
     mic_constant := mic_constant st; alpha := alpha st;
     integrationTime := integrationTime st; samplesCount := samplesCount st;
     temporal_sum := temporal_sum st; volume_level := volume_level st;
     smoothed_level := smoothed_level st; maxNumberOfSamples := v |}.

(** The band indices [0 .. NUM_BANDS-1], in the order of the loops
    [for (int band = 0; band < NUM_BANDS; band++)]. *)
Definition all_bands : list (fin NUM_BANDS) := enum (fin NUM_BANDS).

(** *** [initializeFilterBank] *)

Definition assign_coefficient (s : BiquadSection) (c : coefficient) (v : double)
  : BiquadSection :=
  match c with
  | Coef_b k => set_b s (vinsert k v (b s))
  | Coef_a k => set_a s (vinsert k v (a s))
  | Coef_z k => set_z s (vinsert k v (z s))
  end.

(** One assignment on [bands].  [bands] points to [NUM_BANDS] bands and
    each [sections] array has 2 elements; a write past the end is
    undefined. *)
Definition run_assignment (bs : vec FilterBand NUM_BANDS) (s : assignment)
  : outcome (vec FilterBand NUM_BANDS) :=
  match s with
  | Assign_center_freq band v =>
      match index NUM_BANDS band with
      | None => Undefined OutOfBounds
      | Some i => Done (vinsert i (set_center_freq (bs !!! i) (d_lit v)) bs)
      end
  | Assign_num_sections band n =>
      match index NUM_BANDS band with
      | None => Undefined OutOfBounds
      | Some i => Done (vinsert i (set_num_sections (bs !!! i) n) bs)
      end
  | Assign_coefficient band section c v =>
      match index NUM_BANDS band, index 2 section with
      | Some i, Some j =>
          let fb := bs !!! i in
          let sec := assign_coefficient (sections fb !!! j) c (d_lit v) in
          Done (vinsert i (set_sections fb (vinsert j sec (sections fb))) bs)
      | _, _ => Undefined OutOfBounds
      end
  end.

Definition initializeFilterBank (bs : vec FilterBand NUM_BANDS) (filter_order : Z)
  : outcome (vec FilterBand NUM_BANDS) :=
  if filter_order =? 2
  then foldM run_assignment bs (assignments coefficients_order_2)
  else foldM run_assignment bs (assignments coefficients_order_4).

(** *** [resetFilterState] *)

(** The inner loop over [section], from index [i] with [n] iterations
    left. *)
Fixpoint reset_sections (n : nat) (i : Z) (band : FilterBand) : outcome FilterBand :=
  match n with
  | O => Done band
  | S n' =>
      match indexZ 2 i with
      | None => Undefined OutOfBounds
      | Some j =>
          let s := sections band !!! j in
          let s := set_z s (vinsert 0%fin (d_lit (Dec 0 (-1))) (z s)) in
          let s := set_z s (vinsert 1%fin (d_lit (Dec 0 (-1))) (z s)) in
          reset_sections n' (i + 1) (set_sections band (vinsert j s (sections band)))
      end
  end.

Definition reset_band (st : third_octave_filter) (band : fin NUM_BANDS)
  : outcome third_octave_filter :=
  let fb := bands st !!! band in
  fb' ← reset_sections (Z.to_nat (num_sections fb)) 0 fb;
  Done (set_bands st (vinsert band fb' (bands st))).

Definition resetFilterState (st : third_octave_filter) : outcome third_octave_filter :=
  st ← foldM reset_band st all_bands;
  Done (set_initialized st 1).

(** *** [calculateSamplesIntegration] *)

Definition calculateSamplesIntegration (st : third_octave_filter)
  : outcome third_octave_filter :=
  match f_to_u64 (fmul (fdiv (sample_rate st) (f_of_int 1000))
                       (f_of_int (integrationTime st))) with
  | None => Undefined ConversionOutOfRange
  | Some n => Done (set_maxNumberOfSamples st n)
  end.

(** *** [calculateLevel] *)

(** The instantaneous level [level_db] that the body of the loop of
    [calculateLevel] computes for a band. *)
Definition level_db (st : third_octave_filter) (band : fin NUM_BANDS) : float :=
  let rms := fsqrt (fdiv (temporal_sum st !!! band) (f_of_int (samplesCount st))) in
  fadd (fmul (f_lit (Dec 100 (-1))) (flog10 rms)) (mic_constant st).

(** The body of the loop of [calculateLevel].  [level_db] is a local
    variable that no later statement reads. *)
Definition calculateLevel_band (st : third_octave_filter) (band : fin NUM_BANDS)
  : third_octave_filter :=
  if 0 <? samplesCount st then
    let level_db := level_db st band in
    let st :=
      if feqb (smoothed_level st !!! band) (f_of_int 0)
      then set_smoothed_level st
             (vinsert band (volume_level st !!! band) (smoothed_level st))
      else set_smoothed_level st
             (vinsert band
                (fadd (fmul (alpha st) (volume_level st !!! band))
                      (fmul (fsub (f_of_int 1) (alpha st))
                            (smoothed_level st !!! band)))
                (smoothed_level st)) in
    let st := set_volume_level st
                (vinsert band (smoothed_level st !!! band) (volume_level st)) in
    let st := set_temporal_sum st
                (vinsert band (f_lit (Dec 0 (-1))) (temporal_sum st)) in
    set_samplesCount st 0
  else st.

Definition calculateLevel (st : third_octave_filter) : third_octave_filter :=
  set_samplesCount (foldl calculateLevel_band st all_bands) 0.

(** *** [third_octave_filter_alloc] and [third_octave_filter_free] *)

(** The loop that zeroes [temporal_sum], [volume_level] and
    [smoothed_level]. *)
Definition zero_band (st : third_octave_filter) (i : fin NUM_BANDS)
  : third_octave_filter :=
  let st := set_temporal_sum st (vinsert i (f_lit (Dec 0 (-1))) (temporal_sum st)) in
  let st := set_volume_level st (vinsert i (f_lit (Dec 0 (-1))) (volume_level st)) in
  set_smoothed_level st (vinsert i (f_of_int 0) (smoothed_level st)).

(** [pFilterBank] is the global pointer ([None] is [NULL]); [rate] and
    [order] are the arguments [sample_rate] and [filter_order].  [block] is
    what [malloc] returns when it is called: [None] for [NULL], else the
    block with its contents, which are not initialised ([malloc] runs no
    member initialiser, so [alpha] keeps the value found in the block). *)
Definition third_octave_filter_alloc
    (pFilterBank : option third_octave_filter)
    (block : option third_octave_filter)
    (rate : float) (order : Z)
  : outcome (option third_octave_filter) :=
  let pFilterBank :=
    match pFilterBank with
    | None => block
    | Some _ => pFilterBank
    end in
  match pFilterBank with
  | None => Undefined NullDereference
  | Some st =>
      let st := set_bypass st (f_of_int 1) in
      let st := set_sample_rate st rate in
      let st := set_filter_order st
                  (if (order =? 2) || (order =? 4) then order else 2) in
      let st := set_initialized st 0 in
      let st := set_channelType st LEFT_CHANNEL in
      bs ← initializeFilterBank (bands st) (filter_order st);
      let st := set_bands st bs in
      st ← resetFilterState st;
      let st := set_mic_constant st (f_lit (Dec 1200 (-1))) in
      let st := set_integrationTime st 125 in
      let st := set_samplesCount st 0 in
      let st := foldl zero_band st all_bands in
      match f_to_u64 (fmul (fdiv (sample_rate st) (f_of_int 1000))
                           (f_of_int (integrationTime st))) with
      | None => Undefined ConversionOutOfRange
      | Some n =>
          let st := set_maxNumberOfSamples st n in
          st ← calculateSamplesIntegration st;
          Done (Some st)
      end
  end.

Definition third_octave_filter_free (pFilterBank : option third_octave_filter)
  : option third_octave_filter :=
  None.

(** *** [third_octave_filter_process] *)

(** [data[i]]; the buffer holds [length data] samples. *)
Definition read (data : list float) (i : Z) : outcome float :=
  if i <? 0 then Undefined OutOfBounds
  else match data !! Z.to_nat i with
       | Some x => Done x
       | None => Undefined OutOfBounds
       end.

(** The values of [i] in [for (int i = start; i < buffer_size; i += 2)],
    for a [buffer_size] below [2^31 - 1], where [i += 2] stays in the range
    of [int]. *)
Definition loop_indices (start buffer_size : Z) : list Z :=
  (fun k => start + 2 * Z.of_nat k) <$> seq 0 (Z.to_nat ((buffer_size - start + 1) / 2)).

(** The body of the loop over [band], one channel. *)
Definition filter_band (input : double) (st : third_octave_filter)
    (band : fin NUM_BANDS) : outcome third_octave_filter :=
  '(fb, output) ← processFilterBand (bands st !!! band) input;
  let st := set_bands st (vinsert band fb (bands st)) in
  Done (set_temporal_sum st
          (vinsert band (fadd (temporal_sum st !!! band) (f_of_d (dpow2 output)))
             (temporal_sum st))).

(** The body of the loop over [band], stereo. *)
Definition filter_band_stereo (input_left input_right : double)
    (st : third_octave_filter) (band : fin NUM_BANDS) : outcome third_octave_filter :=
  '(fb, output_left) ← processFilterBand (bands st !!! band) input_left;
  let st := set_bands st (vinsert band fb (bands st)) in
  '(fb, output_right) ← processFilterBand (bands st !!! band) input_right;
  let st := set_bands st (vinsert band fb (bands st)) in
  let st := set_temporal_sum st
              (vinsert band
                 (fadd (temporal_sum st !!! band) (f_of_d (dpow2 output_left)))
                 (temporal_sum st)) in
  Done (set_temporal_sum st
          (vinsert band
             (fadd (temporal_sum st !!! band) (f_of_d (dpow2 output_right)))
             (temporal_sum st))).

(** The state of a run of the processing loop: the bank, and a ghost log
    with one entry per call of [calculateLevel], the value of
    [samplesCount] on entry.  The log is not program state; nothing reads
    it. *)
Definition run : Type := third_octave_filter * list Z.

(** [if (samplesCount >= maxNumberOfSamples) calculateLevel();] *)
Definition check_window (r : run) : run :=
  if maxNumberOfSamples r.1 <=? int_to_u64 (samplesCount r.1)
  then (calculateLevel r.1, r.2 ++ [samplesCount r.1])
  else r.

(** [samplesCount += n;] followed by the window check.  The sum is
    reduced to 32 bits ([wrap_int]); it is the sum itself as long as it is
    below [2^31]. *)
Definition count_samples (n : Z) (r : run) : run :=
  check_window (set_samplesCount r.1 (wrap_int (samplesCount r.1 + n)), r.2).

(** The body of the loops of [LEFT_CHANNEL] and [RIGHT_CHANNEL]. *)
Definition mono_sample (data : list float) (r : run) (i : Z) : outcome run :=
  x ← read data i;
  st ← foldM (filter_band (d_of_f x)) r.1 all_bands;
  Done (count_samples 1 (st, r.2)).

(** The body of the loop of [STEREO_CHANNEL]. *)
Definition stereo_sample (data : list float) (r : run) (i : Z) : outcome run :=
  x ← read data i;
  y ← read data (i + 1);
  st ← foldM (filter_band_stereo (d_of_f x) (d_of_f y)) r.1 all_bands;
  Done (count_samples 2 (st, r.2)).

(** The [switch] on [channelType]. *)
Definition process_channels (r : run) (data : list float) (buffer_size : Z)
  : outcome run :=
  if channelType r.1 =? LEFT_CHANNEL
  then foldM (mono_sample data) r (loop_indices 0 buffer_size)
  else if channelType r.1 =? RIGHT_CHANNEL
  then foldM (mono_sample data) r (loop_indices 1 buffer_size)
  else if channelType r.1 =? STEREO_CHANNEL
  then foldM (stereo_sample data) r (loop_indices 0 buffer_size)
  else Done r.

(** [third_octave_filter_process], with the ghost log of the level
    computations of the call. *)
Definition process_logged (pFilterBank : option third_octave_filter)
    (data : list float) (buffer_size : Z)
  : outcome (option third_octave_filter * list float * list Z) :=
  match pFilterBank with
  | None => Undefined NullDereference
  | Some st =>
      if feqb (bypass st) (f_of_int 1)
      then Done (Some st, data, [])
      else r ← process_channels (st, []) data buffer_size;
           Done (Some r.1, data, r.2)
  end.

(** [third_octave_filter_process]: the bank pointer and the buffer after
    the call.  The source has no store through [data]. *)
Definition third_octave_filter_process (pFilterBank : option third_octave_filter)
    (data : list float) (buffer_size : Z)
  : outcome (option third_octave_filter * list float) :=
  r ← process_logged pFilterBank data buffer_size;
  Done r.1.

(** *** Configuration *)

(** Modelled from the spec: [third_octave_filter_setValue] is declared in
    the header and its definition is not in the source.  The spec gives it
    the bypass flag, the calibration constant, the integration time
    (recomputing the sample threshold) and the channel mode; an integration
    time that is not positive and an unknown channel mode are rejected and
    leave the bank as it is. *)
Inductive setting :=
  | Set_bypass (val : float)
  | Set_mic_constant (val : float)
  | Set_integrationTime (ms : Z)
  | Set_channelType (channel : Z).

Definition third_octave_filter_setValue (st : third_octave_filter) (s : setting)
  : outcome third_octave_filter :=
  match s with
  | Set_bypass val => Done (set_bypass st val)
  | Set_mic_constant val => Done (set_mic_constant st val)
  | Set_integrationTime ms =>
      if 0 <? ms then calculateSamplesIntegration (set_integrationTime st ms)
      else Done st
  | Set_channelType channel =>
      if (channel =? LEFT_CHANNEL) || (channel =? RIGHT_CHANNEL)
         || (channel =? STEREO_CHANNEL)
      then Done (set_channelType st channel)
      else Done st
  end.

(** The banks a client can bring about: allocate, then process buffers and
    change settings in any order. *)
Inductive reachable : third_octave_filter -> Prop :=
  | reachable_alloc pFilterBank block rate order st :
      third_octave_filter_alloc pFilterBank block rate order = Done (Some st) ->
      reachable st
  | reachable_process st data buffer_size st' data' :
      reachable st ->
      third_octave_filter_process (Some st) data buffer_size = Done (Some st', data') ->
      reachable st'
  | reachable_setValue st s st' :
      reachable st ->
      third_octave_filter_setValue st s = Done st' ->
      reachable st'.

(** The counter and the ghost log under [samplesCount += n] and the window
    check, for the threshold [T]. *)
Definition count_step (n T : Z) (cl : Z * list Z) : Z * list Z :=
  let c := wrap_int (cl.1 + n) in
  if T <=? int_to_u64 c then (0, cl.2 ++ [c]) else (c, cl.2).

End Bank.

Arguments BiquadSection : clear implicits.
Arguments FilterBand : clear implicits.
Arguments third_octave_filter : clear implicits.
Arguments run : clear implicits.

(** ** IEEE 754 arithmetic

    [float] is binary32 and [double] is binary64, both rounding to nearest,
    ties to even, as [SpecFloat] defines them. *)
Module IEEE.

Definition prec32 : Z := 24.
Definition emax32 : Z := 128.
Definition prec64 : Z := 53.
Definition emax64 : Z := 1024.

(** The quotient [n / d] of two integers, [0 < d], rounded once. *)
Definition ratio (prec emax : Z) (n d : Z) : spec_float :=
  match n with
  | 0 => S754_zero false
  | Zpos m => SFdiv prec emax (S754_finite false m 0) (S754_finite false (Z.to_pos d) 0)
  | Zneg m => SFdiv prec emax (S754_finite true m 0) (S754_finite false (Z.to_pos d) 0)
  end.

(** A decimal literal, rounded once. *)
Definition of_dec (prec emax : Z) (d : dec) : spec_float :=
  if 0 <=? dec_exp d
  then binary_normalize prec emax (dec_mant d * 10 ^ dec_exp d) 0 false
  else ratio prec emax (dec_mant d) (10 ^ (- dec_exp d)).

(** Conversion between the two formats. *)
Definition convert (prec emax : Z) (x : spec_float) : spec_float :=
  match x with
  | S754_finite s m e => binary_normalize prec emax (cond_Zopp s (Zpos m)) e s
  | _ => x
  end.

(** [(uint64_t)x]: truncation toward zero, undefined when the truncated
    value is not in the range of [uint64_t]. *)
Definition to_u64 (x : spec_float) : option Z :=
  match x with
  | S754_zero _ => Some 0
  | S754_finite s m e =>
      let t := Z.shiftl (Zpos m) e in
      if s then (if t =? 0 then Some 0 else None)
      else if t <? 2^64 then Some t else None
  | _ => None
  end.

(** [n] more bits of the binary logarithm of [F / 2^P], a value in
    [[1, 2)], by repeated squaring. *)
Fixpoint log2_bits (n : nat) (P F acc : Z) : Z :=
  match n with
  | O => acc
  | S n' =>
      let F2 := Z.shiftr (F * F) P in
      if 2 ^ (P + 1) <=? F2
      then log2_bits n' P (Z.shiftr F2 1) (2 * acc + 1)
      else log2_bits n' P F2 (2 * acc)
  end.

(** [log10f].  The C library function is not part of the repository and
    its rounding is not fixed by the C standard: this one computes 48
    fractional bits of the binary logarithm, scales by [log10 2] and rounds
    to binary32.  It is exact where the standard fixes the result
    ([log10f(1) = +0], [log10f(0) = -inf], NaN for a negative argument). *)
Definition log10f (x : spec_float) : spec_float :=
  match x with
  | S754_nan => S754_nan
  | S754_infinity false => x
  | S754_infinity true => S754_nan
  | S754_zero _ => S754_infinity true
  | S754_finite true _ _ => S754_nan
  | S754_finite false m e =>
      let d := Z.log2 (Zpos m) in
      let F := Z.shiftl (Zpos m) (64 - d) in
      let l2 := (e + d) * 2 ^ 48 + log2_bits 48 64 F 0 in
      ratio prec32 emax32 (l2 * 30102999566398119521) (2 ^ 48 * 10 ^ 20)
  end.

#[export] Instance ieee : Arith spec_float spec_float := {|
  d_lit := of_dec prec64 emax64;
  dadd := SFadd prec64 emax64;
  dsub := SFsub prec64 emax64;
  dmul := SFmul prec64 emax64;
  dpow2 := fun x => SFmul prec64 emax64 x x;
  d_of_f := convert prec64 emax64;
  f_of_d := convert prec32 emax32;
  f_lit := of_dec prec32 emax32;
  f_of_int := fun n => binary_normalize prec32 emax32 n 0 false;
  fadd := SFadd prec32 emax32;
  fsub := SFsub prec32 emax32;
  fmul := SFmul prec32 emax32;
  fdiv := SFdiv prec32 emax32;
  fsqrt := SFsqrt prec32 emax32;
  flog10 := log10f;
  feqb := SFeqb;
  f_to_u64 := to_u64
|}.

(** A block as [malloc] may return it, every byte [0xFF]: an [int] reads
    [-1], a [float] or a [double] reads as a NaN. *)
Definition garbage_section : BiquadSection spec_float :=
  {| b := vreplicate 3 S754_nan; a := vreplicate 3 S754_nan;
     z := vreplicate 2 S754_nan |}.

Definition garbage_band : FilterBand spec_float :=
  {| sections := vreplicate 2 garbage_section; num_sections := -1;
     center_freq := S754_nan |}.

Definition garbage : third_octave_filter spec_float spec_float :=
  {| bypass := S754_nan; sample_rate := S754_nan; filter_order := -1;
     initialized := -1; channelType := -1;
     bands := vreplicate NUM_BANDS garbage_band;
     mic_constant := S754_nan; alpha := S754_nan; integrationTime := -1;
     samplesCount := -1;
     temporal_sum := vreplicate NUM_BANDS S754_nan;
     volume_level := vreplicate NUM_BANDS S754_nan;
     smoothed_level := vreplicate NUM_BANDS S754_nan;
     maxNumberOfSamples := 2^64 - 1 |}.

(** [1.0f], and an interleaved buffer of [n] frames of it. *)
Definition one : spec_float := of_dec prec32 emax32 (Dec 10 (-1)).
Definition ones (n : nat) : list spec_float := replicate (2 * n) one.

(** The bank when a call of [f] returned it. *)
Definition bank_of (r : outcome (option (third_octave_filter spec_float spec_float)))
  : third_octave_filter spec_float spec_float :=
  match r with
  | Done (Some st) => st
  | _ => garbage
  end.

(** [third_octave_filter_alloc(rate, order)] on a null [pFilterBank],
    followed by clearing the bypass flag. *)
Definition fresh_bank (rate order : Z) : third_octave_filter spec_float spec_float :=
  set_bypass
    (bank_of (third_octave_filter_alloc None (Some garbage)
                (binary_normalize prec32 emax32 rate 0 false) order))
    (S754_zero false).

(** The bank allocated for 1000 Hz, order 2, bypass cleared, at the entry
    of [calculateLevel] in the 125th iteration of the left-channel loop over
    125 frames of [1.0f]: 124 frames processed, the 125th filtered and
    counted. *)
Definition before_window : third_octave_filter spec_float spec_float :=
  Eval vm_compute in
    match process_logged (Some (fresh_bank 1000 2)) (ones 124) 248 with
    | Done (Some st, _, _) =>
        match foldM (filter_band (d_of_f one)) st all_bands with
        | Done st' => set_samplesCount st' (wrap_int (samplesCount st' + 1))
        | Undefined _ => garbage
        end
    | _ => garbage
    end.

(** The same bank after that call of [calculateLevel]. *)
Definition after_window : third_octave_filter spec_float spec_float :=
  calculateLevel before_window.



End IEEE.

(** * Properties *)

(** ** Outcomes, folds and indices *)

Lemma bind_Done {A B} (m : outcome A) (k : A -> outcome B) (y : B) :
  (x ← m; k x) = Done y -> exists x, m = Done x /\ k x = Done y.
Proof. destruct m as [x|u]; [eauto | discriminate]. Qed.

Lemma defined_Done {A} (x : A) : defined (Done x).
Proof. exists x. reflexivity. Qed.

#[local] Hint Resolve defined_Done : core.

(** A step that keeps an invariant and stays within a preorder keeps both
    along a fold. *)
Lemma foldM_preserves {A B} (f : A -> B -> outcome A) (R : A -> A -> Prop) :
  (forall x, R x x) ->
  (forall x y z, R x y -> R y z -> R x z) ->
  (forall x y x', f x y = Done x' -> R x x') ->
  forall l x x', foldM f x l = Done x' -> R x x'.
Proof.
  intros Hrefl Htrans Hstep l.
  induction l as [|y l IH]; intros x x' H; simpl in H.
  - injection H as <-. apply Hrefl.
  - apply bind_Done in H as (x1 & H1 & H2).
    eapply Htrans; [eapply Hstep; eassumption | eapply IH; eassumption].
Qed.

(** A fold of steps that are defined on an invariant they keep, for the
    elements of the list, is defined. *)
Lemma foldM_defined {A B} (f : A -> B -> outcome A) (I : A -> Prop)
    (P : B -> Prop) :
  (forall x y, I x -> P y -> exists x', f x y = Done x' /\ I x') ->
  forall l x, Forall P l -> I x -> exists x', foldM f x l = Done x' /\ I x'.
Proof.
  intros Hstep l.
  induction l as [|y l IH]; intros x Hl Hx; simpl.
  - eauto.
  - apply Forall_cons in Hl as [Hy Hl].
    destruct (Hstep x y Hx Hy) as (x1 & -> & Hx1). simpl. apply IH; assumption.
Qed.

Lemma foldl_preserves {A B} (f : A -> B -> A) (R : A -> A -> Prop) :
  (forall x, R x x) ->
  (forall x y z, R x y -> R y z -> R x z) ->
  (forall x y, R x (f x y)) ->
  forall l x, R x (foldl f x l).
Proof.
  intros Hrefl Htrans Hstep l.
  induction l as [|y l IH]; intros x; simpl; [apply Hrefl|].
  eapply Htrans; [apply Hstep | apply IH].
Qed.

Lemma index_lt (n i : nat) : (i < n)%nat -> is_Some (index n i).
Proof.
  revert i. induction n as [|n IH]; intros i Hi; [lia|].
  destruct i as [|i]; simpl; [eauto|].
  destruct (IH i) as [j ->]; [lia|]. simpl. eauto.
Qed.

Lemma index_ge (n i : nat) : (n <= i)%nat -> index n i = None.
Proof.
  revert i. induction n as [|n IH]; intros i Hi; [reflexivity|].
  destruct i as [|i]; simpl; [lia|].
  rewrite IH by lia. reflexivity.
Qed.

Lemma indexZ_lt (n : nat) (i : Z) : 0 <= i < Z.of_nat n -> is_Some (indexZ n i).
Proof.
  intros Hi. unfold indexZ.
  destruct (Z.ltb_spec i 0); [lia|]. apply index_lt. lia.
Qed.

Lemma indexZ_ge (n : nat) (i : Z) : Z.of_nat n <= i -> indexZ n i = None.
Proof.
  intros Hi. unfold indexZ.
  destruct (Z.ltb_spec i 0); [reflexivity|]. apply index_ge. lia.
Qed.

Lemma vinsert_twice {A n} (i : fin n) (x y : A) (v : vec A n) :
  vinsert i x (vinsert i y v) = vinsert i x v.
Proof.
  apply vec_eq. intros j. destruct (decide (i = j)) as [->|Hne].
  - rewrite !vlookup_insert. reflexivity.
  - rewrite !vlookup_insert_ne by exact Hne. reflexivity.
Qed.

Lemma all_bands_complete (band : fin NUM_BANDS) : band ∈ all_bands.
Proof. apply elem_of_enum. Qed.

Lemma all_bands_first : exists l, all_bands = 0%fin :: l.
Proof. eexists. vm_compute. reflexivity. Qed.

Section Properties.
Context {double float : Type} `{AR : Arith double float}.

(** ** The biquad section *)

(** C10.  For every section and every input [x], [processBiquad] returns
    [y = b0*x + z0]; afterwards [z0' = b1*x - a1*y + z1] and
    [z1' = b2*x - a2*y], and the coefficients [b] and [a] are the ones
    before the call.  [processBiquad] is a total function of the section
    and the input: it has no error outcome and touches nothing else. *)
Theorem processBiquad_direct_form (section : BiquadSection double) (x : double) :
  let y := dadd (dmul (b section !!! 0%fin) x) (z section !!! 0%fin) in
  let section' := (processBiquad section x).1 in
  (processBiquad section x).2 = y
  /\ z section' !!! 0%fin
     = dadd (dsub (dmul (b section !!! 1%fin) x) (dmul (a section !!! 1%fin) y))
            (z section !!! 1%fin)
  /\ z section' !!! 1%fin
     = dsub (dmul (b section !!! 2%fin) x) (dmul (a section !!! 2%fin) y)
  /\ b section' = b section
  /\ a section' = a section.
Proof.
  destruct section as [cb ca cz].
  inv_vec cz; intros z0 z1.
  cbn. repeat split.
Qed.

(** ** Bypass and the null bank *)

(** C9.  When the bypass flag is enabled ([bypass == 1]),
    [third_octave_filter_process] returns at once for every buffer and every
    length: the bank after the call is the bank before it, field by field
    (delay lines, temporal sums, sample count, volume and smoothed levels),
    and so is the buffer. *)
Theorem process_bypass_noop (st : third_octave_filter double float) (data : list float)
    (buffer_size : Z) :
  feqb (bypass st) (f_of_int 1) = true ->
  third_octave_filter_process (Some st) data buffer_size = Done (Some st, data).
Proof.
  intros Hb. unfold third_octave_filter_process, process_logged.
  rewrite Hb. reflexivity.
Qed.

(** With the bypass flag enabled no level computation takes place. *)
Lemma process_bypass_log (st : third_octave_filter double float) (data : list float)
    (buffer_size : Z) :
  feqb (bypass st) (f_of_int 1) = true ->
  process_logged (Some st) data buffer_size = Done (Some st, data, []).
Proof.
  intros Hb. unfold process_logged. rewrite Hb. reflexivity.
Qed.

(** C5, as the code has it.  On an unallocated bank, whether never
    allocated or freed, [third_octave_filter_process] reads the bypass flag
    through the null [pFilterBank]: the call is undefined, for every buffer
    and every length, and the code has no "not initialized" outcome. *)
Theorem process_unallocated_undefined (p : option (third_octave_filter double float))
    (data : list float) (buffer_size : Z) :
  third_octave_filter_process None data buffer_size = Undefined NullDereference
  /\ third_octave_filter_process (third_octave_filter_free p) data buffer_size
     = Undefined NullDereference
  /\ ~ defined (third_octave_filter_process None data buffer_size).
Proof.
  repeat split.
  intros [x Hx]. discriminate Hx.
Qed.

(** ** The cascade stays inside [sections] when [num_sections <= 2] *)

(** Every band has at most as many sections as [sections] has elements. *)
Definition bands_ok (st : third_octave_filter double float) : Prop :=
  forall band, num_sections (bands st !!! band) <= 2.

Lemma cascade_num_sections (n : nat) (i : Z) (band band' : FilterBand double)
    (x y : double) :
  cascade n i band x = Done (band', y) -> num_sections band' = num_sections band.
Proof.
  revert i band x. induction n as [|n IH]; intros i band x H; simpl in H.
  - injection H as <- _. reflexivity.
  - destruct (indexZ 2 i) as [j|]; [|discriminate].
    destruct (processBiquad (sections band !!! j) x) as [s o].
    apply IH in H. exact H.
Qed.

Lemma cascade_defined (n : nat) (i : Z) (band : FilterBand double) (x : double) :
  0 <= i -> i + Z.of_nat n <= 2 -> defined (cascade n i band x).
Proof.
  revert i band x. induction n as [|n IH]; intros i band x Hi Hn; simpl.
  - auto.
  - destruct (indexZ_lt 2 i) as [j ->]; [lia|].
    destruct (processBiquad (sections band !!! j) x) as [s o].
    apply IH; lia.
Qed.

(** Past [sections[1]] the cascade reads out of the array. *)
Lemma cascade_out_of_bounds (n : nat) (i : Z) (band : FilterBand double) (x : double) :
  0 <= i -> 2 < i + Z.of_nat n -> (0 < n)%nat ->
  cascade n i band x = Undefined OutOfBounds.
Proof.
  revert i band x. induction n as [|n IH]; intros i band x Hi Hn Hpos; [lia|].
  simpl. destruct (Z.le_gt_cases 2 i) as [Hge|Hlt].
  - rewrite indexZ_ge by (simpl; lia). reflexivity.
  - destruct (indexZ_lt 2 i) as [j ->]; [lia|].
    destruct (processBiquad (sections band !!! j) x) as [s o].
    apply IH; lia.
Qed.

Lemma processFilterBand_num_sections (band band' : FilterBand double) (x y : double) :
  processFilterBand band x = Done (band', y) ->
  num_sections band' = num_sections band.
Proof. apply cascade_num_sections. Qed.

Lemma processFilterBand_defined (band : FilterBand double) (x : double) :
  num_sections band <= 2 -> defined (processFilterBand band x).
Proof. intros H. apply cascade_defined; lia. Qed.

Lemma processFilterBand_out_of_bounds (band : FilterBand double) (x : double) :
  2 < num_sections band -> processFilterBand band x = Undefined OutOfBounds.
Proof. intros H. apply cascade_out_of_bounds; lia. Qed.


Lemma reset_sections_out_of_bounds (n : nat) (i : Z) (band : FilterBand double) :
  0 <= i -> 2 < i + Z.of_nat n -> (0 < n)%nat ->
  reset_sections n i band = Undefined OutOfBounds.
Proof.
  revert i band. induction n as [|n IH]; intros i band Hi Hn Hpos; [lia|].
  simpl. destruct (Z.le_gt_cases 2 i) as [Hge|Hlt].
  - rewrite indexZ_ge by (simpl; lia). reflexivity.
  - destruct (indexZ_lt 2 i) as [j ->]; [lia|]. apply IH; lia.
Qed.

(** ** What one sample changes *)

(** [st'] is [st] up to the delay lines and coefficients of the bands, the
    temporal sums, the levels and the sample count; no band changes its
    number of sections. *)
Definition stepped (st st' : third_octave_filter double float) : Prop :=
  exists bs ts vl sl c,
    st' = set_samplesCount
            (set_smoothed_level
               (set_volume_level (set_temporal_sum (set_bands st bs) ts) vl) sl) c
    /\ forall band, num_sections (bs !!! band) = num_sections (bands st !!! band).

Lemma stepped_refl (st : third_octave_filter double float) : stepped st st.
Proof.
  exists (bands st), (temporal_sum st), (volume_level st), (smoothed_level st),
    (samplesCount st).
  split; [destruct st; reflexivity | reflexivity].
Qed.

Lemma stepped_trans (st1 st2 st3 : third_octave_filter double float) :
  stepped st1 st2 -> stepped st2 st3 -> stepped st1 st3.
Proof.
  intros (bs & ts & vl & sl & c & -> & H1) (bs' & ts' & vl' & sl' & c' & -> & H2).
  exists bs', ts', vl', sl', c'. split; [reflexivity|].
  intros band. rewrite H2. simpl. apply H1.
Qed.

Lemma stepped_bands_ok (st st' : third_octave_filter double float) :
  stepped st st' -> bands_ok st -> bands_ok st'.
Proof.
  intros (bs & ts & vl & sl & c & -> & H) Hok band. simpl. rewrite H. apply Hok.
Qed.

Lemma stepped_config (st st' : third_octave_filter double float) :
  stepped st st' ->
  maxNumberOfSamples st' = maxNumberOfSamples st
  /\ channelType st' = channelType st
  /\ bypass st' = bypass st
  /\ mic_constant st' = mic_constant st
  /\ alpha st' = alpha st.
Proof. intros (bs & ts & vl & sl & c & -> & H). repeat split. Qed.

Lemma vinsert_num_sections (bs : vec (FilterBand double) NUM_BANDS) (band : fin NUM_BANDS)
    (fb : FilterBand double) :
  num_sections fb = num_sections (bs !!! band) ->
  forall i, num_sections (vinsert band fb bs !!! i) = num_sections (bs !!! i).
Proof.
  intros H i. destruct (decide (band = i)) as [->|Hne].
  - rewrite vlookup_insert. exact H.
  - rewrite vlookup_insert_ne by exact Hne. reflexivity.
Qed.

(** The band loop of one channel, spelled out. *)
Lemma filter_band_Done (x : double) (st st' : third_octave_filter double float)
    (band : fin NUM_BANDS) :
  filter_band x st band = Done st' ->
  exists fb y,
    processFilterBand (bands st !!! band) x = Done (fb, y)
    /\ st' = set_temporal_sum (set_bands st (vinsert band fb (bands st)))
               (vinsert band (fadd (temporal_sum st !!! band) (f_of_d (dpow2 y)))
                  (temporal_sum st)).
Proof.
  unfold filter_band. intros H.
  apply bind_Done in H as ([fb y] & H1 & H2).
  injection H2 as <-. eauto.
Qed.

Lemma filter_band_stepped (x : double) (st st' : third_octave_filter double float)
    (band : fin NUM_BANDS) :
  filter_band x st band = Done st' ->
  stepped st st' /\ volume_level st' = volume_level st
  /\ smoothed_level st' = smoothed_level st /\ samplesCount st' = samplesCount st.
Proof.
  intros H. apply filter_band_Done in H as (fb & y & H1 & ->).
  apply processFilterBand_num_sections in H1.
  split; [|repeat split].
  exists (vinsert band fb (bands st)),
    (vinsert band (fadd (temporal_sum st !!! band) (f_of_d (dpow2 y)))
       (temporal_sum st)),
    (volume_level st), (smoothed_level st), (samplesCount st).
  split; [reflexivity|]. apply vinsert_num_sections, H1.
Qed.

Lemma filter_band_defined (x : double) (st : third_octave_filter double float)
    (band : fin NUM_BANDS) :
  bands_ok st -> exists st', filter_band x st band = Done st' /\ bands_ok st'.
Proof.
  intros Hok. unfold filter_band.
  destruct (processFilterBand_defined (bands st !!! band) x (Hok band))
    as ([fb y] & H).
  rewrite H. simpl. eexists; split; [reflexivity|].
  apply processFilterBand_num_sections in H.
  intros i. simpl. rewrite vinsert_num_sections by exact H. apply Hok.
Qed.

(** The band loop of the stereo case, spelled out: the left sample goes
    through the band, the right sample goes through the band as the left
    sample left it, and the two squares are added to the temporal sum, left
    first. *)
Lemma filter_band_stereo_Done (l r : double) (st st' : third_octave_filter double float)
    (band : fin NUM_BANDS) :
  filter_band_stereo l r st band = Done st' ->
  exists fb1 y1 fb2 y2,
    processFilterBand (bands st !!! band) l = Done (fb1, y1)
    /\ processFilterBand fb1 r = Done (fb2, y2)
    /\ st' = set_temporal_sum (set_bands st (vinsert band fb2 (bands st)))
               (vinsert band
                  (fadd (fadd (temporal_sum st !!! band) (f_of_d (dpow2 y1)))
                        (f_of_d (dpow2 y2)))
                  (temporal_sum st)).
Proof.
  unfold filter_band_stereo. intros H.
  apply bind_Done in H as ([fb1 y1] & H1 & H).
  apply bind_Done in H as ([fb2 y2] & H2 & H).
  simpl in H2. rewrite vlookup_insert in H2.
  injection H as <-.
  exists fb1, y1, fb2, y2. split; [exact H1|]. split; [exact H2|].
  simpl. rewrite vlookup_insert.
  rewrite !vinsert_twice. reflexivity.
Qed.

(** What the band loops leave alone. *)
Definition filtered (st st' : third_octave_filter double float) : Prop :=
  stepped st st' /\ volume_level st' = volume_level st
  /\ smoothed_level st' = smoothed_level st /\ samplesCount st' = samplesCount st.

Lemma filtered_refl (st : third_octave_filter double float) : filtered st st.
Proof. split; [apply stepped_refl | repeat split]. Qed.

Lemma filtered_trans (st1 st2 st3 : third_octave_filter double float) :
  filtered st1 st2 -> filtered st2 st3 -> filtered st1 st3.
Proof.
  intros (H1 & Hv1 & Hs1 & Hc1) (H2 & Hv2 & Hs2 & Hc2).
  split; [eapply stepped_trans; eassumption|].
  repeat split; congruence.
Qed.

Lemma filter_band_stereo_filtered (l r : double) (st st' : third_octave_filter double float)
    (band : fin NUM_BANDS) :
  filter_band_stereo l r st band = Done st' -> filtered st st'.
Proof.
  intros H. apply filter_band_stereo_Done in H as (fb1 & y1 & fb2 & y2 & H1 & H2 & ->).
  apply processFilterBand_num_sections in H1, H2.
  split; [|repeat split].
  exists (vinsert band fb2 (bands st)),
    (vinsert band
       (fadd (fadd (temporal_sum st !!! band) (f_of_d (dpow2 y1))) (f_of_d (dpow2 y2)))
       (temporal_sum st)),
    (volume_level st), (smoothed_level st), (samplesCount st).
  split; [reflexivity|]. apply vinsert_num_sections. congruence.
Qed.

Lemma filter_band_stereo_defined (l r : double) (st : third_octave_filter double float)
    (band : fin NUM_BANDS) :
  bands_ok st -> exists st', filter_band_stereo l r st band = Done st' /\ bands_ok st'.
Proof.
  intros Hok.
  destruct (processFilterBand_defined (bands st !!! band) l (Hok band))
    as ([fb1 y1] & H1).
  pose proof (processFilterBand_num_sections _ _ _ _ H1) as Hn1.
  destruct (processFilterBand_defined fb1 r) as ([fb2 y2] & H2).
  { rewrite Hn1. apply Hok. }
  assert (exists st', filter_band_stereo l r st band = Done st') as [st' Hst'].
  { unfold filter_band_stereo. rewrite H1. cbn [mbind outcome_bind bands set_bands].
    rewrite vlookup_insert, H2. simpl. eauto. }
  exists st'. split; [exact Hst'|].
  apply filter_band_stereo_filtered in Hst' as [Hst' _].
  eapply stepped_bands_ok; eassumption.
Qed.

Lemma band_loop_filtered (x : double) (st st' : third_octave_filter double float) :
  foldM (filter_band x) st all_bands = Done st' -> filtered st st'.
Proof.
  apply (foldM_preserves _ filtered filtered_refl filtered_trans).
  intros s band s' H. apply filter_band_stepped in H. exact H.
Qed.

Lemma band_loop_stereo_filtered (l r : double) (st st' : third_octave_filter double float) :
  foldM (filter_band_stereo l r) st all_bands = Done st' -> filtered st st'.
Proof.
  apply (foldM_preserves _ filtered filtered_refl filtered_trans).
  intros s band s'. apply filter_band_stereo_filtered.
Qed.

Lemma band_loop_defined (x : double) (st : third_octave_filter double float) :
  bands_ok st ->
  exists st', foldM (filter_band x) st all_bands = Done st' /\ bands_ok st'.
Proof.
  intros Hok.
  apply (foldM_defined _ bands_ok (fun _ => True)); [|apply Forall_true; auto|exact Hok].
  intros s band Hs _. apply filter_band_defined, Hs.
Qed.

Lemma band_loop_stereo_defined (l r : double) (st : third_octave_filter double float) :
  bands_ok st ->
  exists st', foldM (filter_band_stereo l r) st all_bands = Done st' /\ bands_ok st'.
Proof.
  intros Hok.
  apply (foldM_defined _ bands_ok (fun _ => True)); [|apply Forall_true; auto|exact Hok].
  intros s band Hs _. apply filter_band_stereo_defined, Hs.
Qed.

(** ** The level reduction *)

Lemma calculateLevel_band_idle (st : third_octave_filter double float) (band : fin NUM_BANDS) :
  samplesCount st <= 0 -> calculateLevel_band st band = st.
Proof.
  intros H. unfold calculateLevel_band.
  destruct (Z.ltb_spec 0 (samplesCount st)); [lia | reflexivity].
Qed.

Lemma calculateLevel_idle (st : third_octave_filter double float) (l : list (fin NUM_BANDS)) :
  samplesCount st <= 0 -> foldl calculateLevel_band st l = st.
Proof.
  intros H. induction l as [|band l IH]; simpl; [reflexivity|].
  rewrite calculateLevel_band_idle by exact H. exact IH.
Qed.

(** The smoothed level of a band after the body of the loop ran on it. *)
Definition smoothed (st : third_octave_filter double float) (band : fin NUM_BANDS) : float :=
  if feqb (smoothed_level st !!! band) (f_of_int 0)
  then volume_level st !!! band
  else fadd (fmul (alpha st) (volume_level st !!! band))
            (fmul (fsub (f_of_int 1) (alpha st)) (smoothed_level st !!! band)).

(** The body of the loop of [calculateLevel] on a band, when
    [samplesCount] is positive: [level_db] occurs nowhere in the result. *)
Lemma calculateLevel_band_active (st : third_octave_filter double float) (band : fin NUM_BANDS) :
  0 < samplesCount st ->
  calculateLevel_band st band
  = set_samplesCount
      (set_temporal_sum
         (set_volume_level
            (set_smoothed_level st (vinsert band (smoothed st band) (smoothed_level st)))
            (vinsert band (smoothed st band) (volume_level st)))
         (vinsert band (f_lit (Dec 0 (-1))) (temporal_sum st)))
      0.
Proof.
  intros H. unfold calculateLevel_band, smoothed.
  destruct (Z.ltb_spec 0 (samplesCount st)); [|lia].
  destruct (feqb (smoothed_level st !!! band) (f_of_int 0));
    simpl; rewrite vlookup_insert; reflexivity.
Qed.

(** At a window boundary the loop of [calculateLevel] reduces band 0 and
    then finds [samplesCount == 0] for every other band. *)
Lemma calculateLevel_boundary (st : third_octave_filter double float) :
  0 < samplesCount st ->
  calculateLevel st = calculateLevel_band st 0%fin.
Proof.
  intros H. unfold calculateLevel.
  destruct all_bands_first as [l ->]. simpl.
  rewrite calculateLevel_band_active by exact H.
  rewrite calculateLevel_idle by (simpl; lia). reflexivity.
Qed.

Lemma calculateLevel_not_positive (st : third_octave_filter double float) :
  samplesCount st <= 0 -> calculateLevel st = set_samplesCount st 0.
Proof.
  intros H. unfold calculateLevel. rewrite calculateLevel_idle by exact H.
  reflexivity.
Qed.

Lemma calculateLevel_stepped (st : third_octave_filter double float) :
  stepped st (calculateLevel st) /\ samplesCount (calculateLevel st) = 0.
Proof.
  destruct (Z.lt_ge_cases 0 (samplesCount st)) as [H|H].
  - rewrite calculateLevel_boundary, calculateLevel_band_active by exact H.
    split; [|reflexivity].
    eexists (bands st), _, _, _, 0. split; reflexivity.
  - rewrite calculateLevel_not_positive by lia.
    split; [|reflexivity].
    exists (bands st), (temporal_sum st), (volume_level st), (smoothed_level st), 0.
    split; reflexivity.
Qed.

(** ** Counting samples *)

(** The sample count and the ghost log of a run. *)
Definition counters (r : run double float) : Z * list Z := (samplesCount r.1, r.2).

(** The sum of the entries of a log. *)
Definition total (log : list Z) : Z := foldr Z.add 0 log.

Lemma total_app (l k : list Z) : total (l ++ k) = total l + total k.
Proof. unfold total. induction l as [|x l IH]; simpl; lia. Qed.

Lemma wrap_int_small (x : Z) : - 2^31 <= x < 2^31 -> wrap_int x = x.
Proof. intros H. unfold wrap_int. rewrite Z.mod_small by lia. lia. Qed.

Lemma int_to_u64_small (x : Z) : 0 <= x < 2^64 -> int_to_u64 x = x.
Proof. intros H. unfold int_to_u64. apply Z.mod_small, H. Qed.

Lemma count_samples_spec (n : Z) (r : run double float) :
  stepped r.1 (count_samples n r).1
  /\ counters (count_samples n r)
     = count_step n (maxNumberOfSamples r.1) (counters r).
Proof.
  destruct r as [st log]. unfold count_samples, check_window, count_step, counters.
  cbn [fst snd samplesCount maxNumberOfSamples set_samplesCount].
  assert (stepped st (set_samplesCount st (wrap_int (samplesCount st + n)))) as H1.
  { exists (bands st), (temporal_sum st), (volume_level st), (smoothed_level st),
      (wrap_int (samplesCount st + n)).
    split; [destruct st; reflexivity | reflexivity]. }
  destruct (calculateLevel_stepped
              (set_samplesCount st (wrap_int (samplesCount st + n)))) as [H2 H3].
  destruct (maxNumberOfSamples st <=? int_to_u64 (wrap_int (samplesCount st + n)));
    cbn [fst snd].
  - split; [exact (stepped_trans _ _ _ H1 H2) | rewrite H3; reflexivity].
  - split; [exact H1 | reflexivity].
Qed.

(** A loop body counts [n] samples when it leaves the configuration alone
    and moves the counters as [count_step n] does. *)
Definition counts (n : Z) (step : run double float -> Z -> outcome (run double float)) : Prop :=
  forall r i r', step r i = Done r' ->
    stepped r.1 r'.1
    /\ counters r' = count_step n (maxNumberOfSamples r.1) (counters r).

Lemma mono_sample_Done (data : list float) (r r' : run double float) (i : Z) :
  mono_sample data r i = Done r' ->
  exists x st,
    read data i = Done x
    /\ foldM (filter_band (d_of_f x)) r.1 all_bands = Done st
    /\ r' = count_samples 1 (st, r.2).
Proof.
  unfold mono_sample. intros H.
  apply bind_Done in H as (x & Hx & H).
  apply bind_Done in H as (st & Hst & H).
  injection H as <-. eauto.
Qed.

Lemma stereo_sample_Done (data : list float) (r r' : run double float) (i : Z) :
  stereo_sample data r i = Done r' ->
  exists x y st,
    read data i = Done x
    /\ read data (i + 1) = Done y
    /\ foldM (filter_band_stereo (d_of_f x) (d_of_f y)) r.1 all_bands = Done st
    /\ r' = count_samples 2 (st, r.2).
Proof.
  unfold stereo_sample. intros H.
  apply bind_Done in H as (x & Hx & H).
  apply bind_Done in H as (y & Hy & H).
  apply bind_Done in H as (st & Hst & H).
  injection H as <-. eauto 8.
Qed.

Lemma counts_after_filtered (n : Z) (st st' : third_octave_filter double float) (log : list Z) :
  filtered st st' ->
  stepped st (count_samples n (st', log)).1
  /\ counters (count_samples n (st', log))
     = count_step n (maxNumberOfSamples st) (counters (st, log)).
Proof.
  intros (Hs & _ & _ & Hc).
  destruct (count_samples_spec n (st', log)) as [H1 H2].
  split; [eapply stepped_trans; eassumption|].
  rewrite H2. unfold counters. simpl. rewrite Hc.
  destruct (stepped_config _ _ Hs) as (-> & _). reflexivity.
Qed.

Lemma mono_sample_counts (data : list float) : counts 1 (mono_sample data).
Proof.
  intros [st log] i r' H.
  apply mono_sample_Done in H as (x & st' & _ & Hst & ->).
  apply counts_after_filtered. eapply band_loop_filtered, Hst.
Qed.

Lemma stereo_sample_counts (data : list float) : counts 2 (stereo_sample data).
Proof.
  intros [st log] i r' H.
  apply stereo_sample_Done in H as (x & y & st' & _ & _ & Hst & ->).
  apply counts_after_filtered. eapply band_loop_stereo_filtered, Hst.
Qed.

(** The counters after a run of [length l] loop bodies. *)
Lemma run_counters (n : Z) (step : run double float -> Z -> outcome (run double float)) :
  counts n step ->
  forall l r r', foldM step r l = Done r' ->
    stepped r.1 r'.1
    /\ counters r'
       = Nat.iter (length l) (count_step n (maxNumberOfSamples r.1)) (counters r).
Proof.
  intros Hstep l.
  induction l as [|i l IH]; intros r r' H; simpl in H.
  - injection H as <-. split; [apply stepped_refl | reflexivity].
  - apply bind_Done in H as (r1 & H1 & H2).
    apply Hstep in H1 as [Hs1 Hc1]. apply IH in H2 as [Hs2 Hc2].
    split; [eapply stepped_trans; eassumption|].
    rewrite Hc2, Hc1. destruct (stepped_config _ _ Hs1) as (-> & _).
    change (length (i :: l)) with (S (length l)).
    rewrite Nat.iter_succ_r. reflexivity.
Qed.

(** Without overflow of the [int], the samples counted are either still
    in [samplesCount] or in the log. *)
Lemma count_step_total (n T : Z) (k : nat) (c : Z) (log : list Z) :
  0 <= n -> 0 <= c -> c + n * Z.of_nat k < 2^31 ->
  let cl := Nat.iter k (count_step n T) (c, log) in
  0 <= cl.1 <= c + n * Z.of_nat k
  /\ cl.1 + total cl.2 = c + total log + n * Z.of_nat k.
Proof.
  intros Hn Hc. induction k as [|k IH]; intros Hk; simpl.
  - lia.
  - destruct IH as [IH1 IH2]; [nia|].
    destruct (Nat.iter k (count_step n T) (c, log)) as [ck logk]. simpl in *.
    unfold count_step. simpl.
    rewrite wrap_int_small by nia.
    destruct (T <=? int_to_u64 (ck + n)); simpl.
    + rewrite total_app. unfold total at 2. simpl. nia.
    + nia.
Qed.

(** ** Runs of the processing loop *)

Lemma read_defined (data : list float) (i : Z) :
  0 <= i < Z.of_nat (length data) -> exists x, read data i = Done x.
Proof.
  intros Hi. unfold read. destruct (Z.ltb_spec i 0); [lia|].
  destruct (lookup_lt_is_Some_2 data (Z.to_nat i)) as [x ->]; [lia|]. eauto.
Qed.

Lemma mono_sample_defined (data : list float) (r : run double float) (i : Z) :
  bands_ok r.1 -> 0 <= i < Z.of_nat (length data) ->
  exists r', mono_sample data r i = Done r' /\ bands_ok r'.1.
Proof.
  intros Hok Hi. unfold mono_sample.
  destruct (read_defined data i Hi) as [x ->]. cbn [mbind outcome_bind].
  destruct (band_loop_defined (d_of_f x) r.1 Hok) as (st & -> & Hst).
  cbn [mbind outcome_bind]. eexists; split; [reflexivity|].
  eapply stepped_bands_ok; [apply count_samples_spec | exact Hst].
Qed.

Lemma stereo_sample_defined (data : list float) (r : run double float) (i : Z) :
  bands_ok r.1 -> 0 <= i /\ i + 1 < Z.of_nat (length data) ->
  exists r', stereo_sample data r i = Done r' /\ bands_ok r'.1.
Proof.
  intros Hok Hi. unfold stereo_sample.
  destruct (read_defined data i) as [x ->]; [lia|].
  destruct (read_defined data (i + 1)) as [y ->]; [lia|]. cbn [mbind outcome_bind].
  destruct (band_loop_stereo_defined (d_of_f x) (d_of_f y) r.1 Hok) as (st & -> & Hst).
  cbn [mbind outcome_bind]. eexists; split; [reflexivity|].
  eapply stepped_bands_ok; [apply count_samples_spec | exact Hst].
Qed.

Lemma loop_indices_length (start buffer_size : Z) :
  length (loop_indices start buffer_size)
  = Z.to_nat ((buffer_size - start + 1) / 2).
Proof. unfold loop_indices. rewrite length_fmap, length_seq. reflexivity. Qed.

Lemma loop_indices_range (start buffer_size : Z) :
  Forall (fun i => start <= i < buffer_size) (loop_indices start buffer_size).
Proof.
  unfold loop_indices. apply Forall_fmap, Forall_seq. intros k Hk. simpl.
  assert (Z.of_nat k < (buffer_size - start + 1) / 2) by lia.
  Z.div_mod_to_equations. lia.
Qed.

(** With an even [buffer_size] the index after each even index is in the
    buffer too. *)
Lemma loop_indices_pairs (N : nat) :
  loop_indices 0 (2 * Z.of_nat N) = (fun k => 2 * Z.of_nat k) <$> seq 0 N
  /\ Forall (fun i => 0 <= i /\ i + 1 < 2 * Z.of_nat N)
       (loop_indices 0 (2 * Z.of_nat N)).
Proof.
  assert ((2 * Z.of_nat N - 0 + 1) / 2 = Z.of_nat N) as HN.
  { Z.div_mod_to_equations. lia. }
  split.
  - unfold loop_indices. rewrite HN, Nat2Z.id. reflexivity.
  - unfold loop_indices. rewrite HN, Nat2Z.id.
    apply Forall_fmap, Forall_seq. intros k Hk. simpl. lia.
Qed.

(** A run of a loop that counts [n] samples per iteration, on a bank
    whose cascades stay inside [sections] and over indices the body can
    read: the run is defined, changes nothing of the configuration and
    moves the counters as [count_step n] does, once per iteration. *)
Lemma run_spec (n : Z) (step : run double float -> Z -> outcome (run double float))
    (P : Z -> Prop) :
  counts n step ->
  (forall r i, bands_ok r.1 -> P i -> exists r', step r i = Done r' /\ bands_ok r'.1) ->
  forall l r, Forall P l -> bands_ok r.1 ->
    exists r', foldM step r l = Done r'
      /\ bands_ok r'.1
      /\ stepped r.1 r'.1
      /\ counters r'
         = Nat.iter (length l) (count_step n (maxNumberOfSamples r.1)) (counters r).
Proof.
  intros Hcounts Hdef l r Hl Hok.
  destruct (foldM_defined step (fun r => bands_ok r.1) P Hdef l r Hl Hok)
    as (r' & Hr' & Hok').
  exists r'. split; [exact Hr'|]. split; [exact Hok'|].
  eapply run_counters; eassumption.
Qed.

(** [process_logged] on an allocated bank that is not bypassed. *)
Lemma process_logged_active (st : third_octave_filter double float) (data : list float)
    (buffer_size : Z) :
  feqb (bypass st) (f_of_int 1) = false ->
  process_logged (Some st) data buffer_size
  = (r ← process_channels (st, []) data buffer_size; Done (Some r.1, data, r.2)).
Proof. intros Hb. unfold process_logged. rewrite Hb. reflexivity. Qed.

Lemma process_logged_Done (st : third_octave_filter double float) (data : list float)
    (buffer_size : Z) (p' : option (third_octave_filter double float)) (data' : list float)
    (log : list Z) :
  process_logged (Some st) data buffer_size = Done (p', data', log) ->
  exists st', p' = Some st' /\ data' = data
    /\ ((feqb (bypass st) (f_of_int 1) = true /\ st' = st /\ log = [])
        \/ (feqb (bypass st) (f_of_int 1) = false
            /\ process_channels (st, []) data buffer_size = Done (st', log))).
Proof.
  unfold process_logged.
  destruct (feqb (bypass st) (f_of_int 1)); intros H.
  - injection H as <- <- <-. exists st. repeat split. left. repeat split.
  - apply bind_Done in H as ([st' log'] & H1 & H2).
    injection H2 as <- <- <-. exists st'. repeat split. right. split; [reflexivity|exact H1].
Qed.

Lemma process_Done (st : third_octave_filter double float) (data : list float)
    (buffer_size : Z) (p' : option (third_octave_filter double float)) (data' : list float) :
  third_octave_filter_process (Some st) data buffer_size = Done (p', data') ->
  exists log, process_logged (Some st) data buffer_size = Done (p', data', log).
Proof.
  unfold third_octave_filter_process. intros H.
  apply bind_Done in H as ([[p1 d1] log] & H1 & H2).
  injection H2 as <- <-. eauto.
Qed.

Lemma process_channels_Done (st st' : third_octave_filter double float) (data : list float)
    (buffer_size : Z) (log : list Z) :
  process_channels (st, []) data buffer_size = Done (st', log) ->
  st' = st /\ log = []
  \/ exists n step l, counts n step /\ foldM step (st, []) l = Done (st', log).
Proof.
  unfold process_channels. cbn [fst].
  destruct (channelType st =? LEFT_CHANNEL).
  { intros H. right. exists 1, (mono_sample data), (loop_indices 0 buffer_size).
    split; [apply mono_sample_counts | exact H]. }
  destruct (channelType st =? RIGHT_CHANNEL).
  { intros H. right. exists 1, (mono_sample data), (loop_indices 1 buffer_size).
    split; [apply mono_sample_counts | exact H]. }
  destruct (channelType st =? STEREO_CHANNEL).
  { intros H. right. exists 2, (stereo_sample data), (loop_indices 0 buffer_size).
    split; [apply stereo_sample_counts | exact H]. }
  intros H. injection H as <- <-. auto.
Qed.

(** A call of [third_octave_filter_process] that returns leaves the
    configuration and the number of sections of every band as they were. *)
Lemma process_stepped (st st' : third_octave_filter double float) (data data' : list float)
    (buffer_size : Z) :
  third_octave_filter_process (Some st) data buffer_size = Done (Some st', data') ->
  stepped st st' /\ data' = data.
Proof.
  intros H. apply process_Done in H as [log H].
  apply process_logged_Done in H as (st1 & [= <-] & -> & [(_ & -> & _)|[_ H]]).
  - split; [apply stepped_refl | reflexivity].
  - split; [|reflexivity].
    apply process_channels_Done in H as [[-> _]|(n & step & l & Hc & H)].
    + apply stepped_refl.
    + eapply (run_counters n step Hc l (st, [])) in H as [H _]. exact H.
Qed.

(** ** Initialisation *)

(** The assignment writes inside [bands] and inside [sections]. *)
Definition in_range (s : assignment) : bool :=
  match s with
  | Assign_center_freq band _ => (band <? NUM_BANDS)%nat
  | Assign_num_sections band _ => (band <? NUM_BANDS)%nat
  | Assign_coefficient band section _ _ =>
      (band <? NUM_BANDS)%nat && (section <? 2)%nat
  end.

(** The numbers of sections of the bands after an assignment. *)
Definition nums_after (f : fin NUM_BANDS -> Z) (s : assignment)
  : fin NUM_BANDS -> Z :=
  fun i =>
    match s with
    | Assign_num_sections band n =>
        if decide (index NUM_BANDS band = Some i) then n else f i
    | _ => f i
    end.

Lemma run_assignment_in_range (bs : vec (FilterBand double) NUM_BANDS) (s : assignment) :
  in_range s = true ->
  exists bs', run_assignment bs s = Done bs'
    /\ forall i, num_sections (bs' !!! i)
                 = nums_after (fun i => num_sections (bs !!! i)) s i.
Proof.
  destruct s as [band v|band n|band section c v];
    unfold run_assignment, in_range, nums_after; intros H.
  - apply Nat.ltb_lt in H. destruct (index_lt _ _ H) as [j ->].
    eexists; split; [reflexivity|]. intros i. apply vinsert_num_sections. reflexivity.
  - apply Nat.ltb_lt in H. destruct (index_lt _ _ H) as [j ->].
    eexists; split; [reflexivity|]. intros i.
    destruct (decide (Some j = Some i)) as [[= ->]|Hne].
    + rewrite vlookup_insert. reflexivity.
    + rewrite vlookup_insert_ne by congruence. reflexivity.
  - apply andb_true_iff in H as [H1 H2].
    apply Nat.ltb_lt in H1, H2.
    destruct (index_lt _ _ H1) as [j ->]. destruct (index_lt _ _ H2) as [k ->].
    eexists; split; [reflexivity|]. intros i. apply vinsert_num_sections. reflexivity.
Qed.

Lemma run_assignment_out_of_range (bs : vec (FilterBand double) NUM_BANDS) (s : assignment) :
  in_range s = false -> run_assignment bs s = Undefined OutOfBounds.
Proof.
  destruct s as [band v|band n|band section c v];
    unfold run_assignment, in_range, nums_after; intros H.
  - apply Nat.ltb_ge in H. rewrite index_ge by exact H. reflexivity.
  - apply Nat.ltb_ge in H. rewrite index_ge by exact H. reflexivity.
  - apply andb_false_iff in H as [H|H]; apply Nat.ltb_ge in H.
    + rewrite index_ge by exact H. reflexivity.
    + rewrite (index_ge 2 section) by exact H.
      destruct (index NUM_BANDS band); reflexivity.
Qed.

Lemma nums_after_ext (l : list assignment) (f g : fin NUM_BANDS -> Z) :
  (forall i, f i = g i) -> forall i, foldl nums_after f l i = foldl nums_after g l i.
Proof.
  revert f g. induction l as [|s l IH]; intros f g H i; simpl; [apply H|].
  apply IH. intros j. unfold nums_after. destruct s; rewrite ?H; reflexivity.
Qed.

Lemma assignments_in_range (l : list assignment) :
  forallb in_range l = true ->
  forall bs, exists bs', foldM run_assignment bs l = Done bs'
    /\ forall i, num_sections (bs' !!! i)
                 = foldl nums_after (fun i => num_sections (bs !!! i)) l i.
Proof.
  induction l as [|s l IH]; simpl; intros H bs.
  - eauto.
  - apply andb_true_iff in H as [Hs Hl].
    destruct (run_assignment_in_range bs s Hs) as (bs1 & -> & H1).
    destruct (IH Hl bs1) as (bs' & H' & Hn). cbn [mbind outcome_bind].
    exists bs'. split; [exact H'|]. intros i. rewrite Hn.
    apply nums_after_ext. exact H1.
Qed.

(** The first assignment that is out of range ends the run. *)
Lemma assignments_out_of_range (l : list assignment) :
  forallb in_range l = false ->
  forall bs, foldM run_assignment bs l = Undefined OutOfBounds.
Proof.
  induction l as [|s l IH]; simpl; intros H bs; [discriminate|].
  destruct (in_range s) eqn:Hs.
  - destruct (run_assignment_in_range bs s Hs) as (bs1 & -> & _).
    cbn [mbind outcome_bind]. apply IH. exact H.
  - rewrite run_assignment_out_of_range by exact Hs. reflexivity.
Qed.

Lemma order_2_in_range : forallb in_range (assignments coefficients_order_2) = true.
Proof. vm_compute. reflexivity. Qed.

Lemma order_4_out_of_range : forallb in_range (assignments coefficients_order_4) = false.
Proof. vm_compute. reflexivity. Qed.

Lemma order_2_nums (f : fin NUM_BANDS -> Z) (band : fin NUM_BANDS) :
  foldl nums_after f (assignments coefficients_order_2) band = 2.
Proof.
  assert (forallb
            (fun i => foldl nums_after f (assignments coefficients_order_2) i =? 2)
            all_bands = true) as H.
  { vm_compute. reflexivity. }
  rewrite forallb_forall in H. apply Z.eqb_eq, H.
  apply list_elem_of_In, all_bands_complete.
Qed.

(** With [filter_order == 2] the initialisation returns, and every band
    has [num_sections == 2]. *)
Lemma initializeFilterBank_order_2 (bs : vec (FilterBand double) NUM_BANDS) :
  exists bs', initializeFilterBank bs 2 = Done bs'
    /\ forall band, num_sections (bs' !!! band) = 2.
Proof.
  unfold initializeFilterBank. rewrite Z.eqb_refl.
  destruct (assignments_in_range _ order_2_in_range bs) as (bs' & H & Hn).
  exists bs'. split; [exact H|]. intros band. rewrite Hn. apply order_2_nums.
Qed.

(** In the other branch the initialisation writes past [sections[1]]. *)
Lemma initializeFilterBank_order_4 (bs : vec (FilterBand double) NUM_BANDS) (order : Z) :
  order <> 2 -> initializeFilterBank bs order = Undefined OutOfBounds.
Proof.
  intros H. unfold initializeFilterBank.
  destruct (Z.eqb_spec order 2); [contradiction|].
  apply assignments_out_of_range, order_4_out_of_range.
Qed.

(** ** Allocation *)

Ltac fields :=
  cbn [bypass sample_rate filter_order initialized channelType bands mic_constant
       alpha integrationTime samplesCount temporal_sum volume_level smoothed_level
       maxNumberOfSamples set_bypass set_sample_rate set_filter_order
       set_initialized set_channelType set_bands set_mic_constant
       set_integrationTime set_samplesCount set_temporal_sum set_volume_level
       set_smoothed_level set_maxNumberOfSamples mbind outcome_bind fst snd].

Tactic Notation "fields" "in" hyp(H) :=
  cbn [bypass sample_rate filter_order initialized channelType bands mic_constant
       alpha integrationTime samplesCount temporal_sum volume_level smoothed_level
       maxNumberOfSamples set_bypass set_sample_rate set_filter_order
       set_initialized set_channelType set_bands set_mic_constant
       set_integrationTime set_samplesCount set_temporal_sum set_volume_level
       set_smoothed_level set_maxNumberOfSamples mbind outcome_bind fst snd] in H.

Lemma reset_sections_num_sections (n : nat) (i : Z) (band band' : FilterBand double) :
  reset_sections n i band = Done band' -> num_sections band' = num_sections band.
Proof.
  revert i band. induction n as [|n IH]; intros i band H; simpl in H.
  - injection H as <-. reflexivity.
  - destruct (indexZ 2 i) as [j|]; [|discriminate].
    apply IH in H. exact H.
Qed.

(** [st'] is [st] up to the contents of the bands, whose numbers of
    sections are the same. *)
Definition rebanded (st st' : third_octave_filter double float) : Prop :=
  exists bs, st' = set_bands st bs
    /\ forall band, num_sections (bs !!! band) = num_sections (bands st !!! band).

Lemma rebanded_refl (st : third_octave_filter double float) : rebanded st st.
Proof. exists (bands st). split; [destruct st; reflexivity | reflexivity]. Qed.

Lemma rebanded_trans (st1 st2 st3 : third_octave_filter double float) :
  rebanded st1 st2 -> rebanded st2 st3 -> rebanded st1 st3.
Proof.
  intros (bs & -> & H1) (bs' & -> & H2). exists bs'. split; [reflexivity|].
  intros band. rewrite H2. apply H1.
Qed.

Lemma reset_band_rebanded (st : third_octave_filter double float) (band : fin NUM_BANDS)
    (st' : third_octave_filter double float) :
  reset_band st band = Done st' -> rebanded st st'.
Proof.
  unfold reset_band. intros H. apply bind_Done in H as (fb & Hfb & H).
  injection H as <-. apply reset_sections_num_sections in Hfb.
  eexists; split; [reflexivity|]. apply vinsert_num_sections, Hfb.
Qed.

Lemma resetFilterState_Done (st st' : third_octave_filter double float) :
  resetFilterState st = Done st' ->
  exists bs, st' = set_initialized (set_bands st bs) 1
    /\ forall band, num_sections (bs !!! band) = num_sections (bands st !!! band).
Proof.
  unfold resetFilterState. intros H. apply bind_Done in H as (st1 & H1 & H).
  injection H as <-.
  apply (foldM_preserves _ rebanded rebanded_refl rebanded_trans reset_band_rebanded)
    in H1 as (bs & -> & Hn).
  exists bs. split; [reflexivity | exact Hn].
Qed.


(** A band whose sums and levels are the zeros that allocation writes. *)
Definition zeroed (ts vl sl : vec float NUM_BANDS) (band : fin NUM_BANDS) : Prop :=
  ts !!! band = f_lit (Dec 0 (-1))
  /\ vl !!! band = f_lit (Dec 0 (-1))
  /\ sl !!! band = f_of_int 0.

Lemma zero_bands_spec (l : list (fin NUM_BANDS)) (st : third_octave_filter double float) :
  exists ts vl sl,
    foldl zero_band st l
    = set_smoothed_level (set_volume_level (set_temporal_sum st ts) vl) sl
    /\ forall band,
         band ∈ l \/ zeroed (temporal_sum st) (volume_level st) (smoothed_level st) band ->
         zeroed ts vl sl band.
Proof.
  revert st. induction l as [|i l IH]; intros st.
  - exists (temporal_sum st), (volume_level st), (smoothed_level st).
    split; [destruct st; reflexivity|].
    intros band [H|H]; [|exact H]. apply elem_of_nil in H. contradiction.
  - destruct (IH (zero_band st i)) as (ts & vl & sl & H & Hz).
    exists ts, vl, sl. split; [simpl; rewrite H; reflexivity|].
    intros band Hband. apply Hz.
    destruct (decide (band = i)) as [->|Hne].
    + right. unfold zeroed, zero_band. fields. rewrite !vlookup_insert. auto.
    + destruct Hband as [Hband|Hband].
      * apply elem_of_cons in Hband as [?|?]; [contradiction|]. left. assumption.
      * right. unfold zeroed, zero_band. fields.
        rewrite !vlookup_insert_ne by congruence. exact Hband.
Qed.

(** What a call of [third_octave_filter_alloc] that returns has set up. *)
Definition allocated (rate : float) (st : third_octave_filter double float) : Prop :=
  bypass st = f_of_int 1
  /\ sample_rate st = rate
  /\ filter_order st = 2
  /\ initialized st = 1
  /\ channelType st = LEFT_CHANNEL
  /\ mic_constant st = f_lit (Dec 1200 (-1))
  /\ integrationTime st = 125
  /\ samplesCount st = 0
  /\ f_to_u64 (fmul (fdiv rate (f_of_int 1000)) (f_of_int 125))
     = Some (maxNumberOfSamples st)
  /\ (forall band, num_sections (bands st !!! band) = 2)
  /\ (forall band,
        zeroed (temporal_sum st) (volume_level st) (smoothed_level st) band).

Lemma alloc_Done (p block : option (third_octave_filter double float)) (rate : float) (order : Z)
    (p' : option (third_octave_filter double float)) :
  third_octave_filter_alloc p block rate order = Done p' ->
  order <> 4 /\ exists st, p' = Some st /\ allocated rate st.
Proof.
  unfold third_octave_filter_alloc. intros H.
  destruct (match p with None => block | Some _ => p end) as [st0|]; [|discriminate].
  cbv zeta in H. fields in H.
  assert ((if (order =? 2) || (order =? 4) then order else 2) = 2 /\ order <> 4)
    as [Hfo H4].
  { destruct (Z.eqb_spec order 4) as [->|H4].
    - change ((4 =? 2) || true) with true in H. cbv iota in H.
      rewrite initializeFilterBank_order_4 in H by lia. discriminate.
    - split; [|exact H4]. destruct (Z.eqb_spec order 2); cbn [orb]; lia. }
  split; [exact H4|]. rewrite Hfo in H.
  destruct (initializeFilterBank_order_2 (bands st0)) as (bs & Hbs & Hn).
  rewrite Hbs in H. clear Hbs. fields in H.
  apply bind_Done in H as (st1 & H1 & H).
  apply resetFilterState_Done in H1 as (bs' & -> & Hn'). fields in H.
  match type of H with
  | context [foldl zero_band ?s all_bands] =>
      destruct (zero_bands_spec all_bands s) as (ts & vl & sl & Hz & Hzero);
      rewrite Hz in H
  end.
  fields in H.
  destruct (f_to_u64 (fmul (fdiv rate (f_of_int 1000)) (f_of_int 125)))
    as [n|] eqn:Hn0; [|discriminate].
  unfold calculateSamplesIntegration in H. fields in H. rewrite Hn0 in H.
  injection H as <-. eexists; split; [reflexivity|].
  unfold allocated. fields. repeat split; try reflexivity.
  - exact Hn0.
  - intros band. rewrite Hn'. fields. apply Hn.
  - apply Hzero. left. apply all_bands_complete.
  - apply Hzero. left. apply all_bands_complete.
  - apply Hzero. left. apply all_bands_complete.
Qed.



(** ** The published levels *)

(** Both levels of every band are zero. *)
Definition levels_zero (st : third_octave_filter double float) : Prop :=
  forall band,
    volume_level st !!! band = f_of_int 0 /\ smoothed_level st !!! band = f_of_int 0.

(** The smoothing of [calculateLevel], band by band: on a band whose
    smoothed level compares equal to zero the new smoothed level is the
    level published before; otherwise it is
    [alpha * volume_level + (1 - alpha) * smoothed_level].  In both cases it
    is published as the new [volume_level], and [level_db] takes no part. *)
Lemma calculateLevel_band_smoothing (st : third_octave_filter double float)
    (band : fin NUM_BANDS) :
  0 < samplesCount st ->
  let st' := calculateLevel_band st band in
  smoothed_level st' !!! band
  = (if feqb (smoothed_level st !!! band) (f_of_int 0)
     then volume_level st !!! band
     else fadd (fmul (alpha st) (volume_level st !!! band))
               (fmul (fsub (f_of_int 1) (alpha st)) (smoothed_level st !!! band)))
  /\ volume_level st' !!! band = smoothed_level st' !!! band.
Proof.
  intros H. rewrite calculateLevel_band_active by exact H. fields.
  rewrite !vlookup_insert. split; reflexivity.
Qed.

(** At a window boundary only band 0 is reduced: every other band keeps
    its temporal sum and its levels. *)
Lemma calculateLevel_other_bands (st : third_octave_filter double float) (band : fin NUM_BANDS) :
  0 < samplesCount st -> band <> 0%fin ->
  temporal_sum (calculateLevel st) !!! band = temporal_sum st !!! band
  /\ volume_level (calculateLevel st) !!! band = volume_level st !!! band
  /\ smoothed_level (calculateLevel st) !!! band = smoothed_level st !!! band.
Proof.
  intros H Hne. rewrite calculateLevel_boundary, calculateLevel_band_active by exact H.
  fields. rewrite !vlookup_insert_ne by congruence. repeat split.
Qed.

Lemma calculateLevel_band_0 (st : third_octave_filter double float) :
  0 < samplesCount st ->
  temporal_sum (calculateLevel st) !!! 0%fin = f_lit (Dec 0 (-1))
  /\ samplesCount (calculateLevel st) = 0.
Proof.
  intros H. rewrite calculateLevel_boundary, calculateLevel_band_active by exact H.
  fields. rewrite vlookup_insert. split; reflexivity.
Qed.

Section Zero.
(** [0.0f] and the [int] 0 converted to [float] are the same value, and it
    compares equal to itself. *)
Hypothesis zero_literal : f_lit (Dec 0 (-1)) = f_of_int 0.
Hypothesis zero_eq : feqb (f_of_int 0) (f_of_int 0) = true.

Lemma calculateLevel_levels_zero (st : third_octave_filter double float) :
  levels_zero st -> levels_zero (calculateLevel st).
Proof.
  intros Hz. destruct (Z.lt_ge_cases 0 (samplesCount st)) as [H|H].
  - rewrite calculateLevel_boundary, calculateLevel_band_active by exact H.
    assert (smoothed st 0%fin = f_of_int 0) as ->.
    { unfold smoothed. destruct (Hz 0%fin) as [Hv Hs]. rewrite Hs, zero_eq. exact Hv. }
    intros band. fields. destruct (decide (0%fin = band)) as [<-|Hne].
    + rewrite !vlookup_insert. split; reflexivity.
    + rewrite !vlookup_insert_ne by exact Hne. apply Hz.
  - rewrite calculateLevel_not_positive by lia. exact Hz.
Qed.

Lemma count_samples_levels_zero (n : Z) (r : run double float) :
  levels_zero r.1 -> levels_zero (count_samples n r).1.
Proof.
  destruct r as [st log]. unfold count_samples, check_window. fields.
  intros Hz.
  destruct (maxNumberOfSamples st <=? int_to_u64 (wrap_int (samplesCount st + n)));
    fields; [apply calculateLevel_levels_zero|]; exact Hz.
Qed.

Lemma filtered_levels_zero (st st' : third_octave_filter double float) :
  filtered st st' -> levels_zero st -> levels_zero st'.
Proof. intros (_ & Hv & Hs & _) Hz band. rewrite Hv, Hs. apply Hz. Qed.

Lemma run_levels_zero (step : run double float -> Z -> outcome (run double float)) :
  (forall r i r', step r i = Done r' -> levels_zero r.1 -> levels_zero r'.1) ->
  forall l r r', foldM step r l = Done r' -> levels_zero r.1 -> levels_zero r'.1.
Proof.
  intros Hstep.
  apply (foldM_preserves step (fun r r' => levels_zero r.1 -> levels_zero r'.1));
    [auto | auto | exact Hstep].
Qed.

Lemma process_levels_zero (st st' : third_octave_filter double float) (data data' : list float)
    (buffer_size : Z) :
  third_octave_filter_process (Some st) data buffer_size = Done (Some st', data') ->
  levels_zero st -> levels_zero st'.
Proof.
  intros H Hz. apply process_Done in H as [log H].
  apply process_logged_Done in H as (st1 & [= <-] & -> & [(_ & -> & _)|[_ H]]);
    [exact Hz|].
  assert (forall r i r', mono_sample data r i = Done r' ->
            levels_zero r.1 -> levels_zero r'.1) as Hmono.
  { intros r i r' Hr Hr0. apply mono_sample_Done in Hr as (x & s & _ & Hs & ->).
    apply count_samples_levels_zero. fields.
    eapply filtered_levels_zero; [eapply band_loop_filtered, Hs | exact Hr0]. }
  assert (forall r i r', stereo_sample data r i = Done r' ->
            levels_zero r.1 -> levels_zero r'.1) as Hstereo.
  { intros r i r' Hr Hr0. apply stereo_sample_Done in Hr as (x & y & s & _ & _ & Hs & ->).
    apply count_samples_levels_zero. fields.
    eapply filtered_levels_zero; [eapply band_loop_stereo_filtered, Hs | exact Hr0]. }
  unfold process_channels in H. fields in H.
  destruct (channelType st =? LEFT_CHANNEL);
    [exact (run_levels_zero _ Hmono _ _ _ H Hz)|].
  destruct (channelType st =? RIGHT_CHANNEL);
    [exact (run_levels_zero _ Hmono _ _ _ H Hz)|].
  destruct (channelType st =? STEREO_CHANNEL);
    [exact (run_levels_zero _ Hstereo _ _ _ H Hz)|].
  injection H as <- _. exact Hz.
Qed.

Lemma setValue_levels_zero (st st' : third_octave_filter double float) (s : setting) :
  third_octave_filter_setValue st s = Done st' -> levels_zero st -> levels_zero st'.
Proof.
  destruct s as [val|val|ms|channel]; unfold third_octave_filter_setValue;
    intros H Hz.
  - injection H as <-. exact Hz.
  - injection H as <-. exact Hz.
  - destruct (0 <? ms); [|injection H as <-; exact Hz].
    unfold calculateSamplesIntegration in H.
    destruct (f_to_u64 _); [|discriminate]. injection H as <-. exact Hz.
  - destruct ((channel =? LEFT_CHANNEL) || (channel =? RIGHT_CHANNEL)
              || (channel =? STEREO_CHANNEL)); injection H as <-; exact Hz.
Qed.

Lemma reachable_levels_zero (st : third_octave_filter double float) :
  reachable st -> levels_zero st.
Proof.
  induction 1 as [p block rate order st H|st data n st' data' _ IH H|st s st' _ IH H].
  - apply alloc_Done in H as (_ & st1 & [= <-] & Ha).
    destruct Ha as (_ & _ & _ & _ & _ & _ & _ & _ & _ & _ & Hz).
    intros band. destruct (Hz band) as (_ & Hv & Hs).
    rewrite Hv, Hs, zero_literal. split; reflexivity.
  - eapply process_levels_zero; eassumption.
  - eapply setValue_levels_zero; eassumption.
Qed.

End Zero.

(** C6.  In every bank reachable from an allocation by calls of
    [third_octave_filter_process] (any channel mode, any buffer) and changes
    of settings, the published level of every band equals its smoothed
    level and both are the zero allocation wrote: [level_db] is computed and
    stored nowhere.  The arithmetic enters through two facts only: [0.0f]
    is the [float] of the [int] 0, and that value compares equal to
    itself. *)
Theorem levels_remain_zero (st : third_octave_filter double float) (band : fin NUM_BANDS) :
  f_lit (Dec 0 (-1)) = f_of_int 0 ->
  feqb (f_of_int 0) (f_of_int 0) = true ->
  reachable st ->
  volume_level st !!! band = smoothed_level st !!! band
  /\ volume_level st !!! band = f_lit (Dec 0 (-1))
  /\ smoothed_level st !!! band = f_of_int 0.
Proof.
  intros Hlit Heq Hr.
  destruct (reachable_levels_zero Hlit Heq st Hr band) as [Hv Hs].
  rewrite Hv, Hs, Hlit. repeat split.
Qed.

(** ** The number of sections *)

Lemma setValue_bands (st st' : third_octave_filter double float) (s : setting) :
  third_octave_filter_setValue st s = Done st' ->
  bands st' = bands st /\ filter_order st' = filter_order st.
Proof.
  destruct s as [val|val|ms|channel]; unfold third_octave_filter_setValue;
    intros H.
  - injection H as <-. split; reflexivity.
  - injection H as <-. split; reflexivity.
  - destruct (0 <? ms); [|injection H as <-; split; reflexivity].
    unfold calculateSamplesIntegration in H.
    destruct (f_to_u64 _); [|discriminate]. injection H as <-. split; reflexivity.
  - destruct ((channel =? LEFT_CHANNEL) || (channel =? RIGHT_CHANNEL)
              || (channel =? STEREO_CHANNEL)); injection H as <-; split; reflexivity.
Qed.

(** C3, as the code has it.  A bank that allocation returned has
    [filter_order == 2] (another order than 2 and 4 defaults to 2, and
    with order 4 allocation does not return: it is undefined), every one of
    its 31 bands has [num_sections == 2], and this stays so under every call
    of [third_octave_filter_process] and every change of settings. *)
Theorem num_sections_after_allocation (st : third_octave_filter double float) :
  reachable st ->
  filter_order st = 2 /\ forall band, num_sections (bands st !!! band) = 2.
Proof.
  induction 1 as [p block rate order st H|st data n st' data' _ IH H|st s st' _ IH H].
  - apply alloc_Done in H as (_ & st1 & [= <-] & Ha).
    destruct Ha as (_ & _ & Hfo & _ & _ & _ & _ & _ & _ & Hn & _).
    split; assumption.
  - apply process_stepped in H as [(bs & ts & vl & sl & c & -> & Hn) _].
    destruct IH as [IH1 IH2]. split; [exact IH1|].
    intros band. cbn [bands set_samplesCount set_smoothed_level set_volume_level
                       set_temporal_sum set_bands].
    rewrite Hn. apply IH2.
  - apply setValue_bands in H as [Hb Hf]. rewrite Hb, Hf. exact IH.
Qed.

(** ** Stereo *)



End Properties.

(** * The code on concrete inputs, in IEEE arithmetic *)

Section Runs.
Import IEEE.

(** [third_octave_filter_alloc(1000.0f, 2)], the bypass flag cleared, then
    [third_octave_filter_process] on 125 frames of [1.0f]: the threshold is
    125 samples and the call ends with one level computation. *)
Lemma window_run :
  process_logged (Some (fresh_bank 1000 2)) (ones 125) 250
  = Done (Some after_window, ones 125, [125]).
Proof. vm_compute. reflexivity. Qed.

Lemma window_run_process :
  third_octave_filter_process (Some (fresh_bank 1000 2)) (ones 125) 250
  = Done (Some after_window, ones 125).
Proof. unfold third_octave_filter_process. rewrite window_run. reflexivity. Qed.

(** C1, on the code.  The run above reaches the window boundary once, with
    [samplesCount == 125].  The level computation zeroes the temporal sum of
    band 0 and [samplesCount]; the temporal sums of the bands 1 to 30 are
    the ones before the computation, and none of them is zero. *)
Theorem level_reduction_stops_after_band_0 :
  maxNumberOfSamples (fresh_bank 1000 2) = 125
  /\ process_logged (Some (fresh_bank 1000 2)) (ones 125) 250
     = Done (Some (calculateLevel before_window), ones 125, [125])
  /\ samplesCount before_window = 125
  /\ samplesCount (calculateLevel before_window) = 0
  /\ temporal_sum (calculateLevel before_window) !!! 0%fin = S754_zero false
  /\ tail (vec_to_list (temporal_sum (calculateLevel before_window)))
     = tail (vec_to_list (temporal_sum before_window))
  /\ forallb (fun x => negb (feqb x (f_of_int 0)))
       (tail (vec_to_list (temporal_sum (calculateLevel before_window)))) = true.
Proof.
  apply conj; [vm_compute; reflexivity|].
  apply conj; [exact window_run|].
  repeat apply conj; vm_compute; reflexivity.
Qed.

(** C2, on the code.  At that first window boundary the smoothed level of
    band 0 is still the zero of allocation and [level_db] is about 90.9;
    after the computation the smoothed level and the published level of
    band 0 are [+0], the level published before. *)
Theorem first_update_ignores_level_db :
  process_logged (Some (fresh_bank 1000 2)) (ones 125) 250
  = Done (Some (calculateLevel before_window), ones 125, [125])
  /\ feqb (smoothed_level before_window !!! 0%fin) (f_of_int 0) = true
  /\ level_db before_window 0%fin = S754_finite false 11914535 (-17)
  /\ volume_level before_window !!! 0%fin = S754_zero false
  /\ smoothed_level (calculateLevel before_window) !!! 0%fin = S754_zero false
  /\ volume_level (calculateLevel before_window) !!! 0%fin = S754_zero false.
Proof.
  apply conj; [exact window_run|].
  repeat apply conj; vm_compute; reflexivity.
Qed.

(** C3, as stated, fails: [third_octave_filter_alloc(48000.0f, 2)] returns
    a bank in which every band has [num_sections == 2], not 1. *)
Lemma order_2_has_two_sections :
  let st := bank_of (third_octave_filter_alloc None (Some garbage)
                       (f_of_int 48000) 2) in
  third_octave_filter_alloc None (Some garbage) (f_of_int 48000) 2 = Done (Some st)
  /\ filter_order st = 2
  /\ num_sections <$> vec_to_list (bands st) = replicate 31 2
  /\ num_sections (bands st !!! 0%fin) <> 1.
Proof.
  intros st. repeat apply conj; try (vm_compute; reflexivity).
  vm_compute. discriminate.
Qed.

(** C4, on the code.  With [filter_order == 2] every assignment of
    [initializeFilterBank] to [sections] has an index below 2.  The other
    branch assigns [num_sections = 4] to every band; its assignments 0 to 17
    are in range and assignment 18 is [bands[0].sections[2].b[0] = 1.0]:
    the initialisation is undefined there, and so is
    [third_octave_filter_alloc(48000.0f, 4)].  A band with
    [num_sections == 4] makes [processFilterBand] and the loop of
    [resetFilterState] go past [sections[1]] too. *)
Theorem sections_index_past_the_end :
  forallb (fun s => match section_written s with
                    | Some k => (k <? 2)%nat
                    | None => true
                    end) (assignments coefficients_order_2) = true
  /\ init_num_sections <$> coefficients_order_4 = replicate 31 4
  /\ forallb in_range (take 18 (assignments coefficients_order_4)) = true
  /\ assignments coefficients_order_4 !! 18%nat
     = Some (Assign_coefficient 0 2 (Coef_b 0%fin) (Dec 10000000000 (-10)))
  /\ initializeFilterBank (bands garbage) 4 = Undefined OutOfBounds
  /\ third_octave_filter_alloc None (Some garbage) (f_of_int 48000) 4
     = Undefined OutOfBounds
  /\ processFilterBand (set_num_sections garbage_band 4) (d_of_f one)
     = Undefined OutOfBounds
  /\ reset_sections 4 0 (set_num_sections garbage_band 4) = Undefined OutOfBounds.
Proof. repeat apply conj; vm_compute; reflexivity. Qed.

(** C5, as stated, fails: on a null [pFilterBank] the call dereferences
    the null pointer and is undefined. *)
Lemma process_null_dereference :
  third_octave_filter_process None (ones 1) 2 = Undefined NullDereference
  /\ ~ defined (third_octave_filter_process None (ones 1) 2).
Proof. split; [reflexivity|]. intros [x Hx]. discriminate Hx. Qed.

(** ** The window threshold *)



(** The threshold as the spec words it,
    [floor(sample_rate/1000 * integration_time_ms)], in exact rational
    arithmetic. *)
Definition spec_threshold (sample_rate integration_time_ms : Z) : Z :=
  Qround.Qfloor
    (QArith_base.Qmult
       (QArith_base.Qdiv (QArith_base.inject_Z sample_rate)
          (QArith_base.inject_Z 1000))
       (QArith_base.inject_Z integration_time_ms)).


(** For 48000 Hz the two agree. *)
Lemma spec_threshold_48000 : spec_threshold 48000 125 = 6000.
Proof. vm_compute. reflexivity. Qed.


(** ** Instances of the general theorems *)

(** [process_bypass_noop] on the bank [third_octave_filter_alloc(48000.0f,
    2)] returns, whose bypass flag is enabled, and two frames of [1.0f]. *)
Lemma process_bypass_noop_witness :
  let st := bank_of (third_octave_filter_alloc None (Some garbage) (f_of_int 48000) 2) in
  feqb (bypass st) (f_of_int 1) = true
  /\ third_octave_filter_process (Some st) (ones 2) 4 = Done (Some st, ones 2).
Proof.
  intros st. split; [vm_compute; reflexivity|].
  apply process_bypass_noop. vm_compute. reflexivity.
Defined.

(** [levels_remain_zero] on band 3 of the bank after the run of 125 frames
    at 1000 Hz, one window boundary behind it. *)
Lemma levels_remain_zero_witness :
  (f_lit (Dec 0 (-1)) : spec_float) = f_of_int 0
  /\ feqb (f_of_int 0 : spec_float) (f_of_int 0) = true
  /\ reachable after_window
  /\ volume_level after_window !!! 3%fin = smoothed_level after_window !!! 3%fin
  /\ volume_level after_window !!! 3%fin = S754_zero false
  /\ smoothed_level after_window !!! 3%fin = S754_zero false.
Proof.
  assert (reachable after_window) as Hr.
  { apply (reachable_process (fresh_bank 1000 2) (ones 125) 250 after_window (ones 125)).
    - apply (reachable_setValue
               (bank_of (third_octave_filter_alloc None (Some garbage)
                           (f_of_int 1000) 2))
               (Set_bypass (S754_zero false))).
      + apply (reachable_alloc None (Some garbage) (f_of_int 1000) 2).
        vm_compute. reflexivity.
      + reflexivity.
    - vm_compute. reflexivity. }
  split; [reflexivity|]. split; [reflexivity|]. split; [exact Hr|].
  exact (levels_remain_zero after_window 3%fin eq_refl eq_refl Hr).
Defined.



(** [num_sections_after_allocation] on the bank after the run of 125
    frames at 1000 Hz. *)
Lemma num_sections_after_allocation_witness :
  reachable after_window
  /\ filter_order after_window = 2
  /\ forall band, num_sections (bands after_window !!! band) = 2.
Proof.
  assert (reachable after_window) as Hr.
  { apply (reachable_process (fresh_bank 1000 2) (ones 125) 250 after_window (ones 125)).
    - apply (reachable_setValue
               (bank_of (third_octave_filter_alloc None (Some garbage)
                           (f_of_int 1000) 2))
               (Set_bypass (S754_zero false))).
      + apply (reachable_alloc None (Some garbage) (f_of_int 1000) 2).
        vm_compute. reflexivity.
      + reflexivity.
    - vm_compute. reflexivity. }
  split; [exact Hr|].
  exact (num_sections_after_allocation after_window Hr).
Defined.

End Runs.

(** * Further properties of the code *)

Section Coverage.
Context {double float : Type} `{AR : Arith double float}.

(** ** [processBiquad] and [processFilterBand] *)

Lemma processBiquad_coefficients (s : BiquadSection double) (x : double) :
  b (processBiquad s x).1 = b s /\ a (processBiquad s x).1 = a s.
Proof. split; reflexivity. Qed.

Lemma cascade_frame (n : nat) (i : Z) (band band' : FilterBand double)
    (x y : double) :
  cascade n i band x = Done (band', y) ->
  num_sections band' = num_sections band
  /\ center_freq band' = center_freq band
  /\ forall j, b (sections band' !!! j) = b (sections band !!! j)
               /\ a (sections band' !!! j) = a (sections band !!! j).
Proof.
  revert i band x. induction n as [|n IH]; intros i band x H; cbn [cascade] in H.
  - injection H as <- _. repeat split.
  - destruct (indexZ 2 i) as [k|]; [|discriminate].
    destruct (processBiquad (sections band !!! k) x) as [s o] eqn:Hs.
    apply IH in H as (Hn & Hc & Hba).
    split; [exact Hn|]. split; [exact Hc|].
    intros j. destruct (Hba j) as [Hb Ha]. rewrite Hb, Ha.
    cbn [sections set_sections].
    destruct (decide (k = j)) as [->|Hne].
    + rewrite vlookup_insert.
      pose proof (processBiquad_coefficients (sections band !!! j) x) as Hco.
      rewrite Hs in Hco. exact Hco.
    + rewrite vlookup_insert_ne by exact Hne. split; reflexivity.
Qed.

(** X1.  [processFilterBand] stays inside [sections] exactly when
    [num_sections <= 2]: then it returns, and with a larger [num_sections]
    it indexes [sections[2]]. *)
Theorem processFilterBand_in_bounds (band : FilterBand double) (x : double) :
  (defined (processFilterBand band x) <-> num_sections band <= 2)
  /\ (2 < num_sections band -> processFilterBand band x = Undefined OutOfBounds).
Proof.
  split; [split|].
  - intros [r Hr]. destruct (Z.le_gt_cases (num_sections band) 2) as [H|H];
      [exact H|].
    rewrite processFilterBand_out_of_bounds in Hr by lia. discriminate.
  - apply processFilterBand_defined.
  - apply processFilterBand_out_of_bounds.
Qed.

(** X2.  [processFilterBand] changes the delay lines only: the
    coefficients [b] and [a] of every section, [num_sections] and
    [center_freq] of the band are the ones before the call. *)
Theorem processFilterBand_keeps_coefficients (band band' : FilterBand double)
    (x y : double) :
  processFilterBand band x = Done (band', y) ->
  num_sections band' = num_sections band
  /\ center_freq band' = center_freq band
  /\ forall j, b (sections band' !!! j) = b (sections band !!! j)
               /\ a (sections band' !!! j) = a (sections band !!! j).
Proof. apply cascade_frame. Qed.

(** X3.  The cascade by the number of sections.  With two sections the
    output of section 0 is the input of section 1 and the output of section
    1 is returned; with one section only section 0 runs and [sections[1]]
    is left as it is; with [num_sections <= 0] the input is returned and
    the band is untouched. *)
Theorem processFilterBand_cascade (band : FilterBand double) (x : double) :
  (num_sections band = 2 ->
   processFilterBand band x
   = Done (set_sections band
             [# (processBiquad (sections band !!! 0%fin) x).1;
                (processBiquad (sections band !!! 1%fin)
                   (processBiquad (sections band !!! 0%fin) x).2).1 ],
           (processBiquad (sections band !!! 1%fin)
              (processBiquad (sections band !!! 0%fin) x).2).2))
  /\ (num_sections band = 1 ->
      processFilterBand band x
      = Done (set_sections band
                [# (processBiquad (sections band !!! 0%fin) x).1;
                   sections band !!! 1%fin ],
              (processBiquad (sections band !!! 0%fin) x).2))
  /\ (num_sections band <= 0 -> processFilterBand band x = Done (band, x)).
Proof.
  destruct band as [secs n c]. inv_vec secs; intros s0 s1.
  unfold processFilterBand. cbn [num_sections sections].
  split; [|split]; intros Hn.
  - subst n. cbn.
    destruct (processBiquad s0 x) as [s0' y0].
    destruct (processBiquad s1 y0) as [s1' y1]. reflexivity.
  - subst n. cbn.
    destruct (processBiquad s0 x) as [s0' y0]. reflexivity.
  - replace (Z.to_nat n) with 0%nat by lia. reflexivity.
Qed.

(** ** [resetFilterState] *)

(** A section with its delay line cleared. *)
Definition cleared_section (s : BiquadSection double) : BiquadSection double :=
  set_z s [# d_lit (Dec 0 (-1)); d_lit (Dec 0 (-1))].

(** A band with the delay lines of its first [num_sections] sections
    cleared. *)
Definition cleared_band (fb : FilterBand double) : FilterBand double :=
  set_sections fb
    (if 2 <=? num_sections fb
     then [# cleared_section (sections fb !!! 0%fin);
             cleared_section (sections fb !!! 1%fin)]
     else if 1 <=? num_sections fb
     then [# cleared_section (sections fb !!! 0%fin); sections fb !!! 1%fin]
     else sections fb).

Lemma reset_sections_cleared (fb : FilterBand double) :
  num_sections fb <= 2 ->
  reset_sections (Z.to_nat (num_sections fb)) 0 fb = Done (cleared_band fb).
Proof.
  destruct fb as [secs n c]. inv_vec secs; intros s0 s1.
  destruct s0 as [b0 a0 z0], s1 as [b1 a1 z1].
  inv_vec z0; intros z00 z01. inv_vec z1; intros z10 z11.
  unfold cleared_band. cbn [num_sections sections]. intros Hn.
  destruct (Z.leb_spec 2 n) as [H2|H2].
  - replace n with 2 by lia. reflexivity.
  - destruct (Z.leb_spec 1 n) as [H1|H1].
    + replace n with 1 by lia. reflexivity.
    + replace (Z.to_nat n) with 0%nat by lia. reflexivity.
Qed.

Lemma cleared_band_num_sections (fb : FilterBand double) :
  num_sections (cleared_band fb) = num_sections fb.
Proof. reflexivity. Qed.

Lemma cleared_band_twice (fb : FilterBand double) :
  cleared_band (cleared_band fb) = cleared_band fb.
Proof.
  destruct fb as [secs n c]. inv_vec secs; intros s0 s1.
  unfold cleared_band. cbn [num_sections sections set_sections].
  destruct (2 <=? n); [reflexivity|]. destruct (1 <=? n); reflexivity.
Qed.

Lemma reset_band_cleared (st : third_octave_filter double float)
    (band : fin NUM_BANDS) :
  num_sections (bands st !!! band) <= 2 ->
  reset_band st band
  = Done (set_bands st (vinsert band (cleared_band (bands st !!! band)) (bands st))).
Proof.
  intros H. unfold reset_band. rewrite reset_sections_cleared by exact H.
  reflexivity.
Qed.

Lemma reset_bands_cleared (l : list (fin NUM_BANDS))
    (st : third_octave_filter double float) :
  bands_ok st ->
  exists bs,
    foldM reset_band st l = Done (set_bands st bs)
    /\ forall band,
         bs !!! band
         = if decide (band ∈ l) then cleared_band (bands st !!! band)
           else bands st !!! band.
Proof.
  revert st. induction l as [|i l IH]; intros st Hok.
  - exists (bands st). split; [destruct st; reflexivity|].
    intros band. destruct (decide (band ∈ [])) as [H|_]; [|reflexivity].
    apply elem_of_nil in H. contradiction.
  - cbn [foldM]. rewrite reset_band_cleared by apply Hok.
    cbn [mbind outcome_bind].
    destruct (IH (set_bands st (vinsert i (cleared_band (bands st !!! i)) (bands st))))
      as (bs & Hbs & Hlook).
    { intros band. cbn [bands set_bands].
      destruct (decide (i = band)) as [->|Hne].
      - rewrite vlookup_insert. apply Hok.
      - rewrite vlookup_insert_ne by exact Hne. apply Hok. }
    exists bs. split; [exact Hbs|].
    intros band. rewrite Hlook. cbn [bands set_bands].
    destruct (decide (i = band)) as [->|Hne].
    + rewrite vlookup_insert.
      rewrite (decide_True (P := band ∈ band :: l)) by (apply elem_of_cons; left; reflexivity).
      destruct (decide (band ∈ l)); [apply cleared_band_twice | reflexivity].
    + rewrite vlookup_insert_ne by exact Hne.
      destruct (decide (band ∈ l)) as [Hin|Hin].
      * rewrite decide_True by (apply elem_of_cons; right; exact Hin). reflexivity.
      * rewrite decide_False; [reflexivity|].
        intros [?|?]%elem_of_cons; [congruence | contradiction].
Qed.

Lemma resetFilterState_vmap (st : third_octave_filter double float) :
  bands_ok st ->
  resetFilterState st
  = Done (set_initialized (set_bands st (vmap cleared_band (bands st))) 1).
Proof.
  intros Hok. unfold resetFilterState.
  destruct (reset_bands_cleared all_bands st Hok) as (bs & -> & Hbs).
  cbn [mbind outcome_bind]. do 3 f_equal.
  apply vec_eq. intros band. rewrite Hbs, vlookup_map.
  rewrite decide_True by apply all_bands_complete. reflexivity.
Qed.

(** X4.  On a bank whose bands have at most 2 sections,
    [resetFilterState] clears the delay line [z] of the first
    [num_sections] sections of every band and sets [initialized] to 1;
    coefficients, sections from [num_sections] on and every other field of
    the bank are the ones before the call. *)
Theorem resetFilterState_clears (st : third_octave_filter double float) :
  bands_ok st ->
  resetFilterState st
  = Done (set_initialized (set_bands st (vmap cleared_band (bands st))) 1).
Proof. apply resetFilterState_vmap. Qed.

(** X5.  Resetting a bank that was just reset changes nothing. *)
Theorem resetFilterState_idempotent (st st' : third_octave_filter double float) :
  bands_ok st ->
  resetFilterState st = Done st' ->
  resetFilterState st' = Done st'.
Proof.
  intros Hok H. rewrite resetFilterState_vmap in H by exact Hok.
  injection H as <-. rewrite resetFilterState_vmap.
  - cbn [bands set_bands set_initialized].
    assert (vmap cleared_band (vmap cleared_band (bands st))
            = vmap cleared_band (bands st)) as ->; [|reflexivity].
    apply vec_eq. intros band. rewrite !vlookup_map. apply cleared_band_twice.
  - intros band. cbn [bands set_bands set_initialized].
    rewrite vlookup_map. apply Hok.
Qed.

(** X6.  When some band has more than 2 sections, [resetFilterState]
    indexes past [sections[1]]. *)
Theorem resetFilterState_out_of_bounds (st : third_octave_filter double float)
    (band : fin NUM_BANDS) :
  2 < num_sections (bands st !!! band) ->
  resetFilterState st = Undefined OutOfBounds.
Proof.
  intros Hbad. unfold resetFilterState.
  assert (forall l s, band ∈ l -> 2 < num_sections (bands s !!! band) ->
            foldM reset_band s l = Undefined OutOfBounds) as Hfold.
  { induction l as [|i l IH]; intros s Hin Hs.
    - apply elem_of_nil in Hin. contradiction.
    - cbn [foldM]. destruct (reset_band s i) as [s1|u] eqn:Hr.
      + cbn [mbind outcome_bind].
        pose proof (reset_band_rebanded _ _ _ Hr) as (bs & -> & Hn).
        destruct (decide (band = i)) as [->|Hne].
        * unfold reset_band in Hr.
          rewrite reset_sections_out_of_bounds in Hr by lia. discriminate.
        * apply IH.
          -- apply elem_of_cons in Hin as [?|?]; [contradiction|assumption].
          -- cbn [bands set_bands]. rewrite Hn. exact Hs.
      + unfold reset_band in Hr.
        destruct (reset_sections _ 0 (bands s !!! i)) as [fb|u'] eqn:Hrs;
          [discriminate|].
        cbn [mbind outcome_bind] in Hr. injection Hr as <-.
        destruct u'; try reflexivity; exfalso.
        all: revert Hrs; generalize (Z.to_nat (num_sections (bands s !!! i)));
          generalize (bands s !!! i); generalize 0;
          intros k fb n; revert k fb; induction n as [|n IHn]; intros k fb;
          cbn [reset_sections]; [discriminate|];
          destruct (indexZ 2 k); [apply IHn | discriminate]. }
  rewrite (Hfold all_bands st (all_bands_complete band) Hbad). reflexivity.
Qed.

(** ** [calculateLevel] *)

Lemma calculateLevel_unfold (st : third_octave_filter double float) :
  calculateLevel st = set_samplesCount (foldl calculateLevel_band st all_bands) 0.
Proof. reflexivity. Qed.

Lemma calculateLevel_count (st : third_octave_filter double float) :
  samplesCount (calculateLevel st) <= 0.
Proof.
  destruct (calculateLevel_stepped st) as [_ H0]. rewrite H0. discriminate.
Qed.

Lemma calculateLevel_again (st : third_octave_filter double float) :
  calculateLevel (calculateLevel st) = set_samplesCount (calculateLevel st) 0.
Proof. apply calculateLevel_not_positive, calculateLevel_count. Qed.

Lemma set_samplesCount_twice (s : third_octave_filter double float) (c : Z) :
  set_samplesCount (set_samplesCount s c) c = set_samplesCount s c.
Proof. reflexivity. Qed.

(** X7.  A second call of [calculateLevel] right after the first changes
    nothing. *)
Theorem calculateLevel_idempotent (st : third_octave_filter double float) :
  calculateLevel (calculateLevel st) = calculateLevel st.
Proof.
  rewrite calculateLevel_again, (calculateLevel_unfold st).
  apply set_samplesCount_twice.
Qed.

(** X8.  Whatever the bank, [calculateLevel] leaves [samplesCount] at 0,
    touches neither the bands nor any of the nine configuration fields
    ([bypass], [sample_rate], [filter_order], [initialized], [channelType],
    [mic_constant], [alpha], [integrationTime], [maxNumberOfSamples]), and
    changes the temporal sum and the levels of no band other than band 0. *)
Theorem calculateLevel_touches_band_0_only (st : third_octave_filter double float) :
  samplesCount (calculateLevel st) = 0
  /\ bands (calculateLevel st) = bands st
  /\ bypass (calculateLevel st) = bypass st
  /\ sample_rate (calculateLevel st) = sample_rate st
  /\ filter_order (calculateLevel st) = filter_order st
  /\ initialized (calculateLevel st) = initialized st
  /\ channelType (calculateLevel st) = channelType st
  /\ mic_constant (calculateLevel st) = mic_constant st
  /\ alpha (calculateLevel st) = alpha st
  /\ integrationTime (calculateLevel st) = integrationTime st
  /\ maxNumberOfSamples (calculateLevel st) = maxNumberOfSamples st
  /\ forall band, band <> 0%fin ->
       temporal_sum (calculateLevel st) !!! band = temporal_sum st !!! band
       /\ volume_level (calculateLevel st) !!! band = volume_level st !!! band
       /\ smoothed_level (calculateLevel st) !!! band = smoothed_level st !!! band.
Proof.
  destruct (Z.lt_ge_cases 0 (samplesCount st)) as [H|H].
  - rewrite calculateLevel_boundary, calculateLevel_band_active by exact H.
    repeat apply conj; try reflexivity.
    intros band Hne.
    cbn [temporal_sum volume_level smoothed_level set_samplesCount
         set_temporal_sum set_volume_level set_smoothed_level].
    rewrite !vlookup_insert_ne by congruence. repeat split.
  - rewrite calculateLevel_not_positive by lia.
    repeat apply conj; try reflexivity. intros band _. repeat split.
Qed.

(** ** [third_octave_filter_process] *)

Lemma foldM_app {A B} (f : A -> B -> outcome A) (x : A) (l k : list B) :
  foldM f x (l ++ k) = (x' ← foldM f x l; foldM f x' k).
Proof.
  revert x. induction l as [|y l IH]; intros x; [reflexivity|].
  cbn [app foldM]. destruct (f x y) as [x1|u]; [|reflexivity].
  cbn [mbind outcome_bind]. apply IH.
Qed.

Lemma loop_indices_empty (start buffer_size : Z) :
  buffer_size <= start -> loop_indices start buffer_size = [].
Proof.
  intros H. unfold loop_indices.
  replace (Z.to_nat ((buffer_size - start + 1) / 2)) with 0%nat; [reflexivity|].
  assert ((buffer_size - start + 1) / 2 <= 0); [|lia].
  Z.div_mod_to_equations. lia.
Qed.

(** X9.  With nothing to iterate over the call returns the bank as it
    is: a [buffer_size] that is not positive, a buffer of one sample in
    right-channel mode, or a [channelType] that is none of the three
    modes. *)
Theorem process_nothing_to_do (st : third_octave_filter double float)
    (data : list float) (buffer_size : Z) :
  buffer_size <= 0
  \/ (channelType st = RIGHT_CHANNEL /\ buffer_size <= 1)
  \/ (channelType st <> LEFT_CHANNEL /\ channelType st <> RIGHT_CHANNEL
      /\ channelType st <> STEREO_CHANNEL) ->
  third_octave_filter_process (Some st) data buffer_size = Done (Some st, data).
Proof.
  intros H. unfold third_octave_filter_process, process_logged.
  destruct (feqb (bypass st) (f_of_int 1)); [reflexivity|].
  unfold process_channels. cbn [fst].
  destruct (Z.eqb_spec (channelType st) LEFT_CHANNEL) as [HL|HL].
  { rewrite loop_indices_empty; [reflexivity|].
    destruct H as [H|[[H _]|[H _]]]; [lia| |contradiction].
    rewrite HL in H. discriminate. }
  destruct (Z.eqb_spec (channelType st) RIGHT_CHANNEL) as [HR|HR].
  { rewrite loop_indices_empty; [reflexivity|].
    destruct H as [H|[[_ H]|[_ [H _]]]]; [lia|lia|contradiction]. }
  destruct (Z.eqb_spec (channelType st) STEREO_CHANNEL) as [HS|HS].
  { rewrite loop_indices_empty; [reflexivity|].
    destruct H as [H|[[H _]|[_ [_ H]]]]; [lia| |contradiction].
    rewrite HS in H. discriminate. }
  reflexivity.
Qed.

Lemma loop_indices_stereo_range (buffer_size : Z) :
  Z.even buffer_size = true ->
  Forall (fun i => 0 <= i /\ i + 1 < buffer_size) (loop_indices 0 buffer_size).
Proof.
  intros He. unfold loop_indices. apply Forall_fmap, Forall_seq. intros k Hk.
  simpl. apply Z.even_spec in He as [m ->].
  assert (Z.of_nat k < (2 * m - 0 + 1) / 2) as Hlt by lia.
  replace ((2 * m - 0 + 1) / 2) with m in Hlt; [lia|].
  Z.div_mod_to_equations. lia.
Qed.

Lemma loop_indices_count (start buffer_size : Z) :
  0 <= start ->
  Z.of_nat (length (loop_indices start buffer_size)) <= Z.max 0 buffer_size.
Proof.
  intros Hs. rewrite loop_indices_length.
  destruct (Z.le_gt_cases buffer_size 0) as [Hb|Hb].
  - replace (Z.to_nat ((buffer_size - start + 1) / 2)) with 0%nat; [lia|].
    assert ((buffer_size - start + 1) / 2 <= 0); [|lia].
    Z.div_mod_to_equations. lia.
  - assert ((buffer_size - start + 1) / 2 <= buffer_size)
      by (Z.div_mod_to_equations; lia).
    lia.
Qed.

Lemma loop_indices_count_pairs (buffer_size : Z) :
  Z.even buffer_size = true ->
  2 * Z.of_nat (length (loop_indices 0 buffer_size)) <= Z.max 0 buffer_size.
Proof.
  intros He. rewrite loop_indices_length.
  apply Z.even_spec in He as [m ->].
  replace ((2 * m - 0 + 1) / 2) with m by (Z.div_mod_to_equations; lia).
  lia.
Qed.

(** A run of loop bodies whose counter stays below [2^31]: no addition to
    [samplesCount] overflows, and the counter ends in range. *)
Lemma run_in_range (n : Z)
    (step : run double float -> Z -> outcome (run double float))
    (P : Z -> Prop) (l : list Z) (st : third_octave_filter double float) :
  counts n step ->
  (forall r i, bands_ok r.1 -> P i ->
     exists r', step r i = Done r' /\ bands_ok r'.1) ->
  Forall P l -> bands_ok st ->
  0 <= n -> 0 <= samplesCount st ->
  samplesCount st + n * Z.of_nat (length l) < 2^31 ->
  exists r', foldM step (st, []) l = Done r'
    /\ bands_ok r'.1
    /\ 0 <= samplesCount r'.1 <= samplesCount st + n * Z.of_nat (length l).
Proof.
  intros Hc Hd Hl Hok Hn H0 Hb.
  destruct (run_spec n step P Hc Hd l (st, []) Hl Hok)
    as (r' & Hr & Hok' & _ & Hcnt).
  exists r'. split; [exact Hr|]. split; [exact Hok'|].
  pose proof (count_step_total n (maxNumberOfSamples st) (length l)
                (samplesCount st) [] Hn H0 Hb) as [Hrange _].
  cbv zeta in Hrange. unfold counters in Hcnt. cbn [fst snd] in Hcnt.
  rewrite <- Hcnt in Hrange. exact Hrange.
Qed.

(** X10.  On a bank whose bands have at most 2 sections, with
    [buffer_size] samples in the buffer (an even [buffer_size] in stereo
    mode), and with no [int] near its end — [buffer_size] below
    [2^31 - 1] for the loop counter, and [samplesCount] not negative with
    room for one count per sample — [third_octave_filter_process] returns;
    the buffer is as before, the bands still have at most 2 sections, and
    [samplesCount] has stayed in the range of [int]. *)
Theorem process_returns (st : third_octave_filter double float)
    (data : list float) (buffer_size : Z) :
  bands_ok st ->
  buffer_size <= Z.of_nat (length data) ->
  (channelType st = STEREO_CHANNEL -> Z.even buffer_size = true) ->
  buffer_size < 2^31 - 1 ->
  0 <= samplesCount st ->
  samplesCount st + Z.max 0 buffer_size < 2^31 ->
  exists st',
    third_octave_filter_process (Some st) data buffer_size = Done (Some st', data)
    /\ bands_ok st'
    /\ 0 <= samplesCount st' <= samplesCount st + Z.max 0 buffer_size.
Proof.
  intros Hok Hlen Heven Hsize H0 Hroom.
  unfold third_octave_filter_process, process_logged.
  destruct (feqb (bypass st) (f_of_int 1));
    [exists st; split; [reflexivity|split; [exact Hok|lia]]|].
  assert (forall start : Z, 0 <= start ->
            exists r', foldM (mono_sample data) (st, []) (loop_indices start buffer_size)
                       = Done r' /\ bands_ok r'.1
                       /\ 0 <= samplesCount r'.1
                          <= samplesCount st + Z.max 0 buffer_size) as Hmono.
  { intros start Hs.
    pose proof (loop_indices_count start buffer_size Hs) as Hcount.
    destruct (run_in_range 1 (mono_sample data)
                (fun i => 0 <= i < Z.of_nat (length data))
                (loop_indices start buffer_size) st
                (mono_sample_counts data) (mono_sample_defined data))
      as (r' & Hr & Hok' & Hrange); [|exact Hok|lia|exact H0|lia|].
    - eapply Forall_impl; [apply loop_indices_range|]. simpl. intros i Hi. lia.
    - exists r'. split; [exact Hr|]. split; [exact Hok'|]. lia. }
  unfold process_channels. cbn [fst].
  destruct (Z.eqb_spec (channelType st) LEFT_CHANNEL) as [HL|HL].
  { destruct (Hmono 0) as (r' & -> & Hok' & Hrange); [lia|].
    exists r'.1. split; [reflexivity|]. split; [exact Hok'|exact Hrange]. }
  destruct (Z.eqb_spec (channelType st) RIGHT_CHANNEL) as [HR|HR].
  { destruct (Hmono 1) as (r' & -> & Hok' & Hrange); [lia|].
    exists r'.1. split; [reflexivity|]. split; [exact Hok'|exact Hrange]. }
  destruct (Z.eqb_spec (channelType st) STEREO_CHANNEL) as [HS|HS].
  { pose proof (loop_indices_count_pairs buffer_size (Heven HS)) as Hcount.
    destruct (run_in_range 2 (stereo_sample data)
                (fun i => 0 <= i /\ i + 1 < Z.of_nat (length data))
                (loop_indices 0 buffer_size) st
                (stereo_sample_counts data) (stereo_sample_defined data))
      as (r' & -> & Hok' & Hrange); [|exact Hok|lia|exact H0|lia|].
    - eapply Forall_impl; [apply loop_indices_stereo_range, Heven, HS|].
      simpl. intros i Hi. lia.
    - exists r'.1. split; [reflexivity|]. split; [exact Hok'|lia]. }
  exists st. split; [reflexivity|]. split; [exact Hok|lia].
Qed.

(** X11.  In stereo mode an odd [buffer_size] makes the last iteration
    read [data[buffer_size]]: with exactly [buffer_size] samples in the
    buffer the call reads past its end. *)
Theorem process_stereo_odd_buffer (st : third_octave_filter double float)
    (data : list float) (buffer_size : Z) :
  channelType st = STEREO_CHANNEL ->
  feqb (bypass st) (f_of_int 1) = false ->
  bands_ok st ->
  Z.odd buffer_size = true ->
  Z.of_nat (length data) = buffer_size ->
  third_octave_filter_process (Some st) data buffer_size = Undefined OutOfBounds.
Proof.
  intros Hch Hby Hok Hodd Hlen.
  unfold third_octave_filter_process. rewrite process_logged_active by exact Hby.
  unfold process_channels. cbn [fst]. rewrite Hch.
  change (STEREO_CHANNEL =? LEFT_CHANNEL) with false.
  change (STEREO_CHANNEL =? RIGHT_CHANNEL) with false.
  change (STEREO_CHANNEL =? STEREO_CHANNEL) with true. cbv iota.
  apply Z.odd_spec in Hodd as [m Hm].
  assert (0 <= m) as Hm0 by lia.
  assert (loop_indices 0 buffer_size
          = loop_indices 0 (2 * m) ++ [2 * m]) as ->.
  { unfold loop_indices.
    replace ((buffer_size - 0 + 1) / 2) with (m + 1)
      by (Z.div_mod_to_equations; lia).
    replace ((2 * m - 0 + 1) / 2) with m by (Z.div_mod_to_equations; lia).
    replace (Z.to_nat (m + 1)) with (S (Z.to_nat m)) by lia.
    rewrite seq_S, fmap_app. cbn [fmap list_fmap]. do 2 f_equal. lia. }
  rewrite foldM_app.
  destruct (run_spec 2 (stereo_sample data)
              (fun i => 0 <= i /\ i + 1 < Z.of_nat (length data))
              (stereo_sample_counts data) (stereo_sample_defined data)
              (loop_indices 0 (2 * m)) (st, []))
    as (r' & -> & Hok' & _); [|exact Hok|].
  { eapply Forall_impl; [apply loop_indices_stereo_range|].
    - rewrite Z.even_mul. reflexivity.
    - simpl. intros i Hi. lia. }
  cbn [mbind outcome_bind foldM]. unfold stereo_sample.
  destruct (read_defined data (2 * m)) as [x ->]; [lia|].
  cbn [mbind outcome_bind]. unfold read at 1.
  destruct (Z.ltb_spec (2 * m + 1) 0); [lia|].
  rewrite (proj2 (lookup_ge_None data (Z.to_nat (2 * m + 1)))) by lia.
  reflexivity.
Qed.

(** The bands [bs'] have the coefficients, the numbers of sections and
    the centre frequencies of the bands [bs]. *)
Definition same_tuning (bs bs' : vec (FilterBand double) NUM_BANDS) : Prop :=
  forall band,
    num_sections (bs' !!! band) = num_sections (bs !!! band)
    /\ center_freq (bs' !!! band) = center_freq (bs !!! band)
    /\ forall j,
         b (sections (bs' !!! band) !!! j) = b (sections (bs !!! band) !!! j)
         /\ a (sections (bs' !!! band) !!! j) = a (sections (bs !!! band) !!! j).

Lemma same_tuning_refl (bs : vec (FilterBand double) NUM_BANDS) : same_tuning bs bs.
Proof. intros band. repeat split. Qed.

Lemma same_tuning_trans (bs1 bs2 bs3 : vec (FilterBand double) NUM_BANDS) :
  same_tuning bs1 bs2 -> same_tuning bs2 bs3 -> same_tuning bs1 bs3.
Proof.
  intros H1 H2 band.
  destruct (H1 band) as (Hn1 & Hc1 & Hj1), (H2 band) as (Hn2 & Hc2 & Hj2).
  split; [congruence|]. split; [congruence|].
  intros j. destruct (Hj1 j), (Hj2 j). split; congruence.
Qed.

Lemma same_tuning_insert (bs : vec (FilterBand double) NUM_BANDS)
    (band : fin NUM_BANDS) (fb : FilterBand double) (x y : double) :
  processFilterBand (bs !!! band) x = Done (fb, y) ->
  same_tuning bs (vinsert band fb bs).
Proof.
  intros H i. destruct (decide (band = i)) as [->|Hne].
  - rewrite vlookup_insert. exact (cascade_frame _ _ _ _ _ _ H).
  - rewrite vlookup_insert_ne by exact Hne. repeat split.
Qed.

Lemma filter_band_tuning (x : double) (st : third_octave_filter double float)
    (band : fin NUM_BANDS) (st' : third_octave_filter double float) :
  filter_band x st band = Done st' -> same_tuning (bands st) (bands st').
Proof.
  intros H. apply filter_band_Done in H as (fb & y & H & ->).
  cbn [bands set_bands set_temporal_sum]. eapply same_tuning_insert, H.
Qed.

Lemma filter_band_stereo_tuning (l r : double)
    (st : third_octave_filter double float) (band : fin NUM_BANDS)
    (st' : third_octave_filter double float) :
  filter_band_stereo l r st band = Done st' -> same_tuning (bands st) (bands st').
Proof.
  intros H. apply filter_band_stereo_Done in H as (fb1 & y1 & fb2 & y2 & H1 & H2 & ->).
  cbn [bands set_bands set_temporal_sum].
  eapply same_tuning_trans; [eapply same_tuning_insert, H1|].
  rewrite <- (vinsert_twice band fb2 fb1 (bands st)).
  eapply same_tuning_insert. rewrite vlookup_insert. exact H2.
Qed.

Lemma calculateLevel_bands (st : third_octave_filter double float) :
  bands (calculateLevel st) = bands st.
Proof.
  destruct (Z.lt_ge_cases 0 (samplesCount st)) as [H|H].
  - rewrite calculateLevel_boundary, calculateLevel_band_active by exact H.
    reflexivity.
  - rewrite calculateLevel_not_positive by lia. reflexivity.
Qed.

Lemma count_samples_bands (n : Z) (r : run double float) :
  bands (count_samples n r).1 = bands r.1.
Proof.
  destruct r as [st log]. unfold count_samples, check_window.
  cbn [fst snd maxNumberOfSamples samplesCount set_samplesCount].
  destruct (maxNumberOfSamples st <=? int_to_u64 (wrap_int (samplesCount st + n)));
    cbn [fst]; [rewrite calculateLevel_bands|]; reflexivity.
Qed.

Lemma band_loop_tuning {A} (f : third_octave_filter double float -> A ->
                                outcome (third_octave_filter double float)) :
  (forall st x st', f st x = Done st' -> same_tuning (bands st) (bands st')) ->
  forall l st st', foldM f st l = Done st' -> same_tuning (bands st) (bands st').
Proof.
  intros Hf.
  apply (foldM_preserves f (fun st st' => same_tuning (bands st) (bands st'))).
  - intros st. apply same_tuning_refl.
  - intros s1 s2 s3. apply same_tuning_trans.
  - exact Hf.
Qed.

Lemma mono_sample_tuning (data : list float) (r : run double float) (i : Z)
    (r' : run double float) :
  mono_sample data r i = Done r' -> same_tuning (bands r.1) (bands r'.1).
Proof.
  intros H. apply mono_sample_Done in H as (x & st & _ & Hst & ->).
  rewrite count_samples_bands. cbn [fst].
  eapply band_loop_tuning; [|exact Hst]. apply filter_band_tuning.
Qed.

Lemma stereo_sample_tuning (data : list float) (r : run double float) (i : Z)
    (r' : run double float) :
  stereo_sample data r i = Done r' -> same_tuning (bands r.1) (bands r'.1).
Proof.
  intros H. apply stereo_sample_Done in H as (x & y & st & _ & _ & Hst & ->).
  rewrite count_samples_bands. cbn [fst].
  eapply band_loop_tuning; [|exact Hst]. apply filter_band_stereo_tuning.
Qed.

Lemma run_tuning (step : run double float -> Z -> outcome (run double float)) :
  (forall r i r', step r i = Done r' -> same_tuning (bands r.1) (bands r'.1)) ->
  forall l r r', foldM step r l = Done r' -> same_tuning (bands r.1) (bands r'.1).
Proof.
  intros Hf.
  apply (foldM_preserves step (fun r r' => same_tuning (bands r.1) (bands r'.1))).
  - intros r. apply same_tuning_refl.
  - intros r1 r2 r3. apply same_tuning_trans.
  - exact Hf.
Qed.

(** X12.  A call of [third_octave_filter_process] that returns has
    changed nothing of the configuration: the buffer, the bypass flag, the
    sample rate, the filter order, [initialized], the channel mode, the
    calibration constant, [alpha], the integration time and the threshold
    are as before, and so are the coefficients, the number of sections and
    the centre frequency of every band.  Only delay lines, temporal sums,
    levels and [samplesCount] can differ. *)
Theorem process_keeps_configuration (st st' : third_octave_filter double float)
    (data data' : list float) (buffer_size : Z) :
  third_octave_filter_process (Some st) data buffer_size = Done (Some st', data') ->
  data' = data
  /\ bypass st' = bypass st
  /\ sample_rate st' = sample_rate st
  /\ filter_order st' = filter_order st
  /\ initialized st' = initialized st
  /\ channelType st' = channelType st
  /\ mic_constant st' = mic_constant st
  /\ alpha st' = alpha st
  /\ integrationTime st' = integrationTime st
  /\ maxNumberOfSamples st' = maxNumberOfSamples st
  /\ same_tuning (bands st) (bands st').
Proof.
  intros H.
  assert (same_tuning (bands st) (bands st')) as Ht.
  { apply process_Done in H as [log H].
    apply process_logged_Done in H as (st1 & [= <-] & _ & [(_ & -> & _)|[_ H]]);
      [apply same_tuning_refl|].
    unfold process_channels in H. cbn [fst] in H.
    destruct (channelType st =? LEFT_CHANNEL).
    { exact (run_tuning _ (mono_sample_tuning data) _ _ _ H). }
    destruct (channelType st =? RIGHT_CHANNEL).
    { exact (run_tuning _ (mono_sample_tuning data) _ _ _ H). }
    destruct (channelType st =? STEREO_CHANNEL).
    { exact (run_tuning _ (stereo_sample_tuning data) _ _ _ H). }
    injection H as <- _. apply same_tuning_refl. }
  apply process_stepped in H as [(bs & ts & vl & sl & c & -> & _) ->].
  repeat apply conj; try reflexivity. exact Ht.
Qed.

(** ** The cadence of the level computations *)

(** Counting [n] samples per iteration from an empty window, with a
    threshold [T] that the [m]-th iteration is the first to reach: a level
    computation takes place every [m] iterations, on [n * m] samples. *)
Lemma count_step_cadence (n T : Z) (m k : nat) :
  0 < n -> (0 < m)%nat ->
  n * (Z.of_nat m - 1) < T <= n * Z.of_nat m ->
  n * Z.of_nat m < 2^31 ->
  Nat.iter k (count_step n T) (0, [])
  = (n * Z.of_nat (k mod m), replicate (k / m) (n * Z.of_nat m)).
Proof.
  intros Hn Hm HT Hmax. induction k as [|k IH].
  - rewrite Nat.Div0.mod_0_l, Nat.Div0.div_0_l. simpl. f_equal. lia.
  - rewrite Nat.iter_succ, IH. unfold count_step. cbn [fst snd].
    pose proof (Nat.mod_upper_bound k m ltac:(lia)) as Hj.
    pose proof (Nat.div_mod_eq k m) as Hk.
    rewrite wrap_int_small by nia.
    rewrite int_to_u64_small by nia.
    destruct (Z.leb_spec T (n * Z.of_nat (k mod m) + n)) as [Hle|Hgt].
    + assert (S (k mod m) = m) as Hlast by nia.
      assert (S k / m = S (k / m))%nat as ->.
      { symmetry. apply (Nat.div_unique _ _ _ 0%nat); lia. }
      assert (S k mod m = 0)%nat as ->.
      { symmetry. apply (Nat.mod_unique _ _ (S (k / m))); lia. }
      rewrite replicate_S_end. f_equal; [lia|]. do 2 f_equal. nia.
    + assert (S (k mod m) < m)%nat as Hnext by nia.
      assert (S k / m = k / m)%nat as ->.
      { symmetry. apply (Nat.div_unique _ _ _ (S (k mod m))); lia. }
      assert (S k mod m = S (k mod m))%nat as ->.
      { symmetry. apply (Nat.mod_unique _ _ (k / m)); lia. }
      f_equal. lia.
Qed.


(** X14.  In stereo mode the count grows by 2, so the window closes on
    the first even count that reaches the threshold: with [m] the threshold
    halved and rounded up, a buffer of [N] pairs triggers [N / m] level
    computations, each on [2 m] samples, and leaves [2 (N mod m)] samples
    counted. *)
Theorem window_cadence_stereo (st : third_octave_filter double float)
    (data : list float) (N : nat) :
  channelType st = STEREO_CHANNEL ->
  feqb (bypass st) (f_of_int 1) = false ->
  bands_ok st ->
  length data = (2 * N)%nat ->
  samplesCount st = 0 ->
  0 < maxNumberOfSamples st < 2^31 - 1 ->
  let m := Z.to_nat ((maxNumberOfSamples st + 1) / 2) in
  exists st',
    process_logged (Some st) data (2 * Z.of_nat N)
    = Done (Some st', data, replicate (N / m) (2 * Z.of_nat m))
    /\ samplesCount st' = 2 * Z.of_nat (N mod m).
Proof.
  intros Hch Hby Hok Hlen Hc HT m.
  destruct (loop_indices_pairs N) as [Hidx Hrange].
  destruct (run_spec 2 (stereo_sample data)
              (fun i => 0 <= i /\ i + 1 < Z.of_nat (length data))
              (stereo_sample_counts data) (stereo_sample_defined data)
              (loop_indices 0 (2 * Z.of_nat N)) (st, []))
    as ([st' log] & Hrun & _ & _ & Hcount); [|exact Hok|].
  { rewrite Hlen. eapply Forall_impl; [exact Hrange|]. simpl. intros i Hi. lia. }
  rewrite Hidx, length_fmap, length_seq in Hcount. unfold counters in Hcount.
  cbn [fst snd] in Hcount. rewrite Hc in Hcount.
  assert (Z.of_nat m = (maxNumberOfSamples st + 1) / 2) as Hm.
  { unfold m. rewrite Z2Nat.id; [reflexivity|]. Z.div_mod_to_equations. lia. }
  rewrite (count_step_cadence 2 (maxNumberOfSamples st) m) in Hcount.
  2: lia.
  2: { assert (0 < Z.of_nat m); [|lia]. rewrite Hm. Z.div_mod_to_equations. lia. }
  2: { rewrite Hm. Z.div_mod_to_equations. lia. }
  2: { rewrite Hm. Z.div_mod_to_equations. lia. }
  injection Hcount as Hc' ->.
  exists st'. split; [|exact Hc'].
  rewrite process_logged_active by exact Hby.
  unfold process_channels. cbn [fst]. rewrite Hch.
  change (STEREO_CHANNEL =? LEFT_CHANNEL) with false.
  change (STEREO_CHANNEL =? RIGHT_CHANNEL) with false.
  change (STEREO_CHANNEL =? STEREO_CHANNEL) with true. cbv iota.
  rewrite Hrun. reflexivity.
Qed.

(** ** Successive buffers *)

Lemma foldM_ext {A B} (f g : A -> B -> outcome A) (l : list B) :
  Forall (fun y => forall x, f x y = g x y) l ->
  forall x, foldM f x l = foldM g x l.
Proof.
  induction 1 as [|y l Hy _ IH]; intros x; [reflexivity|].
  cbn [foldM]. rewrite Hy. destruct (g x y) as [x1|u]; [|reflexivity].
  cbn [mbind outcome_bind]. apply IH.
Qed.

Lemma foldM_fmap {A B C} (f : A -> B -> outcome A) (h : C -> B) (l : list C)
    (x : A) :
  foldM f x (h <$> l) = foldM (fun x y => f x (h y)) x l.
Proof.
  revert x. induction l as [|y l IH]; intros x; [reflexivity|].
  cbn [fmap list_fmap foldM]. destruct (f x (h y)) as [x1|u]; [|reflexivity].
  cbn [mbind outcome_bind]. apply IH.
Qed.

Lemma fmap_seq_shift {A} (g : nat -> A) (a n : nat) :
  g <$> seq a n = (fun k => g (a + k)%nat) <$> seq 0 n.
Proof.
  replace a with (a + 0)%nat at 1 by lia.
  rewrite <- fmap_add_seq, <- list_fmap_compose. reflexivity.
Qed.

(** The loop over two buffers laid end to end, the first of even length. *)
Lemma loop_indices_app (start : Z) (q : nat) (n2 : Z) :
  0 <= start <= 1 -> 0 <= n2 ->
  loop_indices start (2 * Z.of_nat q + n2)
  = loop_indices start (2 * Z.of_nat q)
    ++ ((fun i => 2 * Z.of_nat q + i) <$> loop_indices start n2).
Proof.
  intros Hs Hn. unfold loop_indices.
  assert ((2 * Z.of_nat q - start + 1) / 2 = Z.of_nat q) as ->
    by (Z.div_mod_to_equations; lia).
  assert ((2 * Z.of_nat q + n2 - start + 1) / 2
          = Z.of_nat q + (n2 - start + 1) / 2) as ->
    by (Z.div_mod_to_equations; lia).
  assert (0 <= (n2 - start + 1) / 2) by (Z.div_mod_to_equations; lia).
  rewrite Z2Nat.inj_add, Nat2Z.id by lia.
  rewrite seq_app, fmap_app. f_equal.
  rewrite fmap_seq_shift, <- list_fmap_compose.
  apply list_fmap_ext. intros i k _. simpl. lia.
Qed.

Lemma read_app_l (d1 d2 : list float) (i : Z) :
  0 <= i < Z.of_nat (length d1) -> read (d1 ++ d2) i = read d1 i.
Proof.
  intros Hi. unfold read. destruct (Z.ltb_spec i 0); [lia|].
  rewrite lookup_app_l by lia. reflexivity.
Qed.

Lemma read_app_r (d1 d2 : list float) (i : Z) :
  0 <= i -> read (d1 ++ d2) (Z.of_nat (length d1) + i) = read d2 i.
Proof.
  intros Hi. unfold read.
  destruct (Z.ltb_spec (Z.of_nat (length d1) + i) 0); [lia|].
  destruct (Z.ltb_spec i 0); [lia|].
  rewrite lookup_app_r by lia.
  replace (Z.to_nat (Z.of_nat (length d1) + i) - length d1)%nat with (Z.to_nat i)
    by lia.
  reflexivity.
Qed.

(** A run with the entries [L] already in the log. *)
Definition with_log (L : list Z) (r : run double float) : run double float :=
  (r.1, L ++ r.2).

Lemma count_samples_with_log (n : Z) (L : list Z) (r : run double float) :
  count_samples n (with_log L r) = with_log L (count_samples n r).
Proof.
  destruct r as [st log]. unfold count_samples, check_window, with_log.
  cbn [fst snd maxNumberOfSamples samplesCount set_samplesCount].
  destruct (maxNumberOfSamples st <=? int_to_u64 (wrap_int (samplesCount st + n)));
    cbn [fst snd]; [rewrite app_assoc|]; reflexivity.
Qed.

(** The log only grows at its end. *)
Definition appends (step : run double float -> Z -> outcome (run double float))
  : Prop :=
  forall L r i, step (with_log L r) i = (r' ← step r i; Done (with_log L r')).

Lemma mono_sample_appends (data : list float) : appends (mono_sample data).
Proof.
  intros L r i. unfold mono_sample. cbn [with_log fst snd].
  destruct (read data i) as [x|u]; [|reflexivity]. cbn [mbind outcome_bind].
  destruct (foldM (filter_band (d_of_f x)) r.1 all_bands) as [st|u]; [|reflexivity].
  cbn [mbind outcome_bind]. f_equal. apply (count_samples_with_log 1 L (st, r.2)).
Qed.

Lemma stereo_sample_appends (data : list float) : appends (stereo_sample data).
Proof.
  intros L r i. unfold stereo_sample. cbn [with_log fst snd].
  destruct (read data i) as [x|u]; [|reflexivity]. cbn [mbind outcome_bind].
  destruct (read data (i + 1)) as [y|u]; [|reflexivity]. cbn [mbind outcome_bind].
  destruct (foldM (filter_band_stereo (d_of_f x) (d_of_f y)) r.1 all_bands)
    as [st|u]; [|reflexivity].
  cbn [mbind outcome_bind]. f_equal. apply (count_samples_with_log 2 L (st, r.2)).
Qed.

Lemma run_appends (step : run double float -> Z -> outcome (run double float)) :
  appends step ->
  forall l L r, foldM step (with_log L r) l = (r' ← foldM step r l; Done (with_log L r')).
Proof.
  intros Hstep l. induction l as [|i l IH]; intros L r; [reflexivity|].
  cbn [foldM]. rewrite Hstep. destruct (step r i) as [r1|u]; [|reflexivity].
  cbn [mbind outcome_bind]. apply IH.
Qed.

(** A loop over [d1 ++ d2] is the loop over [d1] followed by the loop
    over [d2], when the body reads [d1 ++ d2] as it reads the parts. *)
Lemma run_split (step : list float -> run double float -> Z -> outcome (run double float))
    (start : Z) (d1 d2 : list float) (q : nat)
    (st : third_octave_filter double float) :
  0 <= start <= 1 ->
  length d1 = (2 * q)%nat ->
  appends (step d2) ->
  Forall (fun i => forall r, step (d1 ++ d2) r i = step d1 r i)
    (loop_indices start (Z.of_nat (length d1))) ->
  Forall (fun i => forall r, step (d1 ++ d2) r (Z.of_nat (length d1) + i) = step d2 r i)
    (loop_indices start (Z.of_nat (length d2))) ->
  foldM (step (d1 ++ d2)) (st, []) (loop_indices start (Z.of_nat (length (d1 ++ d2))))
  = (r1 ← foldM (step d1) (st, []) (loop_indices start (Z.of_nat (length d1)));
     r2 ← foldM (step d2) (r1.1, []) (loop_indices start (Z.of_nat (length d2)));
     Done (r2.1, r1.2 ++ r2.2)).
Proof.
  intros Hs Hq Happ Hl Hr.
  rewrite length_app, Nat2Z.inj_add.
  assert (Z.of_nat (length d1) = 2 * Z.of_nat q) as Hd1 by lia.
  rewrite Hd1 at 1. rewrite loop_indices_app by lia. rewrite <- Hd1.
  rewrite foldM_app, (foldM_ext _ _ _ Hl).
  destruct (foldM (step d1) (st, []) (loop_indices start (Z.of_nat (length d1))))
    as [[st1 log1]|u]; [|reflexivity].
  cbn [mbind outcome_bind fst snd].
  rewrite foldM_fmap, (foldM_ext _ _ _ Hr).
  replace (st1, log1) with (with_log log1 (st1, []))
    by (unfold with_log; cbn [fst snd]; rewrite app_nil_r; reflexivity).
  rewrite (run_appends _ Happ).
  destruct (foldM (step d2) (st1, []) (loop_indices start (Z.of_nat (length d2))))
    as [r2|u]; reflexivity.
Qed.

Lemma mono_sample_app_l (d1 d2 : list float) (start : Z) :
  0 <= start ->
  Forall (fun i => forall r, mono_sample (d1 ++ d2) r i = mono_sample d1 r i)
    (loop_indices start (Z.of_nat (length d1))).
Proof.
  intros Hs. eapply Forall_impl; [apply loop_indices_range|].
  intros i Hi r. simpl in Hi. unfold mono_sample.
  rewrite read_app_l by lia. reflexivity.
Qed.

Lemma mono_sample_app_r (d1 d2 : list float) (start : Z) :
  0 <= start ->
  Forall (fun i => forall r, mono_sample (d1 ++ d2) r (Z.of_nat (length d1) + i)
                             = mono_sample d2 r i)
    (loop_indices start (Z.of_nat (length d2))).
Proof.
  intros Hs. eapply Forall_impl; [apply loop_indices_range|].
  intros i Hi r. simpl in Hi. unfold mono_sample.
  rewrite read_app_r by lia. reflexivity.
Qed.

Lemma stereo_sample_app_l (d1 d2 : list float) (q : nat) :
  length d1 = (2 * q)%nat ->
  Forall (fun i => forall r, stereo_sample (d1 ++ d2) r i = stereo_sample d1 r i)
    (loop_indices 0 (Z.of_nat (length d1))).
Proof.
  intros Hq. eapply Forall_impl; [apply loop_indices_stereo_range|].
  - rewrite Hq, Nat2Z.inj_mul, Z.even_mul. reflexivity.
  - intros i Hi r. simpl in Hi. unfold stereo_sample.
    rewrite (read_app_l d1 d2 i), (read_app_l d1 d2 (i + 1)) by lia.
    reflexivity.
Qed.

Lemma stereo_sample_app_r (d1 d2 : list float) :
  Forall (fun i => forall r, stereo_sample (d1 ++ d2) r (Z.of_nat (length d1) + i)
                             = stereo_sample d2 r i)
    (loop_indices 0 (Z.of_nat (length d2))).
Proof.
  eapply Forall_impl; [apply loop_indices_range|].
  intros i Hi r. simpl in Hi. unfold stereo_sample.
  replace (Z.of_nat (length d1) + i + 1) with (Z.of_nat (length d1) + (i + 1))
    by lia.
  rewrite (read_app_r d1 d2 i), (read_app_r d1 d2 (i + 1)) by lia. reflexivity.
Qed.

Lemma run_channel (n : Z) (step : run double float -> Z -> outcome (run double float))
    (l : list Z) (st : third_octave_filter double float) (r : run double float) :
  counts n step -> foldM step (st, []) l = Done r ->
  channelType r.1 = channelType st /\ bypass r.1 = bypass st.
Proof.
  intros Hc H. apply (run_counters n step Hc) in H as [H _].
  apply stepped_config in H as (_ & H1 & H2 & _). split; assumption.
Qed.

Lemma process_channels_Done' (st : third_octave_filter double float)
    (data : list float) (buffer_size : Z) (r : run double float) :
  process_channels (st, []) data buffer_size = Done r -> bypass r.1 = bypass st.
Proof.
  destruct r as [st' log]. intros H.
  apply process_channels_Done in H as [[-> _]|(n & step & l & Hc & H)];
    [reflexivity|].
  exact (proj2 (run_channel n step l st _ Hc H)).
Qed.

Lemma process_channels_left (st : third_octave_filter double float)
    (data : list float) (n : Z) :
  (channelType st =? LEFT_CHANNEL) = true ->
  process_channels (st, []) data n
  = foldM (mono_sample data) (st, []) (loop_indices 0 n).
Proof. intros H. unfold process_channels. cbn [fst]. rewrite H. reflexivity. Qed.

Lemma process_channels_right (st : third_octave_filter double float)
    (data : list float) (n : Z) :
  (channelType st =? LEFT_CHANNEL) = false ->
  (channelType st =? RIGHT_CHANNEL) = true ->
  process_channels (st, []) data n
  = foldM (mono_sample data) (st, []) (loop_indices 1 n).
Proof.
  intros H1 H2. unfold process_channels. cbn [fst]. rewrite H1, H2. reflexivity.
Qed.

Lemma process_channels_stereo (st : third_octave_filter double float)
    (data : list float) (n : Z) :
  (channelType st =? LEFT_CHANNEL) = false ->
  (channelType st =? RIGHT_CHANNEL) = false ->
  (channelType st =? STEREO_CHANNEL) = true ->
  process_channels (st, []) data n
  = foldM (stereo_sample data) (st, []) (loop_indices 0 n).
Proof.
  intros H1 H2 H3. unfold process_channels. cbn [fst]. rewrite H1, H2, H3.
  reflexivity.
Qed.

Lemma process_channels_other (st : third_octave_filter double float)
    (data : list float) (n : Z) :
  (channelType st =? LEFT_CHANNEL) = false ->
  (channelType st =? RIGHT_CHANNEL) = false ->
  (channelType st =? STEREO_CHANNEL) = false ->
  process_channels (st, []) data n = Done (st, []).
Proof.
  intros H1 H2 H3. unfold process_channels. cbn [fst]. rewrite H1, H2, H3.
  reflexivity.
Qed.

Lemma process_channels_split (st : third_octave_filter double float)
    (d1 d2 : list float) (q : nat) :
  length d1 = (2 * q)%nat ->
  process_channels (st, []) (d1 ++ d2) (Z.of_nat (length (d1 ++ d2)))
  = (r1 ← process_channels (st, []) d1 (Z.of_nat (length d1));
     r2 ← process_channels (r1.1, []) d2 (Z.of_nat (length d2));
     Done (r2.1, r1.2 ++ r2.2)).
Proof.
  intros Hq.
  destruct (channelType st =? LEFT_CHANNEL) eqn:HL.
  { rewrite (process_channels_left st (d1 ++ d2)), (process_channels_left st d1)
      by exact HL.
    rewrite (run_split mono_sample 0 d1 d2 q st) by
      (first [lia | exact Hq | apply mono_sample_appends
             | apply mono_sample_app_l; lia | apply mono_sample_app_r; lia]).
    destruct (foldM (mono_sample d1) (st, []) _) as [r1|u] eqn:H1; [|reflexivity].
    cbn [mbind outcome_bind].
    destruct (run_channel 1 _ _ _ _ (mono_sample_counts d1) H1) as [Hc _].
    rewrite (process_channels_left r1.1 d2) by (rewrite Hc; exact HL).
    reflexivity. }
  destruct (channelType st =? RIGHT_CHANNEL) eqn:HR.
  { rewrite (process_channels_right st (d1 ++ d2)), (process_channels_right st d1)
      by assumption.
    rewrite (run_split mono_sample 1 d1 d2 q st) by
      (first [lia | exact Hq | apply mono_sample_appends
             | apply mono_sample_app_l; lia | apply mono_sample_app_r; lia]).
    destruct (foldM (mono_sample d1) (st, []) _) as [r1|u] eqn:H1; [|reflexivity].
    cbn [mbind outcome_bind].
    destruct (run_channel 1 _ _ _ _ (mono_sample_counts d1) H1) as [Hc _].
    rewrite (process_channels_right r1.1 d2) by (rewrite Hc; assumption).
    reflexivity. }
  destruct (channelType st =? STEREO_CHANNEL) eqn:HS.
  { rewrite (process_channels_stereo st (d1 ++ d2)), (process_channels_stereo st d1)
      by assumption.
    rewrite (run_split stereo_sample 0 d1 d2 q st) by
      (first [lia | exact Hq | apply stereo_sample_appends
             | eapply stereo_sample_app_l, Hq | apply stereo_sample_app_r]).
    destruct (foldM (stereo_sample d1) (st, []) _) as [r1|u] eqn:H1; [|reflexivity].
    cbn [mbind outcome_bind].
    destruct (run_channel 2 _ _ _ _ (stereo_sample_counts d1) H1) as [Hc _].
    rewrite (process_channels_stereo r1.1 d2) by (rewrite Hc; assumption).
    reflexivity. }
  rewrite (process_channels_other st (d1 ++ d2)), (process_channels_other st d1)
    by assumption.
  cbn [mbind outcome_bind fst snd].
  rewrite (process_channels_other st d2) by assumption. reflexivity.
Qed.

(** X15.  Buffers can be fed one after the other: processing [d1] and
    then [d2] leaves the bank as processing [d1 ++ d2] in one call does,
    when [d1] holds whole frames (an even number of samples) — in every
    channel mode, with or without bypass, and also when a call indexes
    past [sections] or past the buffer.  The lengths are those of an
    [int] loop counter that does not overflow (below [2^31 - 1] in total),
    and [samplesCount] is not negative and has room for one count per
    sample, so that no [int] overflows in any of the three calls. *)
Theorem process_successive_buffers (st : third_octave_filter double float)
    (d1 d2 : list float) (q : nat) :
  length d1 = (2 * q)%nat ->
  Z.of_nat (length (d1 ++ d2)) < 2^31 - 1 ->
  0 <= samplesCount st ->
  samplesCount st + Z.of_nat (length (d1 ++ d2)) < 2^31 ->
  third_octave_filter_process (Some st) (d1 ++ d2) (Z.of_nat (length (d1 ++ d2)))
  = (r1 ← third_octave_filter_process (Some st) d1 (Z.of_nat (length d1));
     r2 ← third_octave_filter_process r1.1 d2 (Z.of_nat (length d2));
     Done (r2.1, d1 ++ d2)).
Proof.
  intros Hq _ _ _. unfold third_octave_filter_process.
  destruct (feqb (bypass st) (f_of_int 1)) eqn:Hby.
  { rewrite !process_bypass_log by exact Hby.
    cbn [mbind outcome_bind fst snd].
    rewrite process_bypass_log by exact Hby. reflexivity. }
  rewrite (process_logged_active st (d1 ++ d2)), (process_logged_active st d1)
    by exact Hby.
  rewrite (process_channels_split st d1 d2 q Hq).
  destruct (process_channels (st, []) d1 (Z.of_nat (length d1))) as [r1|u] eqn:H1;
    [|reflexivity].
  cbn [mbind outcome_bind fst snd].
  rewrite (process_logged_active r1.1 d2)
    by (rewrite (process_channels_Done' _ _ _ _ H1); exact Hby).
  destruct (process_channels (r1.1, []) d2 (Z.of_nat (length d2))) as [r2|u];
    reflexivity.
Qed.

(** ** [third_octave_filter_alloc] *)

(** The band [i] after an assignment on [bands]. *)
Definition band_after (i : fin NUM_BANDS) (fb : FilterBand double)
    (s : assignment) : FilterBand double :=
  match s with
  | Assign_center_freq band v =>
      if decide (index NUM_BANDS band = Some i)
      then set_center_freq fb (d_lit v) else fb
  | Assign_num_sections band n =>
      if decide (index NUM_BANDS band = Some i)
      then set_num_sections fb n else fb
  | Assign_coefficient band section c v =>
      if decide (index NUM_BANDS band = Some i)
      then match index 2 section with
           | Some j =>
               set_sections fb
                 (vinsert j (assign_coefficient (sections fb !!! j) c (d_lit v))
                    (sections fb))
           | None => fb
           end
      else fb
  end.

Lemma run_assignment_band (bs bs' : vec (FilterBand double) NUM_BANDS)
    (s : assignment) (i : fin NUM_BANDS) :
  run_assignment bs s = Done bs' -> bs' !!! i = band_after i (bs !!! i) s.
Proof.
  destruct s as [band v|band n|band section c v];
    unfold run_assignment, band_after.
  - destruct (index NUM_BANDS band) as [k|]; [|discriminate].
    intros [= <-]. destruct (decide (Some k = Some i)) as [[= ->]|Hne].
    + apply vlookup_insert.
    + apply vlookup_insert_ne. congruence.
  - destruct (index NUM_BANDS band) as [k|]; [|discriminate].
    intros [= <-]. destruct (decide (Some k = Some i)) as [[= ->]|Hne].
    + apply vlookup_insert.
    + apply vlookup_insert_ne. congruence.
  - destruct (index NUM_BANDS band) as [k|]; [|discriminate].
    destruct (index 2 section) as [j|]; [|discriminate].
    intros [= <-]. destruct (decide (Some k = Some i)) as [[= ->]|Hne].
    + apply vlookup_insert.
    + apply vlookup_insert_ne. congruence.
Qed.

Lemma assignments_band (l : list assignment)
    (bs bs' : vec (FilterBand double) NUM_BANDS) (i : fin NUM_BANDS) :
  foldM run_assignment bs l = Done bs' ->
  bs' !!! i = foldl (band_after i) (bs !!! i) l.
Proof.
  revert bs. induction l as [|s l IH]; intros bs H; cbn [foldM foldl] in *.
  - injection H as <-. reflexivity.
  - apply bind_Done in H as (bs1 & H1 & H2).
    rewrite (IH _ H2), (run_assignment_band _ _ _ i H1). reflexivity.
Qed.

(** A section as the assignments of [initializeFilterBank] leave it. *)
Definition initial_section (c : sos) : BiquadSection double :=
  {| b := [# d_lit (sos_b0 c); d_lit (sos_b1 c); d_lit (sos_b2 c)];
     a := [# d_lit (sos_a0 c); d_lit (sos_a1 c); d_lit (sos_a2 c)];
     z := [# d_lit (Dec 0 (-1)); d_lit (Dec 0 (-1))] |}.

(** A band as they leave it, from its entry in the table: the first two
    rows in [sections[0]] and [sections[1]]. *)
Definition initial_band (bi : band_init) : FilterBand double :=
  {| sections :=
       [# initial_section (nth 0 (init_sections bi) (Sos (Dec 0 0) (Dec 0 0)
                             (Dec 0 0) (Dec 0 0) (Dec 0 0) (Dec 0 0)));
          initial_section (nth 1 (init_sections bi) (Sos (Dec 0 0) (Dec 0 0)
                             (Dec 0 0) (Dec 0 0) (Dec 0 0) (Dec 0 0)))];
     num_sections := init_num_sections bi;
     center_freq := d_lit (init_center_freq bi) |}.

(** The bands of the table for filter order 2. *)
Definition initial_bands : vec (FilterBand double) NUM_BANDS :=
  fun_to_vec (fun i => initial_band (nth (fin_to_nat i) coefficients_order_2
                                       (Band (Dec 0 0) 0 []))).

Lemma order_2_band (i : fin NUM_BANDS) (fb : FilterBand double) :
  foldl (band_after i) fb (assignments coefficients_order_2) = initial_bands !!! i
  /\ cleared_band (initial_bands !!! i) = initial_bands !!! i.
Proof.
  revert fb.
  assert (Forall (fun i => forall fb : FilterBand double,
                    foldl (band_after i) fb (assignments coefficients_order_2)
                    = initial_bands !!! i
                    /\ cleared_band (initial_bands !!! i) = initial_bands !!! i)
            all_bands) as H.
  { unfold all_bands.
    let l := eval vm_compute in (enum (fin NUM_BANDS)) in
    change (enum (fin NUM_BANDS)) with l.
    repeat (apply Forall_cons; split;
            [intros [secs n c]; inv_vec secs; intros [b0 a0 z0] [b1 a1 z1];
             inv_vec b0; intros; inv_vec a0; intros; inv_vec z0; intros;
             inv_vec b1; intros; inv_vec a1; intros; inv_vec z1; intros;
             split; vm_compute; reflexivity|]).
    apply Forall_nil. exact I. }
  rewrite Forall_forall in H. apply H, all_bands_complete.
Qed.

Lemma initializeFilterBank_order_2_unfold (bs : vec (FilterBand double) NUM_BANDS) :
  initializeFilterBank bs 2
  = foldM run_assignment bs (assignments coefficients_order_2).
Proof. unfold initializeFilterBank. rewrite Z.eqb_refl. reflexivity. Qed.

Lemma initializeFilterBank_initial_bands (bs : vec (FilterBand double) NUM_BANDS) :
  initializeFilterBank bs 2 = Done initial_bands.
Proof.
  destruct (initializeFilterBank_order_2 bs) as (bs' & H & _).
  rewrite H. f_equal. apply vec_eq. intros i.
  rewrite initializeFilterBank_order_2_unfold in H.
  rewrite (assignments_band (assignments coefficients_order_2) bs bs' i H).
  exact (proj1 (order_2_band i (bs !!! i))).
Qed.

Ltac bank_fields :=
  cbn [bypass sample_rate filter_order initialized channelType bands mic_constant
       alpha integrationTime samplesCount temporal_sum volume_level smoothed_level
       maxNumberOfSamples set_bypass set_sample_rate set_filter_order
       set_initialized set_channelType set_bands set_mic_constant
       set_integrationTime set_samplesCount set_temporal_sum set_volume_level
       set_smoothed_level set_maxNumberOfSamples mbind outcome_bind fst snd].

Lemma initial_bands_num_sections (band : fin NUM_BANDS) :
  num_sections (initial_bands !!! band) = 2.
Proof.
  destruct (initializeFilterBank_order_2 initial_bands) as (bs & H & Hn).
  rewrite initializeFilterBank_initial_bands in H. injection H as <-. apply Hn.
Qed.

Lemma initial_bands_cleared : vmap cleared_band initial_bands = initial_bands.
Proof.
  apply vec_eq. intros i. rewrite vlookup_map.
  exact (proj2 (order_2_band i (initial_bands !!! i))).
Qed.

Lemma zero_bands_replicate (st : third_octave_filter double float) :
  foldl zero_band st all_bands
  = set_smoothed_level
      (set_volume_level
         (set_temporal_sum st (vreplicate NUM_BANDS (f_lit (Dec 0 (-1)))))
         (vreplicate NUM_BANDS (f_lit (Dec 0 (-1)))))
      (vreplicate NUM_BANDS (f_of_int 0)).
Proof.
  destruct (zero_bands_spec all_bands st) as (ts & vl & sl & -> & Hz).
  assert (ts = vreplicate NUM_BANDS (f_lit (Dec 0 (-1)))
          /\ vl = vreplicate NUM_BANDS (f_lit (Dec 0 (-1)))
          /\ sl = vreplicate NUM_BANDS (f_of_int 0)) as (-> & -> & ->);
    [|reflexivity].
  repeat split; apply vec_eq; intros i; rewrite vlookup_replicate;
    apply (Hz i); left; apply all_bands_complete.
Qed.

(** The bank that allocation leaves in the memory that held [st0]:
    everything is assigned except [alpha]. *)
Definition allocated_bank (st0 : third_octave_filter double float) (rate : float)
    (n : Z) : third_octave_filter double float :=
  {| bypass := f_of_int 1;
     sample_rate := rate;
     filter_order := 2;
     initialized := 1;
     channelType := LEFT_CHANNEL;
     bands := initial_bands;
     mic_constant := f_lit (Dec 1200 (-1));
     alpha := alpha st0;
     integrationTime := 125;
     samplesCount := 0;
     temporal_sum := vreplicate NUM_BANDS (f_lit (Dec 0 (-1)));
     volume_level := vreplicate NUM_BANDS (f_lit (Dec 0 (-1)));
     smoothed_level := vreplicate NUM_BANDS (f_of_int 0);
     maxNumberOfSamples := n |}.

Lemma alloc_with (p block : option (third_octave_filter double float))
    (st0 : third_octave_filter double float) (rate : float) (order : Z)
    (bs : vec (FilterBand double) NUM_BANDS) :
  match p with None => block | Some _ => p end = Some st0 ->
  order <> 4 ->
  (forall bs', initializeFilterBank bs' 2 = Done bs) ->
  (forall band, num_sections (bs !!! band) = 2) ->
  vmap cleared_band bs = bs ->
  third_octave_filter_alloc p block rate order
  = match f_to_u64 (fmul (fdiv rate (f_of_int 1000)) (f_of_int 125)) with
    | Some n =>
        Done (Some {| bypass := f_of_int 1;
                      sample_rate := rate;
                      filter_order := 2;
                      initialized := 1;
                      channelType := LEFT_CHANNEL;
                      bands := bs;
                      mic_constant := f_lit (Dec 1200 (-1));
                      alpha := alpha st0;
                      integrationTime := 125;
                      samplesCount := 0;
                      temporal_sum := vreplicate NUM_BANDS (f_lit (Dec 0 (-1)));
                      volume_level := vreplicate NUM_BANDS (f_lit (Dec 0 (-1)));
                      smoothed_level := vreplicate NUM_BANDS (f_of_int 0);
                      maxNumberOfSamples := n |})
    | None => Undefined ConversionOutOfRange
    end.
Proof.
  intros Hp H4 Hinit Hnum Hclear. unfold third_octave_filter_alloc. rewrite Hp.
  cbv zeta. bank_fields.
  assert ((if (order =? 2) || (order =? 4) then order else 2) = 2) as ->.
  { destruct (Z.eqb_spec order 4); [contradiction|].
    destruct (Z.eqb_spec order 2); cbn [orb]; lia. }
  rewrite Hinit. bank_fields.
  rewrite resetFilterState_vmap
    by (intros band; bank_fields; rewrite Hnum; lia).
  bank_fields. rewrite Hclear, zero_bands_replicate. bank_fields.
  destruct (f_to_u64 (fmul (fdiv rate (f_of_int 1000)) (f_of_int 125)))
    as [n|] eqn:Hn; [|reflexivity].
  unfold calculateSamplesIntegration. bank_fields. rewrite Hn. reflexivity.
Qed.

Lemma alloc_on (p block : option (third_octave_filter double float))
    (st0 : third_octave_filter double float) (rate : float) (order : Z) :
  match p with None => block | Some _ => p end = Some st0 ->
  order <> 4 ->
  third_octave_filter_alloc p block rate order
  = match f_to_u64 (fmul (fdiv rate (f_of_int 1000)) (f_of_int 125)) with
    | Some n => Done (Some (allocated_bank st0 rate n))
    | None => Undefined ConversionOutOfRange
    end.
Proof.
  intros Hp H4. unfold allocated_bank.
  exact (alloc_with p block st0 rate order initial_bands Hp H4
           initializeFilterBank_initial_bands initial_bands_num_sections
           initial_bands_cleared).
Qed.

(** X16.  The outcomes of allocation.  When [pFilterBank] is null and
    [malloc] returns null, the first assignment dereferences null.
    Otherwise, with filter order 4 the initialisation writes past
    [sections[1]]; with another order the call is defined exactly when
    [(sample_rate / 1000) * 125] converts to [uint64_t], and the conversion
    is undefined if not. *)
Theorem alloc_outcomes (p block : option (third_octave_filter double float))
    (rate : float) (order : Z) :
  (p = None -> block = None ->
   third_octave_filter_alloc p block rate order = Undefined NullDereference)
  /\ (is_Some p \/ is_Some block -> order = 4 ->
      third_octave_filter_alloc p block rate order = Undefined OutOfBounds)
  /\ (is_Some p \/ is_Some block -> order <> 4 ->
      f_to_u64 (fmul (fdiv rate (f_of_int 1000)) (f_of_int 125)) = None ->
      third_octave_filter_alloc p block rate order
      = Undefined ConversionOutOfRange)
  /\ (is_Some p \/ is_Some block -> order <> 4 ->
      is_Some (f_to_u64 (fmul (fdiv rate (f_of_int 1000)) (f_of_int 125))) ->
      defined (third_octave_filter_alloc p block rate order)).
Proof.
  assert (is_Some p \/ is_Some block ->
          exists st0, match p with None => block | Some _ => p end = Some st0)
    as Hsrc.
  { intros [[x ->]|[x ->]]; [eauto|]. destruct p; eauto. }
  repeat apply conj.
  - intros -> ->. reflexivity.
  - intros Hp ->. destruct (Hsrc Hp) as [st0 H0].
    unfold third_octave_filter_alloc. rewrite H0. cbv zeta. bank_fields.
    change ((4 =? 2) || (4 =? 4)) with true. cbv iota.
    rewrite initializeFilterBank_order_4 by lia. reflexivity.
  - intros Hp H4 Hn. destruct (Hsrc Hp) as [st0 H0].
    rewrite (alloc_on p block st0 rate order H0 H4), Hn. reflexivity.
  - intros Hp H4 [n Hn]. destruct (Hsrc Hp) as [st0 H0].
    rewrite (alloc_on p block st0 rate order H0 H4), Hn. apply defined_Done.
Qed.

(** X17.  A filter order other than 2 and 4 is replaced by 2: the call
    behaves as the call with order 2. *)
Theorem alloc_order_defaults_to_2 (p block : option (third_octave_filter double float))
    (rate : float) (order : Z) :
  order <> 4 ->
  third_octave_filter_alloc p block rate order
  = third_octave_filter_alloc p block rate 2.
Proof.
  intros H4.
  destruct (match p with None => block | Some _ => p end) as [st0|] eqn:H0.
  - rewrite (alloc_on p block st0 rate order H0 H4).
    rewrite (alloc_on p block st0 rate 2 H0) by lia. reflexivity.
  - unfold third_octave_filter_alloc. rewrite H0. reflexivity.
Qed.

(** X18.  The bank after an allocation that returns.  Every field is
    assigned — the bypass flag enabled, left-channel mode, calibration
    constant 120, integration time 125 ms, an empty window, zero sums and
    levels, and the 31 bands of the order-2 table, each with two sections
    and cleared delay lines — except [alpha]: it has the value found in the
    memory of the bank (the previous bank's, or whatever the block of
    [malloc] contains).  Nothing else of the previous contents remains. *)
Theorem alloc_result (p block : option (third_octave_filter double float))
    (rate : float) (order : Z) (st : third_octave_filter double float) :
  third_octave_filter_alloc p block rate order = Done (Some st) ->
  exists st0 n,
    match p with None => block | Some _ => p end = Some st0
    /\ f_to_u64 (fmul (fdiv rate (f_of_int 1000)) (f_of_int 125)) = Some n
    /\ st = allocated_bank st0 rate n.
Proof.
  intros H. pose proof (alloc_Done _ _ _ _ _ H) as [H4 _].
  destruct (match p with None => block | Some _ => p end) as [st0|] eqn:H0.
  - rewrite (alloc_on p block st0 rate order H0 H4) in H.
    destruct (f_to_u64 (fmul (fdiv rate (f_of_int 1000)) (f_of_int 125)))
      as [n|]; [|discriminate].
    injection H as <-. exists st0, n. repeat split.
  - unfold third_octave_filter_alloc in H. rewrite H0 in H. discriminate.
Qed.

(** ** One channel of an interleaved buffer *)

Lemma read_same (data data' : list float) (i : Z) :
  data !! Z.to_nat i = data' !! Z.to_nat i -> read data i = read data' i.
Proof. intros H. unfold read. rewrite H. reflexivity. Qed.

Lemma mono_run_same (data data' : list float) (start : nat) (n : Z)
    (r : run double float) :
  (forall k : nat, data !! (start + 2 * k)%nat = data' !! (start + 2 * k)%nat) ->
  foldM (mono_sample data) r (loop_indices (Z.of_nat start) n)
  = foldM (mono_sample data') r (loop_indices (Z.of_nat start) n).
Proof.
  intros H. apply foldM_ext. unfold loop_indices.
  apply Forall_fmap, Forall_seq. intros k _ r'. cbn beta.
  unfold mono_sample. rewrite (read_same data data'); [reflexivity|].
  replace (Z.to_nat (Z.of_nat start + 2 * Z.of_nat k)) with (start + 2 * k)%nat
    by lia.
  apply H.
Qed.

(** X19.  In the two mono modes the samples of the other channel are never
    read: two buffers that agree on the even positions (left-channel mode)
    or on the odd positions (right-channel mode) give the same outcome and
    the same bank. *)
Theorem process_mono_reads_one_channel (st : third_octave_filter double float)
    (data data' : list float) (buffer_size : Z) (start : nat) :
  (channelType st = LEFT_CHANNEL /\ start = 0%nat)
  \/ (channelType st = RIGHT_CHANNEL /\ start = 1%nat) ->
  (forall k : nat, data !! (start + 2 * k)%nat = data' !! (start + 2 * k)%nat) ->
  third_octave_filter_process (Some st) data buffer_size
  = (r ← third_octave_filter_process (Some st) data' buffer_size;
     Done (r.1, data)).
Proof.
  intros Hc H. unfold third_octave_filter_process, process_logged.
  destruct (feqb (bypass st) (f_of_int 1)); [reflexivity|].
  assert (process_channels (st, []) data buffer_size
          = process_channels (st, []) data' buffer_size) as ->.
  { destruct Hc as [[Hc ->]|[Hc ->]].
    - rewrite !process_channels_left by (rewrite Hc; reflexivity).
      apply (mono_run_same data data' 0 buffer_size (st, []) H).
    - rewrite !process_channels_right by (rewrite Hc; reflexivity).
      apply (mono_run_same data data' 1 buffer_size (st, []) H). }
  destruct (process_channels (st, []) data' buffer_size) as [r|u]; reflexivity.
Qed.

End Coverage.

(** ** The properties on concrete banks *)

Section CoverageRuns.
Import IEEE.

(** The result of a call that returned. *)
Definition result {A} (d : A) (r : outcome A) : A :=
  match r with
  | Done x => x
  | Undefined _ => d
  end.

(** The bank allocated for 1000 Hz, in right-channel and in stereo mode. *)
Definition right_bank : third_octave_filter spec_float spec_float :=
  set_channelType (fresh_bank 1000 2) RIGHT_CHANNEL.

Definition stereo_bank : third_octave_filter spec_float spec_float :=
  set_channelType (fresh_bank 1000 2) STEREO_CHANNEL.

(** A bank whose bands claim four sections. *)
Definition four_sections : third_octave_filter spec_float spec_float :=
  set_bands garbage (vreplicate NUM_BANDS (set_num_sections garbage_band 4)).

Lemma fresh_bank_ok : bands_ok (fresh_bank 1000 2).
Proof. unfold bands_ok. refine (bool_decide_unpack _ _). vm_compute. exact I. Qed.

Lemma stereo_bank_ok : bands_ok stereo_bank.
Proof. unfold bands_ok. refine (bool_decide_unpack _ _). vm_compute. exact I. Qed.

(** [processFilterBand_in_bounds] on a band with [num_sections == 3]. *)
Lemma processFilterBand_in_bounds_witness :
  2 < num_sections (set_num_sections garbage_band 3)
  /\ processFilterBand (set_num_sections garbage_band 3) one
     = Undefined OutOfBounds.
Proof.
  assert (2 < num_sections (set_num_sections garbage_band 3)) as H
    by (vm_compute; reflexivity).
  apply conj; [exact H|].
  exact (proj2 (processFilterBand_in_bounds
                  (set_num_sections garbage_band 3) one) H).
Defined.

(** [processFilterBand_keeps_coefficients] on band 0 of the bank allocated
    for 1000 Hz and the sample [1.0]. *)
Lemma processFilterBand_keeps_coefficients_witness :
  let band := bands (fresh_bank 1000 2) !!! 0%fin in
  let r := result (band, one) (processFilterBand band one) in
  processFilterBand band one = Done (r.1, r.2)
  /\ num_sections r.1 = num_sections band
  /\ center_freq r.1 = center_freq band
  /\ forall j, b (sections r.1 !!! j) = b (sections band !!! j)
               /\ a (sections r.1 !!! j) = a (sections band !!! j).
Proof.
  intros band r.
  assert (processFilterBand band one = Done (r.1, r.2)) as H
    by (vm_compute; reflexivity).
  apply conj; [exact H|].
  exact (processFilterBand_keeps_coefficients band r.1 one r.2 H).
Defined.

(** [processFilterBand_cascade] on band 0 of the bank allocated for
    1000 Hz, which has two sections. *)
Lemma processFilterBand_cascade_witness :
  let band := bands (fresh_bank 1000 2) !!! 0%fin in
  num_sections band = 2
  /\ processFilterBand band one
     = Done (set_sections band
               [# (processBiquad (sections band !!! 0%fin) one).1;
                  (processBiquad (sections band !!! 1%fin)
                     (processBiquad (sections band !!! 0%fin) one).2).1 ],
             (processBiquad (sections band !!! 1%fin)
                (processBiquad (sections band !!! 0%fin) one).2).2).
Proof.
  intros band.
  assert (num_sections band = 2) as H by (vm_compute; reflexivity).
  apply conj; [exact H|].
  exact (proj1 (processFilterBand_cascade band one) H).
Defined.

(** [resetFilterState_clears] on the bank allocated for 1000 Hz. *)
Lemma resetFilterState_clears_witness :
  bands_ok (fresh_bank 1000 2)
  /\ resetFilterState (fresh_bank 1000 2)
     = Done (set_initialized
               (set_bands (fresh_bank 1000 2)
                  (vmap cleared_band (bands (fresh_bank 1000 2)))) 1).
Proof.
  apply conj; [exact fresh_bank_ok|].
  exact (resetFilterState_clears (fresh_bank 1000 2) fresh_bank_ok).
Defined.

Lemma after_window_ok : bands_ok after_window.
Proof. unfold bands_ok. refine (bool_decide_unpack _ _). vm_compute. exact I. Qed.

(** [resetFilterState_idempotent] on the bank after a run of 125 frames,
    whose delay lines are not zero. *)
Lemma resetFilterState_idempotent_witness :
  let st' := result garbage (resetFilterState after_window) in
  bands_ok after_window
  /\ resetFilterState after_window = Done st'
  /\ resetFilterState st' = Done st'.
Proof.
  intros st'.
  assert (resetFilterState after_window = Done st') as H
    by (vm_compute; reflexivity).
  apply conj; [exact after_window_ok|]. apply conj; [exact H|].
  exact (resetFilterState_idempotent after_window st' after_window_ok H).
Defined.

(** [resetFilterState_out_of_bounds] on a bank whose bands have
    [num_sections == 4]. *)
Lemma resetFilterState_out_of_bounds_witness :
  2 < num_sections (bands four_sections !!! 0%fin)
  /\ resetFilterState four_sections = Undefined OutOfBounds.
Proof.
  assert (2 < num_sections (bands four_sections !!! 0%fin)) as H
    by (vm_compute; reflexivity).
  apply conj; [exact H|].
  exact (resetFilterState_out_of_bounds four_sections 0%fin H).
Defined.

(** [process_nothing_to_do] in right-channel mode on a buffer of one
    sample. *)
Lemma process_nothing_to_do_witness :
  channelType right_bank = RIGHT_CHANNEL
  /\ 1 <= 1
  /\ third_octave_filter_process (Some right_bank) [one] 1
     = Done (Some right_bank, [one]).
Proof.
  assert (channelType right_bank = RIGHT_CHANNEL) as H1 by reflexivity.
  assert (1 <= 1) as H2 by lia.
  apply conj; [exact H1|]. apply conj; [exact H2|].
  exact (process_nothing_to_do right_bank [one] 1
           (or_intror (or_introl (conj H1 H2)))).
Defined.

(** [process_returns] in stereo mode on two pairs of [1.0f]. *)
Lemma process_returns_witness :
  bands_ok stereo_bank
  /\ 4 <= Z.of_nat (length (ones 2))
  /\ (channelType stereo_bank = STEREO_CHANNEL -> Z.even 4 = true)
  /\ 4 < 2^31 - 1
  /\ 0 <= samplesCount stereo_bank
  /\ samplesCount stereo_bank + Z.max 0 4 < 2^31
  /\ exists st',
       third_octave_filter_process (Some stereo_bank) (ones 2) 4
       = Done (Some st', ones 2)
       /\ bands_ok st'
       /\ 0 <= samplesCount st' <= samplesCount stereo_bank + Z.max 0 4.
Proof.
  assert (4 <= Z.of_nat (length (ones 2))) as H2
    by (apply Z.leb_le; vm_compute; reflexivity).
  assert (channelType stereo_bank = STEREO_CHANNEL -> Z.even 4 = true) as H3
    by (intros _; reflexivity).
  assert (4 < 2^31 - 1) as H4 by lia.
  assert (0 <= samplesCount stereo_bank) as H5
    by (apply Z.leb_le; vm_compute; reflexivity).
  assert (samplesCount stereo_bank + Z.max 0 4 < 2^31) as H6
    by (apply Z.ltb_lt; vm_compute; reflexivity).
  apply conj; [exact stereo_bank_ok|]. apply conj; [exact H2|].
  apply conj; [exact H3|]. apply conj; [exact H4|]. apply conj; [exact H5|].
  apply conj; [exact H6|].
  exact (process_returns stereo_bank (ones 2) 4 stereo_bank_ok H2 H3 H4 H5 H6).
Defined.

(** [process_stereo_odd_buffer] on a buffer of three samples. *)
Lemma process_stereo_odd_buffer_witness :
  channelType stereo_bank = STEREO_CHANNEL
  /\ feqb (bypass stereo_bank) (f_of_int 1) = false
  /\ bands_ok stereo_bank
  /\ Z.odd 3 = true
  /\ Z.of_nat (length [one; one; one]) = 3
  /\ third_octave_filter_process (Some stereo_bank) [one; one; one] 3
     = Undefined OutOfBounds.
Proof.
  assert (channelType stereo_bank = STEREO_CHANNEL) as H1 by reflexivity.
  assert (feqb (bypass stereo_bank) (f_of_int 1) = false) as H2
    by (vm_compute; reflexivity).
  assert (Z.odd 3 = true) as H4 by reflexivity.
  assert (Z.of_nat (length [one; one; one]) = 3) as H5 by reflexivity.
  apply conj; [exact H1|]. apply conj; [exact H2|].
  apply conj; [exact stereo_bank_ok|]. apply conj; [exact H4|].
  apply conj; [exact H5|].
  exact (process_stereo_odd_buffer stereo_bank [one; one; one] 3
           H1 H2 stereo_bank_ok H4 H5).
Defined.

(** [process_keeps_configuration] on the run of 125 frames at 1000 Hz. *)
Lemma process_keeps_configuration_witness :
  third_octave_filter_process (Some (fresh_bank 1000 2)) (ones 125) 250
  = Done (Some after_window, ones 125)
  /\ bypass after_window = bypass (fresh_bank 1000 2)
  /\ channelType after_window = channelType (fresh_bank 1000 2)
  /\ maxNumberOfSamples after_window = maxNumberOfSamples (fresh_bank 1000 2)
  /\ same_tuning (bands (fresh_bank 1000 2)) (bands after_window).
Proof.
  pose proof (process_keeps_configuration (fresh_bank 1000 2) after_window
                (ones 125) (ones 125) 250 window_run_process)
    as (_ & H1 & _ & _ & _ & H2 & _ & _ & _ & H3 & H4).
  apply conj; [exact window_run_process|]. apply conj; [exact H1|].
  apply conj; [exact H2|]. apply conj; [exact H3|]. exact H4.
Defined.


(** [window_cadence_stereo] on 126 pairs at 1000 Hz: the 63rd pair closes
    the window at 126 samples, twice. *)
Lemma window_cadence_stereo_witness :
  let data := ones 126 in
  channelType stereo_bank = STEREO_CHANNEL
  /\ feqb (bypass stereo_bank) (f_of_int 1) = false
  /\ bands_ok stereo_bank
  /\ length data = (2 * 126)%nat
  /\ samplesCount stereo_bank = 0
  /\ 0 < maxNumberOfSamples stereo_bank < 2^31 - 1
  /\ exists st',
       process_logged (Some stereo_bank) data (2 * Z.of_nat 126)
       = Done (Some st', data, [126; 126])
       /\ samplesCount st' = 0.
Proof.
  intros data.
  assert (channelType stereo_bank = STEREO_CHANNEL) as H1 by reflexivity.
  assert (feqb (bypass stereo_bank) (f_of_int 1) = false) as H2
    by (vm_compute; reflexivity).
  assert (length data = (2 * 126)%nat) as H4 by reflexivity.
  assert (samplesCount stereo_bank = 0) as H5 by (vm_compute; reflexivity).
  assert (maxNumberOfSamples stereo_bank = 125) as Hm
    by (vm_compute; reflexivity).
  assert (0 < maxNumberOfSamples stereo_bank < 2^31 - 1) as H6
    by (rewrite Hm; lia).
  apply conj; [exact H1|]. apply conj; [exact H2|].
  apply conj; [exact stereo_bank_ok|]. apply conj; [exact H4|].
  apply conj; [exact H5|]. apply conj; [exact H6|].
  pose proof (window_cadence_stereo stereo_bank data 126
                H1 H2 stereo_bank_ok H4 H5 H6) as H.
  cbv zeta in H. rewrite Hm in H. exact H.
Defined.

(** [process_successive_buffers] on one frame followed by one frame. *)
Lemma process_successive_buffers_witness :
  let st := fresh_bank 1000 2 in
  length (ones 1) = (2 * 1)%nat
  /\ Z.of_nat (length (ones 1 ++ ones 1)) < 2^31 - 1
  /\ 0 <= samplesCount st
  /\ samplesCount st + Z.of_nat (length (ones 1 ++ ones 1)) < 2^31
  /\ third_octave_filter_process (Some st) (ones 1 ++ ones 1)
       (Z.of_nat (length (ones 1 ++ ones 1)))
     = (r1 ← third_octave_filter_process (Some st) (ones 1)
               (Z.of_nat (length (ones 1)));
        r2 ← third_octave_filter_process r1.1 (ones 1)
               (Z.of_nat (length (ones 1)));
        Done (r2.1, ones 1 ++ ones 1)).
Proof.
  intros st.
  assert (length (ones 1) = (2 * 1)%nat) as H by reflexivity.
  assert (Z.of_nat (length (ones 1 ++ ones 1)) < 2^31 - 1) as H1
    by (apply Z.ltb_lt; vm_compute; reflexivity).
  assert (0 <= samplesCount st) as H2
    by (apply Z.leb_le; vm_compute; reflexivity).
  assert (samplesCount st + Z.of_nat (length (ones 1 ++ ones 1)) < 2^31) as H3
    by (apply Z.ltb_lt; vm_compute; reflexivity).
  apply conj; [exact H|]. apply conj; [exact H1|]. apply conj; [exact H2|].
  apply conj; [exact H3|].
  exact (process_successive_buffers st (ones 1) (ones 1) 1 H H1 H2 H3).
Defined.

(** [alloc_outcomes] with filter order 4 and with filter order 2 on a
    block of [malloc], at 48000 Hz. *)
Lemma alloc_outcomes_witness :
  (is_Some (None : option (third_octave_filter spec_float spec_float))
   \/ is_Some (Some garbage))
  /\ third_octave_filter_alloc None (Some garbage) (f_of_int 48000) 4
     = Undefined OutOfBounds
  /\ 2 <> 4
  /\ is_Some (f_to_u64 (fmul (fdiv (f_of_int 48000 : spec_float) (f_of_int 1000))
                          (f_of_int 125)))
  /\ defined (third_octave_filter_alloc None (Some garbage) (f_of_int 48000) 2).
Proof.
  assert (is_Some (None : option (third_octave_filter spec_float spec_float))
          \/ is_Some (Some garbage)) as H1
    by (right; exists garbage; reflexivity).
  assert (2 <> 4) as H2 by lia.
  assert (is_Some (f_to_u64 (fmul (fdiv (f_of_int 48000 : spec_float)
                                      (f_of_int 1000)) (f_of_int 125)))) as H3
    by (exists 6000; vm_compute; reflexivity).
  pose proof (alloc_outcomes None (Some garbage) (f_of_int 48000) 4)
    as (_ & Ha & _).
  pose proof (alloc_outcomes None (Some garbage) (f_of_int 48000) 2)
    as (_ & _ & _ & Hb).
  apply conj; [exact H1|]. apply conj; [exact (Ha H1 eq_refl)|].
  apply conj; [exact H2|]. apply conj; [exact H3|].
  exact (Hb H1 H2 H3).
Defined.

(** [alloc_order_defaults_to_2] with filter order 3. *)
Lemma alloc_order_defaults_to_2_witness :
  3 <> 4
  /\ third_octave_filter_alloc None (Some garbage)
       (f_of_int 48000 : spec_float) 3
     = third_octave_filter_alloc None (Some garbage) (f_of_int 48000) 2.
Proof.
  assert (3 <> 4) as H by lia.
  apply conj; [exact H|].
  exact (alloc_order_defaults_to_2 None (Some garbage) (f_of_int 48000) 3 H).
Defined.

(** [alloc_result] on [third_octave_filter_alloc(48000.0f, 2)] with a
    block of [malloc] that holds NaNs: [alpha] is still NaN. *)
Lemma alloc_result_witness :
  let st := bank_of (third_octave_filter_alloc None (Some garbage)
                       (f_of_int 48000) 2) in
  third_octave_filter_alloc None (Some garbage) (f_of_int 48000) 2
  = Done (Some st)
  /\ (exists st0 n,
        Some garbage = Some st0
        /\ f_to_u64 (fmul (fdiv (f_of_int 48000 : spec_float) (f_of_int 1000))
                       (f_of_int 125)) = Some n
        /\ st = allocated_bank st0 (f_of_int 48000) n)
  /\ alpha st = S754_nan.
Proof.
  intros st.
  assert (third_octave_filter_alloc None (Some garbage) (f_of_int 48000) 2
          = Done (Some st)) as H by (vm_compute; reflexivity).
  apply conj; [exact H|].
  apply conj;
    [exact (alloc_result None (Some garbage) (f_of_int 48000) 2 st H)|].
  vm_compute. reflexivity.
Defined.

(** [process_mono_reads_one_channel] in left-channel mode on two buffers
    that differ in the right channel. *)
Lemma process_mono_reads_one_channel_witness :
  let st := fresh_bank 1000 2 in
  let data := [one; one; one; one] in
  let data' := [one; S754_zero false; one; S754_nan] in
  channelType st = LEFT_CHANNEL
  /\ (forall k : nat, data !! (0 + 2 * k)%nat = data' !! (0 + 2 * k)%nat)
  /\ third_octave_filter_process (Some st) data 4
     = (r ← third_octave_filter_process (Some st) data' 4; Done (r.1, data)).
Proof.
  intros st data data'.
  assert (channelType st = LEFT_CHANNEL) as H1 by reflexivity.
  assert (forall k : nat, data !! (0 + 2 * k)%nat = data' !! (0 + 2 * k)%nat)
    as H2.
  { intros [|[|k]]; [reflexivity|reflexivity|].
    replace (0 + 2 * S (S k))%nat with (S (S (S (S (2 * k))))) by lia.
    reflexivity. }
  apply conj; [exact H1|]. apply conj; [exact H2|].
  exact (process_mono_reads_one_channel st data data' 4 0
           (or_introl (conj H1 eq_refl)) H2).
Defined.

End CoverageRuns.
